(** * wrappers.py: the ctypes test wrappers of the inode file system

    A shallow embedding of [src/wrappers.py].  The Python module drives a C
    file system through [ctypes]: the structures [Superblock], [Inode],
    [DataBlock] and [FileSystem] mirror the C layout, and the helpers
    [TInode], [mkdir] and [set_data_block] read and write that memory.

    Modelling choices.
    - A Python [int] is a [Z].  A store into a ctypes integer field keeps the
      low bits of the value (ctypes does no overflow checking); the
      wrap-around of each field width is written out below.  [c_size_t] and
      [Py_ssize_t] have 64 bits.
    - A [ctypes.POINTER] field of [FileSystem] is an unchecked pointer: any
      index that fits [Py_ssize_t] is dereferenced.  Each such field is
      modelled as its own address space, a total function from [Z].
    - A ctypes array ([c_int * 12], [c_uint8 * 1024]) checks its index: a
      negative index counts from the end, anything outside raises
      [IndexError].  Its cells are a function read only inside the bounds.
    - Statements mutate the file system in place, and the mutation made
      before an exception stays.  A computation is a function from the state
      to the state reached and either a value or the exception raised.
    - Names are ASCII, so a [str] and its UTF-8 bytes have the same length.
    - [assert] statements are enabled (the interpreter is not run with -O),
      except in the part on the module with assertions stripped.
    - The tables behind the pointers of [fs] have [num_blocks] entries
      ([in_volume]).  A statement that a call returns normally is made for
      indices inside them; outside, the unchecked dereference of the code
      has no defined outcome. *)

From Stdlib Require Import ZArith List Bool Lia String Ascii.
From Stdlib Require Import RelationClasses.
Import ListNotations.

Open Scope Z_scope.

(** ** Constants of the module *)

Definition BLOCK_SIZE : Z := 1024.
Definition NAME_MAX_LENGTH : Z := 32.
Definition DIRECT_BLOCKS_COUNT : Z := 12.

(** [class NodeType(enum.IntEnum)] *)
Inductive NodeType : Type :=
| reg_file
| directory
| free_block.

Definition int_of_NodeType (t : NodeType) : Z :=
  match t with
  | reg_file => 1
  | directory => 2
  | free_block => 3
  end.

(** ** Stores into ctypes integer fields *)

Definition wrap_unsigned (bits : Z) (v : Z) : Z := v mod 2 ^ bits.

Definition wrap_signed (bits : Z) (v : Z) : Z :=
  (v + 2 ^ (bits - 1)) mod 2 ^ bits - 2 ^ (bits - 1).

Definition c_uint8 : Z -> Z := wrap_unsigned 8.
Definition c_uint16 : Z -> Z := wrap_unsigned 16.
Definition c_uint32 : Z -> Z := wrap_unsigned 32.
Definition c_size_t : Z -> Z := wrap_unsigned 64.
Definition c_int : Z -> Z := wrap_signed 32.

(** ** The ctypes structures *)

Module DataBlock.
Record t : Type := mk { size : Z; block : Z -> Z }.
End DataBlock.

Module Inode.
Record t : Type := mk {
  n_type : Z;
  size : Z;
  (** the value the [c_char * 32] field reads as: the bytes up to the
      first NUL *)
  name : string;
  direct_blocks : Z -> Z;
  parent : Z
}.
End Inode.

Module Superblock.
Record t : Type := mk { num_blocks : Z; free_blocks : Z }.
End Superblock.

(** [s_block] is only ever read at index 0, so the model keeps that cell. *)
Record FileSystem : Type := mkFileSystem {
  s_block : Superblock.t;
  free_list : Z -> Z;
  inodes : Z -> Inode.t;
  data_blocks : Z -> DataBlock.t;
  root_node : Z
}.

(** Write to one cell of a memory. *)
Definition upd {A : Type} (m : Z -> A) (k : Z) (v : A) : Z -> A :=
  fun j => if j =? k then v else m j.

Definition with_s_block (fs : FileSystem) (sb : Superblock.t) : FileSystem :=
  mkFileSystem sb (free_list fs) (inodes fs) (data_blocks fs) (root_node fs).

Definition with_free_list (fs : FileSystem) (fl : Z -> Z) : FileSystem :=
  mkFileSystem (s_block fs) fl (inodes fs) (data_blocks fs) (root_node fs).

Definition with_inode (fs : FileSystem) (i : Z) (ino : Inode.t) : FileSystem :=
  mkFileSystem (s_block fs) (free_list fs) (upd (inodes fs) i ino)
               (data_blocks fs) (root_node fs).

Definition with_data_block (fs : FileSystem) (b : Z) (db : DataBlock.t)
  : FileSystem :=
  mkFileSystem (s_block fs) (free_list fs) (inodes fs)
               (upd (data_blocks fs) b db) (root_node fs).

(** ** Exceptions and computations *)

(** The exceptions the module can raise.  An [AssertionError] carries the
    source line of the failed [assert]. *)
Inductive exn : Type :=
| AssertionError (line : nat)
| AttributeError
| LookupError
| IndexError
| ValueError
| SystemExit.

(** [OutOfFuel] is not a Python outcome: it marks a [while] loop of the model
    that was cut off ([set_data_block_fuel_enough] shows it never happens). *)
Inductive result (A : Type) : Type :=
| Ok (a : A)
| Raise (e : exn)
| OutOfFuel.

Arguments Ok {A} a.
Arguments Raise {A} e.
Arguments OutOfFuel {A}.

Definition M (A : Type) : Type := FileSystem -> FileSystem * result A.

Definition ret {A : Type} (a : A) : M A := fun fs => (fs, Ok a).

Definition raise {A : Type} (e : exn) : M A := fun fs => (fs, Raise e).

Definition bind {A B : Type} (c : M A) (k : A -> M B) : M B :=
  fun fs =>
    match c fs with
    | (fs', Ok a) => k a fs'
    | (fs', Raise e) => (fs', Raise e)
    | (fs', OutOfFuel) => (fs', OutOfFuel)
    end.

Notation "x <- c ;; k" := (bind c (fun x => k))
  (at level 61, c at next level, right associativity).
Notation "c ;; k" := (bind c (fun _ => k))
  (at level 61, right associativity).

Definition gets {A : Type} (f : FileSystem -> A) : M A :=
  fun fs => (fs, Ok (f fs)).

Definition modify (f : FileSystem -> FileSystem) : M unit :=
  fun fs => (f fs, Ok tt).

(** A pure computation that may raise, run inside [M]. *)
Definition lift {A : Type} (r : result A) : M A := fun fs => (fs, r).

(** [assert cond], written at source line [line]. *)
Definition assert_ (cond : bool) (line : nat) : M unit :=
  if cond then ret tt else raise (AssertionError line).

(** ** Indexing *)

(** The index of a ctypes pointer must fit [Py_ssize_t]; nothing else is
    checked. *)
Definition ssize_ok (i : Z) : bool := (- 2 ^ 63 <=? i) && (i <? 2 ^ 63).

Definition ptr (i : Z) : M Z :=
  if ssize_ok i then ret i else raise IndexError.

(** A negative index counts from the end of the sequence. *)
Definition from_end (len i : Z) : Z := if i <? 0 then i + len else i.

(** The cell a ctypes array of [len] elements addresses with index [i]. *)
Definition array_index (len i : Z) : result Z :=
  let j := from_end len i in
  if (0 <=? j) && (j <? len) then Ok j else Raise IndexError.

(** [l[i]] on a Python list. *)
Definition list_item (l : list Z) (i : Z) : result Z :=
  let n := Z.of_nat (List.length l) in
  let j := from_end n i in
  if (0 <=? j) && (j <? n)
  then Ok (nth (Z.to_nat j) l 0)
  else Raise IndexError.

(** [range(n)] from [start], as the list of its values. *)
Fixpoint zrange (start : Z) (n : nat) : list Z :=
  match n with
  | O => []
  | S n' => start :: zrange (start + 1) n'
  end.

(** [for i in range(start, start + n): body(i)] *)
Fixpoint for_range (n : nat) (i : Z) (body : Z -> M unit) : M unit :=
  match n with
  | O => ret tt
  | S n' => body i ;; for_range n' (i + 1) body
  end.

(** ** Field accesses through the pointers of [fs] *)

(** [fs.data_blocks[b].size = v] *)
Definition store_data_block_size (b v : Z) : M unit :=
  b' <- ptr b ;;
  modify (fun fs =>
    let db := data_blocks fs b' in
    with_data_block fs b' (DataBlock.mk (c_size_t v) (DataBlock.block db))).

(** [fs.data_blocks[b].block[i] = v] *)
Definition store_data_block_byte (b i v : Z) : M unit :=
  b' <- ptr b ;;
  j <- lift (array_index BLOCK_SIZE i) ;;
  modify (fun fs =>
    let db := data_blocks fs b' in
    with_data_block fs b'
      (DataBlock.mk (DataBlock.size db) (upd (DataBlock.block db) j (c_uint8 v)))).

(** [fs.data_blocks[b].size] *)
Definition load_data_block_size (b : Z) : M Z :=
  b' <- ptr b ;;
  gets (fun fs => DataBlock.size (data_blocks fs b')).

(** [fs.inodes[i].direct_blocks[k]] *)
Definition load_direct_block (i k : Z) : M Z :=
  i' <- ptr i ;;
  j <- lift (array_index DIRECT_BLOCKS_COUNT k) ;;
  gets (fun fs => Inode.direct_blocks (inodes fs i') j).

(** [fs.inodes[i].direct_blocks[k] = v] *)
Definition store_direct_block (i k v : Z) : M unit :=
  i' <- ptr i ;;
  j <- lift (array_index DIRECT_BLOCKS_COUNT k) ;;
  modify (fun fs =>
    let ino := inodes fs i' in
    with_inode fs i'
      (Inode.mk (Inode.n_type ino) (Inode.size ino) (Inode.name ino)
                (upd (Inode.direct_blocks ino) j (c_int v)) (Inode.parent ino))).

(** [fs.inodes[i].size] *)
Definition load_inode_size (i : Z) : M Z :=
  i' <- ptr i ;;
  gets (fun fs => Inode.size (inodes fs i')).

(** [fs.inodes[i].size = v] *)
Definition store_inode_size (i v : Z) : M unit :=
  i' <- ptr i ;;
  modify (fun fs =>
    let ino := inodes fs i' in
    with_inode fs i'
      (Inode.mk (Inode.n_type ino) (c_uint16 v) (Inode.name ino)
                (Inode.direct_blocks ino) (Inode.parent ino))).

(** [fs.inodes[i].n_type = v] *)
Definition store_inode_n_type (i v : Z) : M unit :=
  i' <- ptr i ;;
  modify (fun fs =>
    let ino := inodes fs i' in
    with_inode fs i'
      (Inode.mk (c_int v) (Inode.size ino) (Inode.name ino)
                (Inode.direct_blocks ino) (Inode.parent ino))).

(** [fs.inodes[i].parent = v] *)
Definition store_inode_parent (i v : Z) : M unit :=
  i' <- ptr i ;;
  modify (fun fs =>
    let ino := inodes fs i' in
    with_inode fs i'
      (Inode.mk (Inode.n_type ino) (Inode.size ino) (Inode.name ino)
                (Inode.direct_blocks ino) (c_int v))).

(** The bytes of [s] up to its first NUL. *)
Fixpoint until_nul (s : string) : string :=
  match s with
  | EmptyString => EmptyString
  | String c s' => if Ascii.eqb c zero then EmptyString else String c (until_nul s')
  end.

(** [fs.inodes[i].name = bytes(s, "utf-8")]: the setter of a [c_char * 32]
    field measures the value with [strlen], so it takes the bytes before the
    first NUL, raises [ValueError] when there are more than 32 of them and
    copies them otherwise; they are what the field reads back as. *)
Definition store_inode_name (i : Z) (s : string) : M unit :=
  i' <- ptr i ;;
  (if Z.of_nat (String.length (until_nul s)) >? NAME_MAX_LENGTH
   then raise ValueError
   else modify (fun fs =>
     let ino := inodes fs i' in
     with_inode fs i'
       (Inode.mk (Inode.n_type ino) (Inode.size ino) (until_nul s)
                 (Inode.direct_blocks ino) (Inode.parent ino)))).

(** [fs.free_list[b] = v] *)
Definition store_free_list (b v : Z) : M unit :=
  b' <- ptr b ;;
  modify (fun fs => with_free_list fs (upd (free_list fs) b' (c_uint8 v))).

(** [fs.s_block[0].free_blocks] *)
Definition load_free_blocks : M Z :=
  gets (fun fs => Superblock.free_blocks (s_block fs)).

(** [fs.s_block[0].free_blocks = v] *)
Definition store_free_blocks (v : Z) : M unit :=
  modify (fun fs =>
    with_s_block fs
      (Superblock.mk (Superblock.num_blocks (s_block fs)) (c_uint32 v))).

(** ** [TInode]: the expected model of an inode *)

(** [getattr(fs.s_block[0], field)]: a ctypes structure has the attributes
    its [_fields_] declare and no others. *)
Definition Superblock_getattr (sb : Superblock.t) (field : string) : result Z :=
  if String.eqb field "num_blocks" then Ok (Superblock.num_blocks sb)
  else if String.eqb field "free_blocks" then Ok (Superblock.free_blocks sb)
  else Raise AttributeError.

Module TInode.

(** [idx] is [None] while the attribute has not been assigned: the class
    body only annotates it, so reading it then raises [AttributeError]. *)
Record t : Type := mk {
  name : string;
  n_type : NodeType;
  parent : Z;
  idx : option Z;
  blocks : list Z
}.

(** The default of the [blocks] argument, [[0] * 12]. *)
Definition default_blocks : list Z := repeat 0 12%nat.

(** [TInode.__init__(self, fs, name, n_type, parent, idx, blocks)] *)
Definition init (fs : FileSystem) (name : string) (n_type : NodeType)
           (parent : Z) (idx : option Z) (blocks : list Z) : result t :=
  let sb := s_block fs in
  let len_blocks := Z.of_nat (List.length blocks) in
  if negb (Z.of_nat (String.length name) =? 32)
  then Raise (AssertionError 106)
  else if negb ((parent >? 0) && (parent <? Superblock.num_blocks sb))
  then Raise (AssertionError 109)
  else if negb (Inode.n_type (inodes fs parent) =? int_of_NodeType directory)
  then Raise (AssertionError 110)
  else if negb (len_blocks <=? DIRECT_BLOCKS_COUNT)
  then Raise (AssertionError 112)
  else
    let blocks' :=
      blocks ++ repeat (-1) (Z.to_nat (DIRECT_BLOCKS_COUNT - len_blocks)) in
    match idx with
    | None => Ok (mk name n_type parent None blocks')
    | Some i =>
        (* assert idx > 0 and idx < fs.s_block[0].num_block *)
        if i >? 0 then
          match Superblock_getattr sb "num_block" with
          | Ok n =>
              if i <? n then Ok (mk name n_type parent (Some i) blocks')
              else Raise (AssertionError 116)
          | Raise e => Raise e
          | OutOfFuel => OutOfFuel
          end
        else Raise (AssertionError 116)
    end.

(** [TInode.pin(self, idx)] *)
Definition pin (self : t) (i : Z) : result t :=
  if negb (i >? 0) then Raise (AssertionError 141)
  else Ok (mk (name self) (n_type self) (parent self) (Some i) (blocks self)).

(** [all(p(k) for k in ks)], where [p] may raise. *)
Fixpoint all_of (ks : list Z) (p : Z -> result bool) : result bool :=
  match ks with
  | [] => Ok true
  | k :: ks' =>
      match p k with
      | Ok true => all_of ks' p
      | Ok false => Ok false
      | Raise e => Raise e
      | OutOfFuel => OutOfFuel
      end
  end.

(** [TInode.check(self, fs, idx, check_parents)].  Line 147 reads
    [self.idx] first, which raises while the attribute is unset; once set it
    is an [int], so lines 149-151 do nothing and the [idx] argument is not
    used.  The inode indices the method dereferences are range-checked or
    read from [c_int] fields, so they fit [Py_ssize_t].  It does not write
    to [fs]. *)
Definition check (self : t) (fs : FileSystem) (idx_arg : option Z)
           (check_parents : bool) : result unit :=
  match idx self with
  | None => Raise AttributeError
  | Some i =>
      let ino := inodes fs i in
      if negb ((i >? 0) && (i <? Superblock.num_blocks (s_block fs)))
      then Raise (AssertionError 152)
      else if negb (String.eqb (Inode.name ino) (name self))
      then Raise (AssertionError 155)
      else if negb (Inode.n_type ino =? int_of_NodeType (n_type self))
      then Raise (AssertionError 156)
      else if negb (Inode.parent ino =? parent self)
      then Raise (AssertionError 157)
      else if check_parents
              && negb (existsb
                         (fun k => Inode.direct_blocks
                                     (inodes fs (Inode.parent ino)) k =? i)
                         (zrange 0 12))
      then Raise (AssertionError 161)
      else if check_parents
              && negb (forallb
                         (fun block => Inode.parent (inodes fs block) =? i)
                         (map (fun d => Inode.direct_blocks ino d)
                              (zrange 0 12)))
      then Raise (AssertionError 164)
      else
        match all_of (zrange 0 12)
                (fun k =>
                   match list_item (blocks self) k with
                   | Ok b => Ok (Inode.direct_blocks ino k =? b)
                   | Raise e => Raise e
                   | OutOfFuel => OutOfFuel
                   end) with
        | Ok true => Ok tt
        | Ok false => Raise (AssertionError 172)
        | Raise e => Raise e
        | OutOfFuel => OutOfFuel
        end
  end.

End TInode.

(** ** [mkdir] *)

(** [inode.idx], an attribute that may be unset. *)
Definition TInode_idx (inode : TInode.t) : M Z :=
  match TInode.idx inode with
  | Some i => ret i
  | None => raise AttributeError
  end.

(** [mkdir(fs, name, idx, parent, parent_direct_block)] *)
Definition mkdir (name : string) (idx parent : Z)
           (parent_direct_block : option Z) : M TInode.t :=
  fs <- gets (fun fs => fs) ;;
  inode <- lift (TInode.init fs name directory parent (Some idx)
                             TInode.default_blocks) ;;
  slot <- match parent_direct_block with
          | Some p => ret p
          | None =>
              assert_ ((parent >? 0)
                       && (parent <? Superblock.num_blocks (s_block fs))) 182 ;;
              match find (fun i => Inode.direct_blocks (inodes fs parent) i =? -1)
                         (zrange 0 12) with
              | Some i => ret i
              | None => raise LookupError
              end
          end ;;
  store_inode_n_type idx (int_of_NodeType (TInode.n_type inode)) ;;
  store_inode_name idx (TInode.name inode) ;;
  store_inode_parent idx parent ;;
  i <- TInode_idx inode ;;
  store_direct_block parent slot i ;;
  for_range 12 0 (fun i =>
    b <- lift (list_item (TInode.blocks inode) i) ;;
    store_direct_block idx i b) ;;
  ret inode.

(** ** [set_data_block] *)

(** The [while True] loop that adds up the block sizes (lines 219-225),
    entered with the counter at [i]. *)
Fixpoint recompute_size_loop (fuel : nat) (parent_inode i : Z) : M unit :=
  match fuel with
  | O => fun fs => (fs, OutOfFuel)
  | S fuel' =>
      d <- load_direct_block parent_inode i ;;
      if negb (d =? -1) then
        s <- load_inode_size parent_inode ;;
        d' <- load_direct_block parent_inode i ;;
        sz <- load_data_block_size d' ;;
        store_inode_size parent_inode (s + sz) ;;
        recompute_size_loop fuel' parent_inode (i + 1)
      else ret tt
  end.

(** The counter stops at 12 at the latest, where the array raises. *)
Definition loop_fuel : nat := 13.

(** [set_data_block(block_num, data, data_size, parent_inode,
    parent_block_num, fs)]; [exit()] raises [SystemExit]. *)
Definition set_data_block (block_num : Z) (data : list Z) (data_size : Z)
           (parent_inode parent_block_num : Z) : M unit :=
  if data_size >? 1024 then raise SystemExit
  else
    store_data_block_size block_num data_size ;;
    for_range (Z.to_nat data_size) 0 (fun i =>
      v <- lift (list_item data i) ;;
      store_data_block_byte block_num i v) ;;
    store_direct_block parent_inode parent_block_num block_num ;;
    store_inode_size parent_inode 0 ;;
    recompute_size_loop loop_fuel parent_inode 0 ;;
    store_free_list block_num 0 ;;
    fb <- load_free_blocks ;;
    store_free_blocks (fb - 1).

(** [set_data_block_with_string]: the code points of the string are the
    data, and their number the size. *)
Definition set_data_block_with_string (block_num : Z) (string_data : string)
           (parent_inode parent_block_num : Z) : M unit :=
  let string_data_block :=
    map (fun c => Z.of_nat (nat_of_ascii c)) (list_ascii_of_string string_data) in
  set_data_block block_num string_data_block
                 (Z.of_nat (List.length string_data_block))
                 parent_inode parent_block_num.

(** * Specification vocabulary *)

(** ** Outcomes *)

Definition succeeded {A : Type} (r : result A) : bool :=
  match r with
  | Ok _ => true
  | _ => false
  end.

(** [c] never runs out of fuel. *)
Definition terminates {A : Type} (c : M A) : Prop :=
  forall fs, snd (c fs) <> OutOfFuel.

(** [c] keeps [I]: whatever the outcome, the state reached is related to the
    state [c] started from. *)
Definition preserves {A : Type} (I : FileSystem -> FileSystem -> Prop)
           (c : M A) : Prop :=
  forall fs fs' r, c fs = (fs', r) -> I fs fs'.

(** ** The superblock and the free list *)

(** Neither the superblock nor the free list has been written. *)
Definition same_bookkeeping (fs fs' : FileSystem) : Prop :=
  s_block fs' = s_block fs /\ free_list fs' = free_list fs.

(** Block [b] is marked free: [set_data_block] marks a used block with 0. *)
Definition marked_free (fs : FileSystem) (b : Z) : bool :=
  negb (free_list fs b =? 0).

(** The number of blocks of the volume marked free in the free list. *)
Definition count_free (fs : FileSystem) : Z :=
  Z.of_nat
    (List.length
       (filter (marked_free fs)
               (zrange 0 (Z.to_nat (Superblock.num_blocks (s_block fs)))))).

(** The counter of the superblock agrees with the free list. *)
Definition free_count_consistent (fs : FileSystem) : Prop :=
  Superblock.free_blocks (s_block fs) = count_free fs.

(** ** The footprint of an attachment *)

(** [fs'] differs from [fs] at most in: the free-block counter, the free-list
    entry of [block_num], the size and the first [data_size] payload bytes of
    data block [block_num], and the size and the cell [slot] of the direct
    blocks of inode [parent_inode]. *)
Record attach_frame (block_num data_size parent_inode slot : Z)
       (fs fs' : FileSystem) : Prop := {
  frame_num_blocks :
    Superblock.num_blocks (s_block fs') = Superblock.num_blocks (s_block fs);
  frame_root_node : root_node fs' = root_node fs;
  frame_free_list :
    forall b, b <> block_num -> free_list fs' b = free_list fs b;
  frame_inodes :
    forall i, i <> parent_inode -> inodes fs' i = inodes fs i;
  frame_owner_n_type :
    Inode.n_type (inodes fs' parent_inode) = Inode.n_type (inodes fs parent_inode);
  frame_owner_name :
    Inode.name (inodes fs' parent_inode) = Inode.name (inodes fs parent_inode);
  frame_owner_parent :
    Inode.parent (inodes fs' parent_inode) = Inode.parent (inodes fs parent_inode);
  frame_owner_slots :
    forall k, k <> slot ->
      Inode.direct_blocks (inodes fs' parent_inode) k
      = Inode.direct_blocks (inodes fs parent_inode) k;
  frame_data_blocks :
    forall b, b <> block_num -> data_blocks fs' b = data_blocks fs b;
  frame_payload :
    forall k, ~ (0 <= k < data_size) ->
      DataBlock.block (data_blocks fs' block_num) k
      = DataBlock.block (data_blocks fs block_num) k
}.

(** ** The size accounting *)

(** The pointers before the first empty-slot sentinel. *)
Fixpoint contiguous_prefix (slots : list Z) : list Z :=
  match slots with
  | [] => []
  | d :: rest => if d =? -1 then [] else d :: contiguous_prefix rest
  end.

Definition sum (l : list Z) : Z := fold_right Z.add 0 l.

(** The slots [first, first + n) of inode [i], in order. *)
Definition slots_from (fs : FileSystem) (i first : Z) (n : nat) : list Z :=
  map (Inode.direct_blocks (inodes fs i)) (zrange first n).

(** The sum of the sizes of the data blocks referenced by the contiguous
    prefix of the direct blocks of inode [i]: slot 0 first, up to the first
    sentinel. *)
Definition prefix_size_sum (fs : FileSystem) (i : Z) : Z :=
  sum (map (fun d => DataBlock.size (data_blocks fs d))
           (contiguous_prefix (slots_from fs i 0 12))).

(** What the loop leaves in the 16-bit size field after adding the sizes of
    the blocks [ds] one by one. *)
Definition accumulate (blocks : Z -> DataBlock.t) (ds : list Z) (s : Z) : Z :=
  fold_left (fun s d => c_uint16 (s + DataBlock.size (blocks d))) ds s.

(** ** Block sizes *)

(** The [DataBlock] invariant: every block uses at most [BLOCK_SIZE] bytes. *)
Definition within_capacity (fs : FileSystem) : Prop :=
  forall b, 0 <= DataBlock.size (data_blocks fs b) <= BLOCK_SIZE.

Definition keeps_capacity (fs fs' : FileSystem) : Prop :=
  within_capacity fs -> within_capacity fs'.

(** * Example volumes *)

Definition blank_inode : Inode.t := Inode.mk 3 0 EmptyString (fun _ => -1) 0.

Definition blank_block : DataBlock.t := DataBlock.mk 0 (fun _ => 0).

Definition root_dir : Inode.t := Inode.mk 2 0 "/"%string (fun _ => -1) 0.

(** A volume of 16 blocks, all free, whose only inode in use is the root
    directory at index 1. *)
Definition volume16 : FileSystem :=
  mkFileSystem (Superblock.mk 16 16) (fun _ => 1)
               (upd (fun _ => blank_inode) 1 root_dir)
               (fun _ => blank_block) 1.

(** ["dir2"] padded to the 32 characters of the name field. *)
Definition dir2_name : string := "dir2                            "%string.

(** ["file2"] padded to 32 characters. *)
Definition file2_name : string := "file2                           "%string.

(** [volume16] with a regular file at inode 2, entered in slot 0 of the
    root; the file has no data block yet. *)
Definition files16 : FileSystem :=
  mkFileSystem (Superblock.mk 16 16) (fun _ => 1)
    (upd (upd (fun _ => blank_inode)
              1 (Inode.mk 2 0 "/"%string (upd (fun _ => -1) 0 2) 0))
         2 (Inode.mk 1 0 file2_name (fun _ => -1) 1))
    (fun _ => blank_block) 1.

(** The code points of ["hello"]. *)
Definition hello : list Z := [104; 101; 108; 108; 111].

(** Attaching ["hello"] to block 5 as slot 0 of inode 2, [n] times in a
    row. *)
Definition attach_hello_times (n : nat) : M unit :=
  for_range n 0 (fun _ => set_data_block 5 hello 5 2 0).

(** ** Directory trees *)

Definition dir3_name : string := "dir3                            "%string.

(** The root at 1 holds directory 2 in slot 0, which holds directory 3 in
    slot 0; every other slot is empty. *)
Definition tree16 : FileSystem :=
  mkFileSystem (Superblock.mk 16 16) (fun _ => 1)
    (upd (upd (upd (fun _ => blank_inode)
                   1 (Inode.mk 2 0 "/"%string (upd (fun _ => -1) 0 2) 0))
              2 (Inode.mk 2 0 dir2_name (upd (fun _ => -1) 0 3) 1))
         3 (Inode.mk 2 0 dir3_name (fun _ => -1) 2))
    (fun _ => blank_block) 1.

(** The expected model of inode 2 of [tree16]. *)
Definition expected_dir2 : TInode.t :=
  TInode.mk dir2_name directory 1 (Some 2)
            [3; -1; -1; -1; -1; -1; -1; -1; -1; -1; -1; -1].

(** * The other helpers of the module *)

(** ** [set_dir] and [set_fil] *)

(** [set_dir(name, inode, parent, parent_block, fs)] *)
Definition set_dir (name : string) (inode parent parent_block : Z) : M unit :=
  store_inode_n_type inode 2 ;;
  store_inode_name inode name ;;
  store_inode_parent inode parent ;;
  store_direct_block parent parent_block inode.

(** [set_fil(name, inode, parent, parent_block, fs)] *)
Definition set_fil (name : string) (inode parent parent_block : Z) : M unit :=
  store_inode_n_type inode 1 ;;
  store_inode_name inode name ;;
  store_inode_parent inode parent ;;
  store_direct_block parent parent_block inode.

(** ** [TInode.__setitem__] *)

(** The keys and values [__setitem__] tells apart: a key is a [str] or an
    [int]; a value is an [int], a [str] or a [NodeType] (an [IntEnum], so
    also an [int]). *)
Inductive item_key : Type :=
| KeyStr (s : string)
| KeyInt (i : Z).

Inductive item_value : Type :=
| ValInt (v : Z)
| ValStr (s : string)
| ValNodeType (t : NodeType).

(** [__setitem__] can raise [KeyError] besides the exceptions of [exn]. *)
Inductive setitem_result : Type :=
| Updated (self : TInode.t)
| Failed (e : exn)
| KeyError.

(** [isinstance(value, int)], and the integer the value then is. *)
Definition int_of_value (value : item_value) : option Z :=
  match value with
  | ValInt v => Some v
  | ValStr _ => None
  | ValNodeType t => Some (int_of_NodeType t)
  end.

(** [NodeType(value)] for a value that is an [int]: the member with that
    number; there is none ([ValueError]) for other numbers. *)
Definition NodeType_of_int (v : Z) : option NodeType :=
  if v =? 1 then Some reg_file
  else if v =? 2 then Some directory
  else if v =? 3 then Some free_block
  else None.

(** The list [l] with element [n] replaced by [v]. *)
Fixpoint replace_nth (n : nat) (l : list Z) (v : Z) : list Z :=
  match l, n with
  | [], _ => []
  | _ :: rest, O => v :: rest
  | x :: rest, S n' => x :: replace_nth n' rest v
  end.

(** [l[i] = v] on a Python list; outside the list it is an [IndexError]. *)
Definition list_setitem (l : list Z) (i v : Z) : option (list Z) :=
  let n := Z.of_nat (List.length l) in
  let j := from_end n i in
  if (0 <=? j) && (j <? n)
  then Some (replace_nth (Z.to_nat j) l v)
  else None.

(** [TInode.__setitem__(self, key, value)]; the result is the object after
    the assignment. *)
Definition TInode_setitem (self : TInode.t) (key : item_key)
           (value : item_value) : setitem_result :=
  let is_key s := match key with
                  | KeyStr k => String.eqb k s
                  | KeyInt _ => false
                  end in
  if is_key "name"%string then
    match value with
    | ValStr s =>
        if Z.of_nat (String.length s) <=? NAME_MAX_LENGTH
        then Updated (TInode.mk s (TInode.n_type self) (TInode.parent self)
                                (TInode.idx self) (TInode.blocks self))
        else Failed (AssertionError 122)
    | _ => Failed (AssertionError 122)
    end
  else if is_key "n_ntype"%string then
    match value with
    | ValStr _ => Failed (AssertionError 125)
    | ValNodeType t =>
        Updated (TInode.mk (TInode.name self) t (TInode.parent self)
                           (TInode.idx self) (TInode.blocks self))
    | ValInt v =>
        match NodeType_of_int v with
        | Some t =>
            Updated (TInode.mk (TInode.name self) t (TInode.parent self)
                               (TInode.idx self) (TInode.blocks self))
        | None => Failed ValueError
        end
    end
  else if is_key "parent"%string then
    match int_of_value value with
    | Some v =>
        if v >? 0
        then Updated (TInode.mk (TInode.name self) (TInode.n_type self) v
                                (TInode.idx self) (TInode.blocks self))
        else Failed (AssertionError 128)
    | None => Failed (AssertionError 128)
    end
  else if is_key "idx"%string then
    match int_of_value value with
    | Some v =>
        (* self.pin(value) *)
        if negb (v >? 0) then Failed (AssertionError 141)
        else Updated (TInode.mk (TInode.name self) (TInode.n_type self)
                                (TInode.parent self) (Some v)
                                (TInode.blocks self))
    | None => Failed (AssertionError 131)
    end
  else
    match key, int_of_value value with
    | KeyInt k, Some v =>
        if v >? 0 then
          match list_setitem (TInode.blocks self) k v with
          | Some blocks' =>
              Updated (TInode.mk (TInode.name self) (TInode.n_type self)
                                 (TInode.parent self) (TInode.idx self) blocks')
          | None => Failed IndexError
          end
        else Failed (AssertionError 134)
    | _, _ => KeyError
    end.

(** ** Vocabulary for the further properties *)

(** [c] ends normally or raises [e]; in particular it does not run out of
    fuel. *)
Definition raises_only {A : Type} (e : exn) (c : M A) : Prop :=
  forall fs fs' r, c fs = (fs', r) -> succeeded r = true \/ r = Raise e.

(** The inode table, the superblock and the free list have not been
    written. *)
Definition same_tables (fs fs' : FileSystem) : Prop :=
  inodes fs' = inodes fs /\ s_block fs' = s_block fs
  /\ free_list fs' = free_list fs.

(** Neither a direct block of any inode nor a data block has been
    written. *)
Definition same_links (fs fs' : FileSystem) : Prop :=
  data_blocks fs' = data_blocks fs
  /\ forall i, Inode.direct_blocks (inodes fs' i)
               = Inode.direct_blocks (inodes fs i).

(** The model [self] agrees with the inode stored at [i]: same name, type
    and parent, and the same 12 direct blocks position by position. *)
Definition matches_inode (self : TInode.t) (fs : FileSystem) (i : Z) : Prop :=
  Inode.name (inodes fs i) = TInode.name self
  /\ Inode.n_type (inodes fs i) = int_of_NodeType (TInode.n_type self)
  /\ Inode.parent (inodes fs i) = TInode.parent self
  /\ forall k, 0 <= k < 12 ->
       list_item (TInode.blocks self) k
       = Ok (Inode.direct_blocks (inodes fs i) k).

(** The statements [set_dir] and [set_fil] share, with [t] for the type
    number they store. *)
Definition set_node (t : Z) (name : string) (inode parent parent_block : Z)
  : M unit :=
  store_inode_n_type inode t ;;
  store_inode_name inode name ;;
  store_inode_parent inode parent ;;
  store_direct_block parent parent_block inode.

(** [fs'] differs from [fs] at most in the type, name and parent of inode
    [inode] and in the cell [slot] of the direct blocks of inode [parent]. *)
Record link_frame (inode parent slot : Z) (fs fs' : FileSystem) : Prop := {
  link_s_block : s_block fs' = s_block fs;
  link_free_list : free_list fs' = free_list fs;
  link_data_blocks : data_blocks fs' = data_blocks fs;
  link_root_node : root_node fs' = root_node fs;
  link_inodes :
    forall j, j <> inode -> j <> parent -> inodes fs' j = inodes fs j;
  link_sizes :
    forall j, Inode.size (inodes fs' j) = Inode.size (inodes fs j);
  link_slots :
    forall j k, ~ (j = parent /\ k = slot) ->
      Inode.direct_blocks (inodes fs' j) k = Inode.direct_blocks (inodes fs j) k;
  link_headers :
    forall j, j <> inode ->
      Inode.n_type (inodes fs' j) = Inode.n_type (inodes fs j)
      /\ Inode.name (inodes fs' j) = Inode.name (inodes fs j)
      /\ Inode.parent (inodes fs' j) = Inode.parent (inodes fs j)
}.

(** ** The cells of the volume *)

(** Modelled from the spec: the C function [fs_create], which allocates the
    tables [fs] points to, is not part of the module.  It gives the free
    list, the inode table and the data blocks [num_blocks] entries each,
    numbered from 0, and [in_volume fs i] says that [i] is the number of such
    an entry.  The pointers of [fs] are dereferenced unchecked, so the stores
    and loads of this file are those of the code for these indices; what the
    code does with another index is not defined by the module. *)
Definition in_volume (fs : FileSystem) (i : Z) : Prop :=
  0 <= i < Superblock.num_blocks (s_block fs).

(** ** Names longer than the name field *)

(** A name of 43 characters whose third character is NUL. *)
Definition nul_name : string :=
  String "a" (String "b" (String zero
    "cccccccccccccccccccccccccccccccccccccccc"%string)).

(** 33 characters, none of them NUL. *)
Definition long_name : string := (dir2_name ++ "x")%string.

(** * The module with assertions stripped *)

(** Run with [-O], the interpreter sets [__debug__] to false and compiles no
    [assert] statement.  The functions of this part are [TInode.__init__],
    [TInode.check] and [mkdir] as they run then: the same source lines
    without the [assert] statements.  [debug] stands for [__debug__]. *)

(** [TInode.__init__], lines 107, 108, 111, 113 and 115-117: the file system
    is not read.  [[-1] * n] is the empty list for a negative [n]. *)
Definition TInode_init_stripped (name : string) (n_type : NodeType)
           (parent : Z) (idx : option Z) (blocks : list Z) : TInode.t :=
  TInode.mk name n_type parent idx
    (blocks ++ repeat (-1)
       (Z.to_nat (DIRECT_BLOCKS_COUNT - Z.of_nat (List.length blocks)))).

(** [TInode.check]: line 149 reads [self.idx], which raises while the
    attribute is unset; once set it is an [int] and no statement is left. *)
Definition TInode_check_stripped (self : TInode.t) (fs : FileSystem)
           (idx_arg : option Z) (check_parents : bool) : result unit :=
  match TInode.idx self with
  | None => Raise AttributeError
  | Some _ => Ok tt
  end.

(** The loop of lines 184-187, entered at slot [i] with [n] slots to go: the
    first slot of inode [parent] that holds the sentinel, if any. *)
Fixpoint first_empty_slot (n : nat) (parent i : Z) : M (option Z) :=
  match n with
  | O => ret None
  | S n' =>
      d <- load_direct_block parent i ;;
      if d =? -1 then ret (Some i) else first_empty_slot n' parent (i + 1)
  end.

(** [mkdir], lines 178 and 184-200. *)
Definition mkdir_stripped (name : string) (idx parent : Z)
           (parent_direct_block : option Z) : M TInode.t :=
  let inode := TInode_init_stripped name directory parent (Some idx)
                                    TInode.default_blocks in
  slot <- match parent_direct_block with
          | Some p => ret p
          | None =>
              found <- first_empty_slot 12 parent 0 ;;
              match found with
              | Some i => ret i
              | None => raise LookupError
              end
          end ;;
  store_inode_n_type idx (int_of_NodeType (TInode.n_type inode)) ;;
  store_inode_name idx (TInode.name inode) ;;
  store_inode_parent idx parent ;;
  i <- TInode_idx inode ;;
  store_direct_block parent slot i ;;
  for_range 12 0 (fun i =>
    b <- lift (list_item (TInode.blocks inode) i) ;;
    store_direct_block idx i b) ;;
  ret inode.

(** The two functions under either setting of [__debug__]. *)
Definition mkdir_in (debug : bool) (name : string) (idx parent : Z)
           (parent_direct_block : option Z) : M TInode.t :=
  if debug then mkdir name idx parent parent_direct_block
  else mkdir_stripped name idx parent parent_direct_block.

Definition TInode_check_in (debug : bool) (self : TInode.t) (fs : FileSystem)
           (idx_arg : option Z) (check_parents : bool) : result unit :=
  if debug then TInode.check self fs idx_arg check_parents
  else TInode_check_stripped self fs idx_arg check_parents.

(** [volume16] after [mkdir(fs, "dir2", 2, 1)], run with assertions
    stripped. *)
Definition dir2_made : FileSystem :=
  fst (mkdir_in false dir2_name 2 1 None volume16).

(** The expected model of that directory as the constructor builds it,
    [TInode(fs, "dir2", NodeType.directory, 1)]: no [idx] is given. *)
Definition dir2_model : TInode.t :=
  TInode_init_stripped dir2_name directory 1 None TInode.default_blocks.

(** [dir3_name] created under it at index 3. *)
Definition mkdir_dir3_in_dir2 : M TInode.t :=
  mkdir_in false dir3_name 3 2 None.

(** * Reasoning about computations *)

Ltac inv H := inversion H; subst; clear H.

(** Case analysis on the tests a primitive makes. *)
Ltac prim_cases H :=
  repeat match type of H with
         | context [if ?b then _ else _] => destruct b eqn:?
         | context [match ?r with Ok _ => _ | Raise _ => _ | OutOfFuel => _ end] =>
             destruct r eqn:?
         end.

Ltac run_prim H :=
  cbv beta delta [bind ptr lift modify gets ret raise assert_] in H;
  prim_cases H; inv H.

Lemma bind_Ok_inv {A B : Type} (c : M A) (k : A -> M B) fs fs' b :
  bind c k fs = (fs', Ok b) ->
  exists a mid, c fs = (mid, Ok a) /\ k a mid = (fs', Ok b).
Proof.
  unfold bind. destruct (c fs) as [mid [a | e |]]; intros H; try discriminate.
  exists a, mid. split; [reflexivity | exact H].
Qed.

(** ** What each store can do to the state *)

Lemma load_direct_block_state i k fs fs' r :
  load_direct_block i k fs = (fs', r) -> fs' = fs.
Proof. unfold load_direct_block. intros H. run_prim H; reflexivity. Qed.

Lemma load_inode_size_state i fs fs' r :
  load_inode_size i fs = (fs', r) -> fs' = fs.
Proof. unfold load_inode_size. intros H. run_prim H; reflexivity. Qed.

Lemma load_data_block_size_state b fs fs' r :
  load_data_block_size b fs = (fs', r) -> fs' = fs.
Proof. unfold load_data_block_size. intros H. run_prim H; reflexivity. Qed.

Lemma store_data_block_size_state b v fs fs' r :
  store_data_block_size b v fs = (fs', r) ->
  fs' = fs \/
  fs' = with_data_block fs b
          (DataBlock.mk (c_size_t v) (DataBlock.block (data_blocks fs b))).
Proof. unfold store_data_block_size. intros H. run_prim H; auto. Qed.

Lemma store_data_block_byte_state b i v fs fs' r :
  store_data_block_byte b i v fs = (fs', r) ->
  fs' = fs \/
  exists j, array_index BLOCK_SIZE i = Ok j /\
    fs' = with_data_block fs b
            (DataBlock.mk (DataBlock.size (data_blocks fs b))
                          (upd (DataBlock.block (data_blocks fs b)) j (c_uint8 v))).
Proof.
  unfold store_data_block_byte. intros H. run_prim H; auto.
  right. eexists. split; reflexivity.
Qed.

Lemma store_direct_block_state i k v fs fs' r :
  store_direct_block i k v fs = (fs', r) ->
  fs' = fs \/
  exists j, array_index DIRECT_BLOCKS_COUNT k = Ok j /\
    fs' = with_inode fs i
            (Inode.mk (Inode.n_type (inodes fs i)) (Inode.size (inodes fs i))
                      (Inode.name (inodes fs i))
                      (upd (Inode.direct_blocks (inodes fs i)) j (c_int v))
                      (Inode.parent (inodes fs i))).
Proof.
  unfold store_direct_block. intros H. run_prim H; auto.
  right. eexists. split; reflexivity.
Qed.

Lemma store_inode_size_state i v fs fs' r :
  store_inode_size i v fs = (fs', r) ->
  fs' = fs \/
  fs' = with_inode fs i
          (Inode.mk (Inode.n_type (inodes fs i)) (c_uint16 v)
                    (Inode.name (inodes fs i))
                    (Inode.direct_blocks (inodes fs i))
                    (Inode.parent (inodes fs i))).
Proof. unfold store_inode_size. intros H. run_prim H; auto. Qed.

Lemma store_free_list_state b v fs fs' r :
  store_free_list b v fs = (fs', r) ->
  fs' = fs \/ fs' = with_free_list fs (upd (free_list fs) b (c_uint8 v)).
Proof. unfold store_free_list. intros H. run_prim H; auto. Qed.

(** ** Relations kept by every outcome *)

Section Preserves.

Variable I : FileSystem -> FileSystem -> Prop.
Hypothesis I_refl : Reflexive I.
Hypothesis I_trans : Transitive I.

Lemma preserves_pure {A : Type} (r : result A) : preserves I (lift r).
Proof. intros fs fs' r' H. inv H. apply I_refl. Qed.

Lemma preserves_bind {A B : Type} (c : M A) (k : A -> M B) :
  preserves I c -> (forall a, preserves I (k a)) -> preserves I (bind c k).
Proof.
  intros Hc Hk fs fs' r H. unfold bind in H.
  destruct (c fs) as [mid [a | e |]] eqn:E.
  - apply I_trans with mid; [eapply Hc | eapply Hk]; eassumption.
  - inv H. eapply Hc; eassumption.
  - inv H. eapply Hc; eassumption.
Qed.

Lemma preserves_for_range (body : Z -> M unit) :
  forall n i,
    (forall j, i <= j < i + Z.of_nat n -> preserves I (body j)) ->
    preserves I (for_range n i body).
Proof.
  induction n as [| n IH]; intros i Hbody; simpl.
  - intros fs fs' r H. inv H. apply I_refl.
  - apply preserves_bind.
    + apply Hbody. lia.
    + intros _. apply IH. intros j Hj. apply Hbody. lia.
Qed.

(** The loop only loads, and stores the size of [parent_inode]. *)
Lemma preserves_recompute_size_loop parent_inode :
  (forall v, preserves I (store_inode_size parent_inode v)) ->
  forall fuel i, preserves I (recompute_size_loop fuel parent_inode i).
Proof.
  intros Hstore. induction fuel as [| fuel IH]; intros i; simpl.
  - intros fs fs' r H. inv H. apply I_refl.
  - apply preserves_bind.
    { intros fs fs' r H. apply load_direct_block_state in H. subst. apply I_refl. }
    intros d. destruct (negb (d =? -1)).
    + apply preserves_bind.
      { intros fs fs' r H. apply load_inode_size_state in H. subst. apply I_refl. }
      intros s. apply preserves_bind.
      { intros fs fs' r H. apply load_direct_block_state in H. subst. apply I_refl. }
      intros d'. apply preserves_bind.
      { intros fs fs' r H. apply load_data_block_size_state in H. subst. apply I_refl. }
      intros sz. apply preserves_bind; [apply Hstore | intros _; apply IH].
    + intros fs fs' r H. inv H. apply I_refl.
Qed.

End Preserves.

(** ** Memory cells *)

Lemma upd_same {A : Type} (m : Z -> A) k v : upd m k v k = v.
Proof. unfold upd. now rewrite Z.eqb_refl. Qed.

Lemma upd_other {A : Type} (m : Z -> A) k v j : j <> k -> upd m k v j = m j.
Proof. unfold upd. intros H. apply Z.eqb_neq in H. now rewrite H. Qed.

Lemma array_index_Ok len i j :
  array_index len i = Ok j -> j = from_end len i /\ 0 <= j < len.
Proof.
  unfold array_index. destruct (_ && _) eqn:E; intros H; inv H.
  apply andb_true_iff in E. destruct E as [E1 E2].
  apply Z.leb_le in E1. apply Z.ltb_lt in E2. auto.
Qed.

Lemma array_index_nonneg len i j :
  0 <= i -> array_index len i = Ok j -> j = i /\ i < len.
Proof.
  intros Hi H. apply array_index_Ok in H. unfold from_end in H.
  destruct (i <? 0) eqn:E; [apply Z.ltb_lt in E; lia | lia].
Qed.

(** ** The relations are preorders *)

#[local] Instance same_bookkeeping_refl : Reflexive same_bookkeeping.
Proof. intros fs. split; reflexivity. Qed.

#[local] Instance same_bookkeeping_trans : Transitive same_bookkeeping.
Proof.
  intros a b c [H1 H2] [H3 H4]. split; [now rewrite H3 | now rewrite H4].
Qed.

(** ** Each store stays inside the footprint *)

Section AttachFrame.

Variables block_num data_size parent_inode slot : Z.

#[local] Instance attach_frame_refl :
  Reflexive (attach_frame block_num data_size parent_inode slot).
Proof. intros fs. constructor; reflexivity. Qed.

#[local] Instance attach_frame_trans :
  Transitive (attach_frame block_num data_size parent_inode slot).
Proof.
  intros a b c [] []. constructor; intros; try congruence.
  - transitivity (free_list b b0); auto.
  - transitivity (inodes b i); auto.
  - transitivity (Inode.direct_blocks (inodes b parent_inode) k); auto.
  - transitivity (data_blocks b b0); auto.
  - transitivity (DataBlock.block (data_blocks b block_num) k); auto.
Qed.

Ltac frame_cells :=
  constructor; simpl; intros;
  repeat (first [ rewrite upd_same | rewrite upd_other by congruence ]; simpl);
  try reflexivity.

Lemma frame_store_data_block_size v :
  preserves (attach_frame block_num data_size parent_inode slot)
             (store_data_block_size block_num v).
Proof.
  intros fs fs' r H. apply store_data_block_size_state in H.
  destruct H as [-> | ->]; [reflexivity | frame_cells].
Qed.

Lemma frame_store_data_block_byte i v :
  0 <= i < data_size -> preserves (attach_frame block_num data_size parent_inode slot)
             (store_data_block_byte block_num i v).
Proof.
  intros Hi fs fs' r H. apply store_data_block_byte_state in H.
  destruct H as [-> | (j & Hj & ->)]; [reflexivity |].
  apply array_index_nonneg in Hj; [| lia]. destruct Hj as [-> _].
  frame_cells.
Qed.

Lemma frame_store_direct_block k v :
  from_end DIRECT_BLOCKS_COUNT k = slot ->
  preserves (attach_frame block_num data_size parent_inode slot)
             (store_direct_block parent_inode k v).
Proof.
  intros Hk fs fs' r H. apply store_direct_block_state in H.
  destruct H as [-> | (j & Hj & ->)]; [reflexivity |].
  apply array_index_Ok in Hj. destruct Hj as [-> _]. rewrite Hk.
  frame_cells.
Qed.

Lemma frame_store_inode_size v :
  preserves (attach_frame block_num data_size parent_inode slot)
             (store_inode_size parent_inode v).
Proof.
  intros fs fs' r H. apply store_inode_size_state in H.
  destruct H as [-> | ->]; [reflexivity | frame_cells].
Qed.

Lemma frame_store_free_list v :
  preserves (attach_frame block_num data_size parent_inode slot)
             (store_free_list block_num v).
Proof.
  intros fs fs' r H. apply store_free_list_state in H.
  destruct H as [-> | ->]; [reflexivity | frame_cells].
Qed.

Lemma frame_store_free_blocks v : preserves (attach_frame block_num data_size parent_inode slot)
             (store_free_blocks v).
Proof. intros fs fs' r H. inv H. frame_cells. Qed.

End AttachFrame.

(** ** The frame of [set_data_block], whatever its outcome *)

Lemma set_data_block_preserves_frame block_num data data_size parent_inode
      parent_block_num :
  preserves (attach_frame block_num data_size parent_inode
                          (from_end DIRECT_BLOCKS_COUNT parent_block_num))
            (set_data_block block_num data data_size parent_inode
                            parent_block_num).
Proof.
  set (frame := attach_frame _ _ _ _).
  assert (Hrefl : Reflexive frame) by apply attach_frame_refl.
  assert (Htrans : Transitive frame) by apply attach_frame_trans.
  unfold set_data_block. destruct (data_size >? 1024).
  { intros fs fs' r H. inv H. reflexivity. }
  apply preserves_bind; [assumption | apply frame_store_data_block_size |].
  intros _. apply preserves_bind; [assumption | |].
  { apply preserves_for_range; try assumption. intros j Hj.
    apply preserves_bind; [assumption | apply preserves_pure; assumption |].
    intros v. apply frame_store_data_block_byte. lia. }
  intros _. apply preserves_bind;
    [assumption | apply frame_store_direct_block; reflexivity |].
  intros _. apply preserves_bind; [assumption | apply frame_store_inode_size |].
  intros _. apply preserves_bind; [assumption | |].
  { apply preserves_recompute_size_loop; try assumption.
    intros v. apply frame_store_inode_size. }
  intros _. apply preserves_bind; [assumption | apply frame_store_free_list |].
  intros _. apply preserves_bind; [assumption | |].
  { intros fs fs' r H. inv H. reflexivity. }
  intros fb. apply frame_store_free_blocks.
Qed.

(** ** The size loop always stops *)

Lemma terminates_bind {A B : Type} (c : M A) (k : A -> M B) :
  terminates c -> (forall a, terminates (k a)) -> terminates (bind c k).
Proof.
  intros Hc Hk fs. unfold bind. specialize (Hc fs).
  destruct (c fs) as [mid [a | e |]]; simpl in *.
  - apply Hk.
  - discriminate.
  - congruence.
Qed.

Lemma terminates_ptr i : terminates (ptr i).
Proof. intros fs. unfold ptr. destruct (ssize_ok i); discriminate. Qed.

Lemma terminates_modify f : terminates (modify f).
Proof. intros fs. discriminate. Qed.

Lemma terminates_gets {A : Type} (f : FileSystem -> A) : terminates (gets f).
Proof. intros fs. discriminate. Qed.

Lemma terminates_array_index len i : terminates (lift (array_index len i)).
Proof.
  intros fs. unfold lift, array_index. simpl.
  destruct (_ && _); discriminate.
Qed.

Lemma terminates_list_item l i : terminates (lift (list_item l i)).
Proof.
  intros fs. unfold lift, list_item. simpl.
  destruct (_ && _); discriminate.
Qed.

Create HintDb terminates.

#[local] Hint Resolve terminates_ptr terminates_modify terminates_gets
  terminates_array_index terminates_list_item : terminates.

Ltac terminates_tac :=
  repeat first
    [ apply terminates_bind; [| intros ?]
    | solve [auto with terminates] ].

Lemma terminates_store_data_block_size b v : terminates (store_data_block_size b v).
Proof. unfold store_data_block_size. terminates_tac. Qed.

Lemma terminates_store_data_block_byte b i v :
  terminates (store_data_block_byte b i v).
Proof. unfold store_data_block_byte. terminates_tac. Qed.

Lemma terminates_load_data_block_size b : terminates (load_data_block_size b).
Proof. unfold load_data_block_size. terminates_tac. Qed.

Lemma terminates_load_direct_block i k : terminates (load_direct_block i k).
Proof. unfold load_direct_block. terminates_tac. Qed.

Lemma terminates_store_direct_block i k v : terminates (store_direct_block i k v).
Proof. unfold store_direct_block. terminates_tac. Qed.

Lemma terminates_load_inode_size i : terminates (load_inode_size i).
Proof. unfold load_inode_size. terminates_tac. Qed.

Lemma terminates_store_inode_size i v : terminates (store_inode_size i v).
Proof. unfold store_inode_size. terminates_tac. Qed.

Lemma terminates_store_free_list b v : terminates (store_free_list b v).
Proof. unfold store_free_list. terminates_tac. Qed.

Lemma terminates_load_free_blocks : terminates load_free_blocks.
Proof. intros fs. discriminate. Qed.

Lemma terminates_store_free_blocks v : terminates (store_free_blocks v).
Proof. intros fs. discriminate. Qed.

#[local] Hint Resolve terminates_load_free_blocks terminates_store_free_blocks
  : terminates.

#[local] Hint Resolve terminates_store_data_block_size
  terminates_store_data_block_byte terminates_load_data_block_size
  terminates_load_direct_block terminates_store_direct_block
  terminates_load_inode_size terminates_store_inode_size
  terminates_store_free_list : terminates.

Lemma terminates_for_range (body : Z -> M unit) :
  (forall j, terminates (body j)) -> forall n i, terminates (for_range n i body).
Proof.
  intros Hbody. induction n as [| n IH]; intros i; simpl.
  - intros fs. discriminate.
  - apply terminates_bind; [apply Hbody | intros _; apply IH].
Qed.

(** Reading slot [k] of the direct blocks raises once [k] is past the end. *)
Lemma load_direct_block_past_end i k fs :
  DIRECT_BLOCKS_COUNT <= k ->
  exists e, load_direct_block i k fs = (fs, Raise e).
Proof.
  intros Hk. unfold load_direct_block, bind, ptr, lift.
  destruct (ssize_ok i); simpl; [| eauto].
  unfold array_index, from_end.
  replace (k <? 0) with false by (symmetry; apply Z.ltb_ge; unfold DIRECT_BLOCKS_COUNT in Hk; lia).
  replace (k <? DIRECT_BLOCKS_COUNT) with false by (symmetry; apply Z.ltb_ge; lia).
  rewrite andb_false_r. eauto.
Qed.

(** With the counter at [i], [13 - i] rounds are enough. *)
Lemma recompute_size_loop_terminates parent_inode :
  forall n i,
    DIRECT_BLOCKS_COUNT <= i + Z.of_nat n ->
    terminates (recompute_size_loop (S n) parent_inode i).
Proof.
  induction n as [| n IH]; intros i Hi fs.
  - simpl. unfold bind at 1.
    destruct (load_direct_block_past_end parent_inode i fs) as [e He]; [lia |].
    rewrite He. discriminate.
  - revert fs. change (terminates (recompute_size_loop (S (S n)) parent_inode i)).
    cbn [recompute_size_loop].
    apply terminates_bind; [auto with terminates |]. intros d.
    destruct (negb (d =? -1)); [| intros fs; discriminate].
    apply terminates_bind; [auto with terminates | intros s].
    apply terminates_bind; [auto with terminates | intros d'].
    apply terminates_bind; [auto with terminates | intros sz].
    apply terminates_bind; [auto with terminates | intros _].
    apply IH. lia.
Qed.

Lemma set_data_block_fuel_enough block_num data data_size parent_inode
      parent_block_num :
  terminates (set_data_block block_num data data_size parent_inode
                             parent_block_num).
Proof.
  unfold set_data_block. destruct (data_size >? 1024); [intros fs; discriminate |].
  apply terminates_bind; [auto with terminates | intros _].
  apply terminates_bind.
  { apply terminates_for_range. intros j. terminates_tac. }
  intros _. apply terminates_bind; [auto with terminates | intros _].
  apply terminates_bind; [auto with terminates | intros _].
  apply terminates_bind.
  { apply (recompute_size_loop_terminates parent_inode 12 0).
    unfold DIRECT_BLOCKS_COUNT. lia. }
  intros _. apply terminates_bind; [auto with terminates | intros _].
  apply terminates_bind; auto with terminates.
Qed.

(** ** The superblock and the free list across [set_data_block] *)

Lemma bind_after {A B : Type} (I : FileSystem -> FileSystem -> Prop)
      (c : M A) (k : A -> M B) fs fs' r :
  preserves I c ->
  bind c k fs = (fs', r) ->
  (exists a mid, I fs mid /\ k a mid = (fs', r))
  \/ (I fs fs' /\ succeeded r = false).
Proof.
  intros Hc H. unfold bind in H. destruct (c fs) as [mid [a | e |]] eqn:E.
  - left. exists a, mid. split; [eapply Hc; eassumption | assumption].
  - inv H. right. split; [eapply Hc; eassumption | reflexivity].
  - inv H. right. split; [eapply Hc; eassumption | reflexivity].
Qed.

Ltac bookkeeping_prim lem :=
  let H := fresh "H" in
  intros ? ? ? H; apply lem in H;
  repeat match type of H with
         | _ \/ _ => destruct H as [H | H]
         | exists _, _ => destruct H as (? & ? & H)
         end; subst; split; reflexivity.

Lemma bookkeeping_store_data_block_size b v :
  preserves same_bookkeeping (store_data_block_size b v).
Proof. bookkeeping_prim store_data_block_size_state. Qed.

Lemma bookkeeping_store_data_block_byte b i v :
  preserves same_bookkeeping (store_data_block_byte b i v).
Proof. bookkeeping_prim store_data_block_byte_state. Qed.

Lemma bookkeeping_store_direct_block i k v :
  preserves same_bookkeeping (store_direct_block i k v).
Proof. bookkeeping_prim store_direct_block_state. Qed.

Lemma bookkeeping_store_inode_size i v :
  preserves same_bookkeeping (store_inode_size i v).
Proof. bookkeeping_prim store_inode_size_state. Qed.

(** Lines 208-225 leave the superblock and the free list alone; lines 226
    and 227 then write both.  So a call that raises has written neither. *)
Lemma set_data_block_bookkeeping block_num data data_size parent_inode
      parent_block_num fs fs' r :
  set_data_block block_num data data_size parent_inode parent_block_num fs
  = (fs', r) ->
  if succeeded r
  then s_block fs'
       = Superblock.mk (Superblock.num_blocks (s_block fs))
                       (c_uint32 (Superblock.free_blocks (s_block fs) - 1))
       /\ free_list fs' = upd (free_list fs) block_num 0
  else same_bookkeeping fs fs'.
Proof.
  unfold set_data_block. destruct (data_size >? 1024).
  { intros H. inv H. simpl. reflexivity. }
  intros H.
  apply (bind_after same_bookkeeping) in H;
    [| apply bookkeeping_store_data_block_size].
  destruct H as [(_ & fs1 & I1 & H) | [I1 ->]]; [| exact I1].
  apply (bind_after same_bookkeeping) in H.
  2:{ apply preserves_for_range; try typeclasses eauto. intros j _.
      apply preserves_bind; [typeclasses eauto | apply preserves_pure; typeclasses eauto |].
      intros v. apply bookkeeping_store_data_block_byte. }
  destruct H as [(_ & fs2 & I2 & H) | [I2 ->]]; [| now transitivity fs1].
  apply (bind_after same_bookkeeping) in H;
    [| apply bookkeeping_store_direct_block].
  destruct H as [(_ & fs3 & I3 & H) | [I3 ->]];
    [| now transitivity fs1; [| transitivity fs2]].
  apply (bind_after same_bookkeeping) in H;
    [| apply bookkeeping_store_inode_size].
  destruct H as [(_ & fs4 & I4 & H) | [I4 ->]];
    [| now transitivity fs1; [| transitivity fs2; [| transitivity fs3]]].
  apply (bind_after same_bookkeeping) in H.
  2:{ apply preserves_recompute_size_loop; try typeclasses eauto.
      intros v. apply bookkeeping_store_inode_size. }
  assert (I04 : same_bookkeeping fs fs4).
  { transitivity fs1; [| transitivity fs2; [| transitivity fs3]]; assumption. }
  destruct H as [(_ & fs5 & I5 & H) | [I5 ->]]; [| now transitivity fs4].
  assert (I05 : same_bookkeeping fs fs5) by (now transitivity fs4).
  destruct I05 as [Hsb Hfl].
  unfold store_free_list, load_free_blocks, store_free_blocks in H.
  run_prim H; simpl.
  - rewrite Hsb, Hfl. split; reflexivity.
  - split; assumption.
Qed.

(** ** The size loop adds up the contiguous prefix *)

Lemma accumulate_mod blocks ds :
  forall x,
    accumulate blocks ds (c_uint16 x)
    = c_uint16 (x + sum (map (fun d => DataBlock.size (blocks d)) ds)).
Proof.
  unfold accumulate, c_uint16, wrap_unsigned.
  induction ds as [| d ds IH]; intros x; simpl.
  - f_equal. lia.
  - rewrite Zplus_mod_idemp_l. rewrite IH. f_equal. lia.
Qed.

Lemma load_direct_block_Ok i k fs fs' d :
  load_direct_block i k fs = (fs', Ok d) ->
  fs' = fs /\ exists j, array_index DIRECT_BLOCKS_COUNT k = Ok j
                        /\ d = Inode.direct_blocks (inodes fs i) j.
Proof.
  unfold load_direct_block. intros H. run_prim H.
  split; [reflexivity |]. eexists. split; reflexivity.
Qed.

Lemma load_inode_size_Ok i fs fs' s :
  load_inode_size i fs = (fs', Ok s) ->
  fs' = fs /\ s = Inode.size (inodes fs i).
Proof. unfold load_inode_size. intros H. run_prim H. auto. Qed.

Lemma load_data_block_size_Ok b fs fs' s :
  load_data_block_size b fs = (fs', Ok s) ->
  fs' = fs /\ s = DataBlock.size (data_blocks fs b).
Proof. unfold load_data_block_size. intros H. run_prim H. auto. Qed.

Lemma store_inode_size_Ok i v fs fs' u :
  store_inode_size i v fs = (fs', Ok u) ->
  fs' = with_inode fs i
          (Inode.mk (Inode.n_type (inodes fs i)) (c_uint16 v)
                    (Inode.name (inodes fs i))
                    (Inode.direct_blocks (inodes fs i))
                    (Inode.parent (inodes fs i))).
Proof. unfold store_inode_size. intros H. run_prim H. reflexivity. Qed.

(** A run of the loop that ends normally has added the sizes of the blocks
    of the contiguous prefix of the slots from [i] on, and has changed
    neither the data blocks nor the direct blocks. *)
Lemma recompute_size_loop_Ok parent_inode :
  forall n i fs fs',
    0 <= i ->
    i + Z.of_nat n = DIRECT_BLOCKS_COUNT ->
    recompute_size_loop (S n) parent_inode i fs = (fs', Ok tt) ->
    data_blocks fs' = data_blocks fs
    /\ Inode.direct_blocks (inodes fs' parent_inode)
       = Inode.direct_blocks (inodes fs parent_inode)
    /\ Inode.size (inodes fs' parent_inode)
       = accumulate (data_blocks fs)
           (contiguous_prefix (slots_from fs parent_inode i n))
           (Inode.size (inodes fs parent_inode)).
Proof.
  induction n as [| n IH]; intros i fs fs' Hi Hn H.
  - simpl in H. unfold bind at 1 in H.
    destruct (load_direct_block_past_end parent_inode i fs) as [e He]; [lia |].
    rewrite He in H. discriminate.
  - cbn [recompute_size_loop] in H.
    apply bind_Ok_inv in H. destruct H as (d & fs0 & Hd & H).
    apply load_direct_block_Ok in Hd. destruct Hd as (-> & j & Hj & ->).
    apply array_index_nonneg in Hj; [| exact Hi]. destruct Hj as [-> Hlt].
    unfold slots_from. cbn [zrange map contiguous_prefix].
    destruct (Inode.direct_blocks (inodes fs parent_inode) i =? -1) eqn:E;
      cbn [negb] in H.
    + inv H. simpl. auto.
    + apply bind_Ok_inv in H. destruct H as (s & fs1 & Hs & H).
      apply load_inode_size_Ok in Hs. destruct Hs as [-> ->].
      apply bind_Ok_inv in H. destruct H as (d' & fs1 & Hd' & H).
      apply load_direct_block_Ok in Hd'. destruct Hd' as (-> & j & Hj & ->).
      apply array_index_nonneg in Hj; [| exact Hi]. destruct Hj as [-> _].
      apply bind_Ok_inv in H. destruct H as (sz & fs1 & Hsz & H).
      apply load_data_block_size_Ok in Hsz. destruct Hsz as [-> ->].
      apply bind_Ok_inv in H. destruct H as (u & fs1 & Hst & H).
      apply store_inode_size_Ok in Hst. subst fs1.
      apply IH in H; [| lia | lia].
      destruct H as (Hdb & Hslots & Hsize).
      unfold slots_from in Hsize. simpl in Hdb, Hslots, Hsize.
      rewrite upd_same in Hslots, Hsize. simpl in Hslots, Hsize.
      repeat split; assumption.
Qed.

(** ** Block sizes stay within the capacity *)

#[local] Instance keeps_capacity_refl : Reflexive keeps_capacity.
Proof. intros fs H. exact H. Qed.

#[local] Instance keeps_capacity_trans : Transitive keeps_capacity.
Proof. intros a b c H1 H2 H. auto. Qed.

Lemma capacity_same_blocks fs fs' :
  data_blocks fs' = data_blocks fs -> keeps_capacity fs fs'.
Proof. intros E H b. rewrite E. apply H. Qed.

Lemma c_size_t_small v : 0 <= v <= BLOCK_SIZE -> c_size_t v = v.
Proof.
  intros H. unfold c_size_t, wrap_unsigned. apply Z.mod_small.
  unfold BLOCK_SIZE in H. lia.
Qed.

Lemma capacity_store_data_block_size b v :
  0 <= v <= BLOCK_SIZE -> preserves keeps_capacity (store_data_block_size b v).
Proof.
  intros Hv fs fs' r H. apply store_data_block_size_state in H.
  destruct H as [-> | ->]; [reflexivity |].
  intros Hc b'. simpl. unfold upd. destruct (b' =? b); [| apply Hc].
  simpl. rewrite c_size_t_small; assumption.
Qed.

Lemma capacity_store_data_block_byte b i v :
  preserves keeps_capacity (store_data_block_byte b i v).
Proof.
  intros fs fs' r H. apply store_data_block_byte_state in H.
  destruct H as [-> | (j & _ & ->)]; [reflexivity |].
  intros Hc b'. simpl. unfold upd. destruct (b' =? b); [| apply Hc].
  simpl. apply Hc.
Qed.

Lemma capacity_store_direct_block i k v :
  preserves keeps_capacity (store_direct_block i k v).
Proof.
  intros fs fs' r H. apply store_direct_block_state in H.
  destruct H as [-> | (j & _ & ->)]; [reflexivity |].
  now apply capacity_same_blocks.
Qed.

Lemma capacity_store_inode_size i v :
  preserves keeps_capacity (store_inode_size i v).
Proof.
  intros fs fs' r H. apply store_inode_size_state in H.
  destruct H as [-> | ->]; [reflexivity |]. now apply capacity_same_blocks.
Qed.

Lemma capacity_store_free_list b v :
  preserves keeps_capacity (store_free_list b v).
Proof.
  intros fs fs' r H. apply store_free_list_state in H.
  destruct H as [-> | ->]; [reflexivity |]. now apply capacity_same_blocks.
Qed.

(** A payload length between 0 and the capacity keeps the invariant. *)
Lemma set_data_block_keeps_capacity block_num data data_size parent_inode
      parent_block_num :
  0 <= data_size ->
  preserves keeps_capacity
            (set_data_block block_num data data_size parent_inode
                            parent_block_num).
Proof.
  intros Hds. unfold set_data_block. destruct (data_size >? 1024) eqn:E.
  { intros fs fs' r H. inv H. reflexivity. }
  assert (Hle : data_size <= BLOCK_SIZE).
  { unfold BLOCK_SIZE. destruct (Z.gtb_spec data_size 1024); [discriminate | lia]. }
  apply preserves_bind;
    [typeclasses eauto | apply capacity_store_data_block_size; lia |].
  intros _. apply preserves_bind; [typeclasses eauto | |].
  { apply preserves_for_range; try typeclasses eauto. intros j _.
    apply preserves_bind;
      [typeclasses eauto | apply preserves_pure; typeclasses eauto |].
    intros v. apply capacity_store_data_block_byte. }
  intros _. apply preserves_bind;
    [typeclasses eauto | apply capacity_store_direct_block |].
  intros _. apply preserves_bind;
    [typeclasses eauto | apply capacity_store_inode_size |].
  intros _. apply preserves_bind; [typeclasses eauto | |].
  { apply preserves_recompute_size_loop; try typeclasses eauto.
    intros v. apply capacity_store_inode_size. }
  intros _. apply preserves_bind;
    [typeclasses eauto | apply capacity_store_free_list |].
  intros _. apply preserves_bind; [typeclasses eauto | |].
  { intros fs fs' r H. inv H. reflexivity. }
  intros fb fs fs' r H. inv H. now apply capacity_same_blocks.
Qed.

Lemma contiguous_prefix_length slots :
  (List.length (contiguous_prefix slots) <= List.length slots)%nat.
Proof.
  induction slots as [| d rest IH]; simpl; [lia |].
  destruct (d =? -1); simpl; lia.
Qed.

Lemma zrange_length n : forall start, List.length (zrange start n) = n.
Proof. induction n as [| n IH]; intros start; simpl; [| rewrite IH]; reflexivity. Qed.

Lemma sum_sizes_bounds (blocks : Z -> DataBlock.t) (ds : list Z) :
  (forall b, 0 <= DataBlock.size (blocks b) <= BLOCK_SIZE) ->
  0 <= sum (map (fun d => DataBlock.size (blocks d)) ds)
    <= BLOCK_SIZE * Z.of_nat (List.length ds).
Proof.
  intros Hb. induction ds as [| d ds IH]; simpl List.length; simpl sum.
  - lia.
  - specialize (Hb d). lia.
Qed.

(** Under the invariant the sum is far below the range of the size field. *)
Lemma prefix_size_sum_bounds fs i :
  within_capacity fs -> 0 <= prefix_size_sum fs i <= 12288.
Proof.
  intros Hc. unfold prefix_size_sum.
  pose proof (sum_sizes_bounds (data_blocks fs)
                (contiguous_prefix (slots_from fs i 0 12)) Hc) as Hs.
  pose proof (contiguous_prefix_length (slots_from fs i 0 12)) as Hl.
  unfold slots_from in Hl at 2. rewrite length_map, zrange_length in Hl.
  unfold BLOCK_SIZE in Hs. lia.
Qed.

(** * Properties of [set_data_block] *)

(** C1: a call of [set_data_block] with a payload size above the 1024-byte
    block capacity aborts before any write: it raises [SystemExit] and the
    state it leaves is the state it was called in, so the superblock, the
    free list, the owner inode and the target data block are as before. *)
Theorem set_data_block_oversized_aborts :
  forall block_num data data_size parent_inode parent_block_num fs,
    data_size > 1024 ->
    set_data_block block_num data data_size parent_inode parent_block_num fs
    = (fs, Raise SystemExit).
Proof.
  intros block_num data data_size parent_inode parent_block_num fs H.
  unfold set_data_block.
  replace (data_size >? 1024) with true; [reflexivity |].
  symmetry. apply Z.gtb_lt. lia.
Qed.

Lemma set_data_block_oversized_aborts_witness :
  2000 > 1024
  /\ set_data_block 5 (repeat 120 2000) 2000 2 0 files16
     = (files16, Raise SystemExit).
Proof.
  split; [lia |]. apply set_data_block_oversized_aborts. lia.
Defined.

(** Attaching the 5 bytes of ["hello"] to block 5 as slot 0 of inode 2:
    the block holds 5 bytes, slot 0 points to it, the file has size 5, the
    counter went from 16 to 15 and block 5 is marked used. *)
Example attach_hello :
  snd (set_data_block_with_string 5 "hello" 2 0 files16) = Ok tt
  /\ DataBlock.size
       (data_blocks (fst (set_data_block_with_string 5 "hello" 2 0 files16)) 5)
     = 5
  /\ map (DataBlock.block
            (data_blocks (fst (set_data_block_with_string 5 "hello" 2 0 files16))
                         5))
         (zrange 0 6)
     = hello ++ [0]
  /\ Inode.direct_blocks
       (inodes (fst (set_data_block_with_string 5 "hello" 2 0 files16)) 2) 0
     = 5
  /\ Inode.size
       (inodes (fst (set_data_block_with_string 5 "hello" 2 0 files16)) 2)
     = 5
  /\ Superblock.free_blocks
       (s_block (fst (set_data_block_with_string 5 "hello" 2 0 files16)))
     = 15
  /\ free_list (fst (set_data_block_with_string 5 "hello" 2 0 files16)) 5 = 0.
Proof. vm_compute. repeat split. Qed.

(** C2, as written, fails: the size field has 16 bits.  A call with
    [data_size = -1] passes the guard, stores [2^64 - 1] in the 64-bit size
    of block 5, and leaves 65535 in the size of inode 2. *)
Lemma set_data_block_size_not_the_sum :
  -1 <= 1024
  /\ snd (set_data_block 5 [] (-1) 2 0 files16) = Ok tt
  /\ Inode.size (inodes (fst (set_data_block 5 [] (-1) 2 0 files16)) 2) = 65535
  /\ prefix_size_sum (fst (set_data_block 5 [] (-1) 2 0 files16)) 2
     = 18446744073709551615
  /\ Inode.size (inodes (fst (set_data_block 5 [] (-1) 2 0 files16)) 2)
     <> prefix_size_sum (fst (set_data_block 5 [] (-1) 2 0 files16)) 2.
Proof.
  split; [lia |]. vm_compute. repeat split; discriminate.
Qed.

(** C2, amended: after a successful [set_data_block] the size of the owner
    inode is the sum of the sizes of the data blocks referenced by the
    contiguous prefix of its direct blocks (slot 0 first, up to the first
    sentinel), reduced modulo 2^16; it is that sum itself when the payload
    size is not negative and every data block was within the capacity. *)
Theorem set_data_block_size_accounting :
  forall block_num data data_size parent_inode parent_block_num fs fs',
    set_data_block block_num data data_size parent_inode parent_block_num fs
    = (fs', Ok tt) ->
    Inode.size (inodes fs' parent_inode)
    = prefix_size_sum fs' parent_inode mod 2 ^ 16
    /\ (0 <= data_size -> within_capacity fs ->
        Inode.size (inodes fs' parent_inode) = prefix_size_sum fs' parent_inode).
Proof.
  intros block_num data data_size parent_inode parent_block_num fs fs' H.
  assert (Hmod : Inode.size (inodes fs' parent_inode)
                 = prefix_size_sum fs' parent_inode mod 2 ^ 16).
  { unfold set_data_block in H. destruct (data_size >? 1024); [discriminate |].
    apply bind_Ok_inv in H. destruct H as (_ & fs1 & _ & H).
    apply bind_Ok_inv in H. destruct H as (_ & fs2 & _ & H).
    apply bind_Ok_inv in H. destruct H as (_ & fs3 & _ & H).
    apply bind_Ok_inv in H. destruct H as (u & fs4 & Hzero & H).
    apply store_inode_size_Ok in Hzero.
    assert (Hsize0 : Inode.size (inodes fs4 parent_inode) = c_uint16 0).
    { subst fs4. cbn. now rewrite upd_same. }
    clear Hzero.
    apply bind_Ok_inv in H. destruct H as ([] & fs5 & Hloop & H).
    apply (recompute_size_loop_Ok parent_inode 12 0) in Hloop;
      [| lia | reflexivity].
    destruct Hloop as (Hdb & Hslots & Hsize).
    unfold store_free_list, load_free_blocks, store_free_blocks in H.
    run_prim H.
    unfold prefix_size_sum, slots_from in *.
    cbn [inodes data_blocks with_s_block with_free_list].
    rewrite Hsize, Hdb, Hslots, Hsize0, accumulate_mod. reflexivity. }
  split; [exact Hmod |].
  intros Hds Hcap. rewrite Hmod. apply Z.mod_small.
  assert (Hcap' : within_capacity fs').
  { eapply set_data_block_keeps_capacity; eassumption. }
  pose proof (prefix_size_sum_bounds fs' parent_inode Hcap'). lia.
Qed.

Lemma set_data_block_size_accounting_witness :
  Inode.size (inodes (fst (set_data_block 5 hello 5 2 0 files16)) 2)
  = prefix_size_sum (fst (set_data_block 5 hello 5 2 0 files16)) 2.
Proof.
  apply (set_data_block_size_accounting 5 hello 5 2 0 files16).
  - vm_compute. reflexivity.
  - lia.
  - intros b. cbn. unfold BLOCK_SIZE. lia.
Defined.

(** ** The free-block counter and the free list *)

Lemma count_after_marking_used (fl : Z -> Z) (b : Z) :
  forall n start,
    Z.of_nat (List.length (filter (fun k => negb (upd fl b 0 k =? 0))
                                  (zrange start n)))
    = Z.of_nat (List.length (filter (fun k => negb (fl k =? 0)) (zrange start n)))
      - (if (start <=? b) && (b <? start + Z.of_nat n) && negb (fl b =? 0)
         then 1 else 0).
Proof.
  induction n as [| n IH]; intros start.
  - simpl. replace (b <? start + 0) with (b <? start) by (f_equal; lia).
    destruct (start <=? b) eqn:E1, (b <? start) eqn:E2; simpl; lia.
  - cbn [zrange filter]. specialize (IH (start + 1)).
    destruct (Z.eq_dec start b) as [-> | Hne].
    + rewrite upd_same. cbn [Z.eqb negb].
      replace (b + 1 <=? b) with false in IH by (symmetry; apply Z.leb_gt; lia).
      cbn [andb] in IH. rewrite IH.
      replace (b <=? b) with true by (symmetry; apply Z.leb_le; lia).
      replace (b <? b + Z.of_nat (S n)) with true by (symmetry; apply Z.ltb_lt; lia).
      cbn [andb]. destruct (negb (fl b =? 0)); cbn [List.length]; lia.
    + rewrite upd_other by exact Hne.
      replace ((start <=? b) && (b <? start + Z.of_nat (S n)))
        with ((start + 1 <=? b) && (b <? start + 1 + Z.of_nat n)).
      2:{ destruct (start + 1 <=? b) eqn:E1, (start <=? b) eqn:E2,
            (b <? start + 1 + Z.of_nat n) eqn:E3,
            (b <? start + Z.of_nat (S n)) eqn:E4; try reflexivity;
          repeat match goal with
                 | H : (_ <=? _) = true |- _ => apply Z.leb_le in H
                 | H : (_ <=? _) = false |- _ => apply Z.leb_gt in H
                 | H : (_ <? _) = true |- _ => apply Z.ltb_lt in H
                 | H : (_ <? _) = false |- _ => apply Z.ltb_ge in H
                 end; lia. }
      destruct (negb (fl start =? 0)); cbn [List.length]; lia.
Qed.

(** C3, as written, fails: attaching twice to block 5 decrements the counter
    twice while the free list loses one free marker. *)
Lemma free_count_broken_by_overwrite :
  free_count_consistent files16
  /\ snd (set_data_block 5 hello 5 2 0 files16) = Ok tt
  /\ free_count_consistent (fst (set_data_block 5 hello 5 2 0 files16))
  /\ snd (set_data_block 5 hello 5 2 0
            (fst (set_data_block 5 hello 5 2 0 files16))) = Ok tt
  /\ ~ free_count_consistent
         (fst (set_data_block 5 hello 5 2 0
                 (fst (set_data_block 5 hello 5 2 0 files16)))).
Proof.
  unfold free_count_consistent. vm_compute. repeat split; discriminate.
Qed.

(** C3, amended: from a state in which [free_blocks] equals the number of
    blocks marked free, a call of [set_data_block] leads to such a state
    again whenever it raises, and whenever it succeeds on a block of the
    volume that was marked free.  (A successful call on a block already
    marked used decrements the counter and not the count.) *)
Theorem set_data_block_free_count :
  forall block_num data data_size parent_inode parent_block_num fs fs' r,
    Superblock.num_blocks (s_block fs) < 2 ^ 32 ->
    free_count_consistent fs ->
    set_data_block block_num data data_size parent_inode parent_block_num fs
    = (fs', r) ->
    (succeeded r = true ->
     0 <= block_num < Superblock.num_blocks (s_block fs)
     /\ marked_free fs block_num = true) ->
    free_count_consistent fs'.
Proof.
  intros block_num data data_size parent_inode parent_block_num fs fs' r
         Hnum Hcons Hrun Hfree.
  apply set_data_block_bookkeeping in Hrun.
  unfold free_count_consistent, count_free, marked_free in *.
  destruct (succeeded r).
  - destruct Hrun as [Hsb Hfl]. destruct Hfree as [Hrange Hmark]; [reflexivity |].
    rewrite Hsb. cbn [Superblock.num_blocks Superblock.free_blocks].
    set (n := Z.to_nat (Superblock.num_blocks (s_block fs))) in *.
    assert (Hcount :
      Z.of_nat (List.length (filter (fun b => negb (free_list fs' b =? 0))
                                    (zrange 0 n)))
      = Z.of_nat (List.length (filter (fun b => negb (free_list fs b =? 0))
                                      (zrange 0 n))) - 1).
    { rewrite Hfl. rewrite count_after_marking_used.
      replace (0 <=? block_num) with true by (symmetry; apply Z.leb_le; lia).
      replace (block_num <? 0 + Z.of_nat n) with true
        by (symmetry; apply Z.ltb_lt; subst n; lia).
      rewrite Hmark. reflexivity. }
    rewrite Hcount. rewrite Hcons.
    unfold c_uint32, wrap_unsigned. apply Z.mod_small.
    pose proof (filter_length_le (fun b => negb (free_list fs b =? 0)) (zrange 0 n))
      as Hle.
    rewrite zrange_length in Hle.
    assert (Hpos : 0 <= Z.of_nat (List.length
                      (filter (fun b => negb (free_list fs' b =? 0)) (zrange 0 n))))
      by lia.
    subst n. lia.
  - destruct Hrun as [Hsb Hfl]. rewrite Hsb, Hfl. exact Hcons.
Qed.

Lemma set_data_block_free_count_witness :
  free_count_consistent (fst (set_data_block 5 hello 5 2 0 files16)).
Proof.
  apply (set_data_block_free_count 5 hello 5 2 0 files16
           (fst (set_data_block 5 hello 5 2 0 files16)) (Ok tt)).
  - cbn. lia.
  - vm_compute. reflexivity.
  - vm_compute. reflexivity.
  - intros _. split; [cbn; lia | reflexivity].
Defined.

(** C4, as written, fails: sixteen attachments bring the counter of
    [files16] to 0, and the seventeenth succeeds and leaves [2^32 - 1] in
    it, which is not one less than 0 and is above [num_blocks]. *)
Lemma free_blocks_wraps_below_zero :
  snd (attach_hello_times 16 files16) = Ok tt
  /\ Superblock.free_blocks (s_block (fst (attach_hello_times 16 files16))) = 0
  /\ snd (set_data_block 5 hello 5 2 0 (fst (attach_hello_times 16 files16)))
     = Ok tt
  /\ Superblock.free_blocks
       (s_block (fst (set_data_block 5 hello 5 2 0
                        (fst (attach_hello_times 16 files16)))))
     = 4294967295
  /\ ~ (Superblock.free_blocks
          (s_block (fst (set_data_block 5 hello 5 2 0
                           (fst (attach_hello_times 16 files16)))))
        <= Superblock.num_blocks
             (s_block (fst (set_data_block 5 hello 5 2 0
                              (fst (attach_hello_times 16 files16)))))).
Proof.
  repeat split; try (vm_compute; reflexivity).
  vm_compute. intros H. apply H. reflexivity.
Qed.

(** C4, amended: a successful [set_data_block] leaves [num_blocks] alone and
    stores [free_blocks - 1] in the unsigned 32-bit counter, which is never
    negative.  When the counter was above 0 (and at most [num_blocks], a
    32-bit value) it decreases by exactly 1 and stays between 0 and
    [num_blocks]; when it was 0 it becomes [2^32 - 1]. *)
Theorem set_data_block_free_blocks :
  forall block_num data data_size parent_inode parent_block_num fs fs',
    set_data_block block_num data data_size parent_inode parent_block_num fs
    = (fs', Ok tt) ->
    Superblock.num_blocks (s_block fs') = Superblock.num_blocks (s_block fs)
    /\ Superblock.free_blocks (s_block fs')
       = (Superblock.free_blocks (s_block fs) - 1) mod 2 ^ 32
    /\ 0 <= Superblock.free_blocks (s_block fs')
    /\ (0 < Superblock.free_blocks (s_block fs)
          <= Superblock.num_blocks (s_block fs) ->
        Superblock.num_blocks (s_block fs) < 2 ^ 32 ->
        Superblock.free_blocks (s_block fs')
        = Superblock.free_blocks (s_block fs) - 1
        /\ Superblock.free_blocks (s_block fs')
           <= Superblock.num_blocks (s_block fs'))
    /\ (Superblock.free_blocks (s_block fs) = 0 ->
        Superblock.free_blocks (s_block fs') = 2 ^ 32 - 1).
Proof.
  intros block_num data data_size parent_inode parent_block_num fs fs' H.
  apply set_data_block_bookkeeping in H. cbn [succeeded] in H.
  destruct H as [Hsb _]. rewrite Hsb.
  cbn [Superblock.num_blocks Superblock.free_blocks].
  unfold c_uint32, wrap_unsigned.
  split; [reflexivity |]. split; [reflexivity |].
  split; [apply Z.mod_pos_bound; lia |].
  split.
  - intros Hfb Hnb. rewrite Z.mod_small by lia. lia.
  - intros ->. reflexivity.
Qed.

Lemma set_data_block_free_blocks_witness :
  Superblock.free_blocks (s_block (fst (set_data_block 5 hello 5 2 0 files16)))
  = 16 - 1
  /\ Superblock.free_blocks
       (s_block (fst (set_data_block 5 hello 5 2 0 files16)))
     <= Superblock.num_blocks
          (s_block (fst (set_data_block 5 hello 5 2 0 files16))).
Proof.
  apply (set_data_block_free_blocks 5 hello 5 2 0 files16).
  - vm_compute. reflexivity.
  - cbn. lia.
  - cbn. lia.
Defined.

(** ** What a successful attachment leaves alone *)

Lemma store_direct_block_Ok i k v fs fs' u :
  store_direct_block i k v fs = (fs', Ok u) ->
  exists j, array_index DIRECT_BLOCKS_COUNT k = Ok j.
Proof. unfold store_direct_block. intros H. run_prim H. eauto. Qed.

(** C10: a successful [set_data_block] writes the designated slot of the
    owner inode (parent_block_num, counted from the end when negative) and
    nothing outside the footprint [attach_frame] describes: the other
    inodes, the other fields and slots of the owner, the other data blocks,
    the payload bytes of the target block from [data_size] on, the other
    free-list entries, [num_blocks] and the root index are unchanged. *)
Theorem set_data_block_frame :
  forall block_num data data_size parent_inode parent_block_num fs fs',
    set_data_block block_num data data_size parent_inode parent_block_num fs
    = (fs', Ok tt) ->
    0 <= from_end DIRECT_BLOCKS_COUNT parent_block_num < DIRECT_BLOCKS_COUNT
    /\ attach_frame block_num data_size parent_inode
                    (from_end DIRECT_BLOCKS_COUNT parent_block_num) fs fs'.
Proof.
  intros block_num data data_size parent_inode parent_block_num fs fs' H.
  split; [| eapply set_data_block_preserves_frame; eassumption].
  unfold set_data_block in H. destruct (data_size >? 1024); [discriminate |].
  apply bind_Ok_inv in H. destruct H as (_ & fs1 & _ & H).
  apply bind_Ok_inv in H. destruct H as (_ & fs2 & _ & H).
  apply bind_Ok_inv in H. destruct H as (u & fs3 & Hlink & _).
  apply store_direct_block_Ok in Hlink. destruct Hlink as [j Hj].
  apply array_index_Ok in Hj. destruct Hj as [-> Hj]. exact Hj.
Qed.

Lemma set_data_block_frame_witness :
  0 <= from_end DIRECT_BLOCKS_COUNT 0 < DIRECT_BLOCKS_COUNT
  /\ attach_frame 5 5 2 (from_end DIRECT_BLOCKS_COUNT 0) files16
                  (fst (set_data_block 5 hello 5 2 0 files16)).
Proof.
  apply (set_data_block_frame 5 hello 5 2 0 files16). vm_compute. reflexivity.
Defined.

(** * Properties of [TInode] and [mkdir] *)

(** [Superblock] declares [num_blocks] and [free_blocks]; [num_block], the
    attribute line 116 reads, is not one of them. *)
Lemma Superblock_has_no_num_block sb :
  Superblock_getattr sb "num_block" = Raise AttributeError.
Proof. reflexivity. Qed.

(** A name that is not 32 characters long fails the first assertion. *)
Lemma TInode_init_name_length fs name n_type parent idx blocks :
  Z.of_nat (String.length name) <> 32 ->
  TInode.init fs name n_type parent idx blocks = Raise (AssertionError 106).
Proof.
  intros H. unfold TInode.init. apply Z.eqb_neq in H. rewrite H. reflexivity.
Qed.

(** A parent whose stored type is not [directory] fails an assertion: the
    one on the name, on the range of the parent, or on its type. *)
Lemma TInode_init_parent_not_directory fs name n_type parent idx blocks :
  Inode.n_type (inodes fs parent) <> int_of_NodeType directory ->
  exists line,
    TInode.init fs name n_type parent idx blocks = Raise (AssertionError line)
    /\ In line [106; 109; 110]%nat.
Proof.
  intros H. unfold TInode.init. apply Z.eqb_neq in H. rewrite H.
  destruct (negb (Z.of_nat (String.length name) =? 32));
    [eexists; split; [reflexivity | simpl; auto] |].
  destruct (negb _);
    eexists; (split; [reflexivity | simpl; auto]).
Qed.

(** Without [idx] the construction succeeds when the name has 32 characters,
    the parent is a directory in range and there are at most 12 blocks. *)
Lemma TInode_init_without_idx fs name n_type parent blocks :
  Z.of_nat (String.length name) = 32 ->
  0 < parent < Superblock.num_blocks (s_block fs) ->
  Inode.n_type (inodes fs parent) = int_of_NodeType directory ->
  Z.of_nat (List.length blocks) <= DIRECT_BLOCKS_COUNT ->
  TInode.init fs name n_type parent None blocks
  = Ok (TInode.mk name n_type parent None
          (blocks ++ repeat (-1)
             (Z.to_nat (DIRECT_BLOCKS_COUNT - Z.of_nat (List.length blocks))))).
Proof.
  intros Hname Hparent Hdir Hblocks. unfold TInode.init.
  rewrite Hname, Hdir. cbn [Z.eqb Pos.eqb negb int_of_NodeType].
  replace (parent >? 0) with true by (symmetry; apply Z.gtb_lt; lia).
  replace (parent <? Superblock.num_blocks (s_block fs)) with true
    by (symmetry; apply Z.ltb_lt; lia).
  replace (Z.of_nat (List.length blocks) <=? DIRECT_BLOCKS_COUNT) with true
    by (symmetry; apply Z.leb_le; lia).
  reflexivity.
Qed.

(** With an [idx] the construction never returns: line 116 fails its
    assertion for [idx <= 0] and raises [AttributeError] otherwise. *)
Lemma TInode_init_with_idx_raises fs name n_type parent i blocks :
  exists e, TInode.init fs name n_type parent (Some i) blocks = Raise e.
Proof.
  unfold TInode.init. rewrite Superblock_has_no_num_block.
  repeat match goal with
         | |- context [if ?b then _ else _] => destruct b
         end; eauto.
Qed.

(** The search of lines 184-187 returns the lowest slot that holds the
    sentinel. *)
Lemma first_empty_slot_is_lowest (slots : Z -> Z) :
  forall n start i,
    find (fun k => slots k =? -1) (zrange start n) = Some i ->
    start <= i < start + Z.of_nat n
    /\ slots i = -1
    /\ forall k, start <= k < i -> slots k <> -1.
Proof.
  induction n as [| n IH]; intros start i H; [discriminate |].
  cbn [zrange find] in H. destruct (slots start =? -1) eqn:E.
  - inv H. apply Z.eqb_eq in E. split; [lia | split; [exact E | lia]].
  - apply IH in H. destruct H as (Hi & Hs & Hlow). apply Z.eqb_neq in E.
    split; [lia | split; [exact Hs |]].
    intros k Hk. destruct (Z.eq_dec k start) as [-> | Hne]; [exact E |].
    apply Hlow. lia.
Qed.

(** [mkdir] always passes an [idx], so it raises before its first write. *)
Lemma mkdir_never_returns name idx parent parent_direct_block fs :
  exists e, mkdir name idx parent parent_direct_block fs = (fs, Raise e).
Proof.
  unfold mkdir, bind, gets, lift.
  destruct (TInode_init_with_idx_raises fs name directory parent idx
              TInode.default_blocks) as [e He].
  rewrite He. eauto.
Qed.

(** [check] with parent verification compares the parent of the inode at
    every one of the 12 slots, a sentinel included, with the checked index. *)
Lemma check_parents_visits_every_slot self fs idx_arg i :
  TInode.idx self = Some i ->
  TInode.check self fs idx_arg true = Ok tt ->
  forall k, 0 <= k < 12 ->
    Inode.parent (inodes fs (Inode.direct_blocks (inodes fs i) k)) = i.
Proof.
  intros Hidx H k Hk. unfold TInode.check in H. rewrite Hidx in H.
  repeat match type of H with
         | (if negb ?b then _ else _) = _ => destruct b; cbn [negb] in H;
                                             [| discriminate]
         end.
  cbn [andb] in H.
  destruct (existsb _ _); cbn [negb] in H; [| discriminate].
  destruct (forallb _ _) eqn:E; cbn [negb] in H; [| discriminate].
  rewrite forallb_forall in E.
  apply Z.eqb_eq. apply E. apply in_map.
  assert (Hin : forall n start, start <= k < start + Z.of_nat n ->
                                In k (zrange start n)).
  { induction n as [| n IH]; intros start Hs; [lia |].
    simpl. destruct (Z.eq_dec start k); [auto |]. right. apply IH. lia. }
  apply Hin. lia.
Qed.

(** Without parent verification the children are not looked at: the result
    depends on the checked inode alone. *)
Lemma check_without_parents_ignores_children self fs fs' idx_arg i :
  TInode.idx self = Some i ->
  s_block fs' = s_block fs ->
  inodes fs' i = inodes fs i ->
  TInode.check self fs' idx_arg false = TInode.check self fs idx_arg false.
Proof.
  intros Hidx Hsb Hino. unfold TInode.check. rewrite Hidx, Hsb, Hino.
  reflexivity.
Qed.

(** C5, on the code: [mkdir] without a parent slot never gets to its
    first-fit search: building the [TInode] raises first, whatever the
    arguments, and nothing has been written by then.  For ["dir2"] at index 2
    under the root of [volume16], all of whose 12 slots are empty, the
    exception is [AttributeError]; the search would have found slot 0, and
    slot 0 of the root is still empty afterwards. *)
Theorem mkdir_raises_before_first_fit :
  (forall name idx parent fs,
      exists e, mkdir name idx parent None fs = (fs, Raise e))
  /\ mkdir dir2_name 2 1 None volume16 = (volume16, Raise AttributeError)
  /\ find (fun i => Inode.direct_blocks (inodes volume16 1) i =? -1)
          (zrange 0 12) = Some 0
  /\ Inode.direct_blocks (inodes (fst (mkdir dir2_name 2 1 None volume16)) 1) 0
     = -1.
Proof.
  split; [| repeat split; reflexivity].
  intros name idx parent fs. apply mkdir_never_returns.
Qed.

(** C8, on the code: inode 2 of [tree16] has one child, inode 3, whose
    parent is 2, and [expected_dir2], built with [TInode] and [pin], matches
    it field for field.  The check with parent verification still fails at
    line 164, because it also compares the parent of the inode at index -1,
    read through the 11 sentinel slots, with 2.  Without parent verification
    the check passes. *)
Theorem check_parents_reads_sentinel_slots :
  match TInode.init tree16 dir2_name directory 1 None [3] with
  | Ok inode => TInode.pin inode 2
  | other => other
  end = Ok expected_dir2
  /\ (forall k, In k (zrange 0 12) ->
        Inode.direct_blocks (inodes tree16 2) k <> -1 ->
        Inode.parent (inodes tree16 (Inode.direct_blocks (inodes tree16 2) k))
        = 2)
  /\ TInode.check expected_dir2 tree16 None true = Raise (AssertionError 164)
  /\ TInode.check expected_dir2 tree16 None false = Ok tt.
Proof.
  split; [reflexivity |]. split; [| split; reflexivity].
  intros k Hk. simpl in Hk.
  repeat (destruct Hk as [<- | Hk]; [vm_compute; congruence |]).
  destruct Hk.
Qed.

(** C9, on the code: the construction [mkdir] performs passes an [idx], and
    with an [idx] the construction never succeeds.  With a name of 32
    characters and the root directory of [volume16] as parent it raises
    [AttributeError] at line 116; the same construction without [idx]
    succeeds. *)
Theorem TInode_init_with_idx_fails :
  (forall fs name n_type parent i blocks,
      exists e, TInode.init fs name n_type parent (Some i) blocks = Raise e)
  /\ String.length dir2_name = 32%nat
  /\ Inode.n_type (inodes volume16 1) = int_of_NodeType directory
  /\ TInode.init volume16 dir2_name directory 1 (Some 2) TInode.default_blocks
     = Raise AttributeError
  /\ TInode.init volume16 dir2_name directory 1 None TInode.default_blocks
     = Ok (TInode.mk dir2_name directory 1 None TInode.default_blocks).
Proof.
  split; [| repeat split; reflexivity].
  intros fs name n_type parent i blocks. apply TInode_init_with_idx_raises.
Qed.

(** * Further properties of [set_data_block] *)

Lemma bind_Ok_run {A B : Type} (c : M A) (k : A -> M B) fs mid a :
  c fs = (mid, Ok a) -> bind c k fs = k a mid.
Proof. intros H. unfold bind. now rewrite H. Qed.

Lemma bind_Raise_run {A B : Type} (c : M A) (k : A -> M B) fs mid e :
  c fs = (mid, Raise e) -> bind c k fs = (mid, Raise e).
Proof. intros H. unfold bind. now rewrite H. Qed.

(** ** Which exceptions a call can raise *)

Lemma raises_only_bind {A B : Type} e (c : M A) (k : A -> M B) :
  raises_only e c -> (forall a, raises_only e (k a)) -> raises_only e (bind c k).
Proof.
  intros Hc Hk fs fs' r H. unfold bind in H.
  destruct (c fs) as [mid [a | e' |]] eqn:E.
  - eapply Hk; eassumption.
  - inv H. destruct (Hc _ _ _ E) as [Hs | Hs]; [discriminate | inv Hs; auto].
  - destruct (Hc _ _ _ E) as [Hs | Hs]; discriminate.
Qed.

Lemma raises_only_ptr i : raises_only IndexError (ptr i).
Proof.
  intros fs fs' r H. unfold ptr in H. destruct (ssize_ok i); inv H; auto.
Qed.

Lemma raises_only_modify e f : raises_only e (modify f).
Proof. intros fs fs' r H. inv H. auto. Qed.

Lemma raises_only_gets {A : Type} e (f : FileSystem -> A) :
  raises_only e (gets f).
Proof. intros fs fs' r H. inv H. auto. Qed.

Lemma raises_only_array_index len i :
  raises_only IndexError (lift (array_index len i)).
Proof.
  intros fs fs' r H. unfold lift, array_index in H.
  destruct (_ && _); inv H; auto.
Qed.

Lemma raises_only_list_item l i : raises_only IndexError (lift (list_item l i)).
Proof.
  intros fs fs' r H. unfold lift, list_item in H.
  destruct (_ && _); inv H; auto.
Qed.

Create HintDb raises.

#[local] Hint Resolve raises_only_ptr raises_only_modify raises_only_gets
  raises_only_array_index raises_only_list_item : raises.

Ltac raises_tac :=
  repeat first
    [ apply raises_only_bind; [| intros ?]
    | solve [auto with raises] ].

Lemma raises_only_store_data_block_size b v :
  raises_only IndexError (store_data_block_size b v).
Proof. unfold store_data_block_size. raises_tac. Qed.

Lemma raises_only_store_data_block_byte b i v :
  raises_only IndexError (store_data_block_byte b i v).
Proof. unfold store_data_block_byte. raises_tac. Qed.

Lemma raises_only_load_data_block_size b :
  raises_only IndexError (load_data_block_size b).
Proof. unfold load_data_block_size. raises_tac. Qed.

Lemma raises_only_load_direct_block i k :
  raises_only IndexError (load_direct_block i k).
Proof. unfold load_direct_block. raises_tac. Qed.

Lemma raises_only_store_direct_block i k v :
  raises_only IndexError (store_direct_block i k v).
Proof. unfold store_direct_block. raises_tac. Qed.

Lemma raises_only_load_inode_size i : raises_only IndexError (load_inode_size i).
Proof. unfold load_inode_size. raises_tac. Qed.

Lemma raises_only_store_inode_size i v :
  raises_only IndexError (store_inode_size i v).
Proof. unfold store_inode_size. raises_tac. Qed.

Lemma raises_only_store_free_list b v :
  raises_only IndexError (store_free_list b v).
Proof. unfold store_free_list. raises_tac. Qed.

#[local] Hint Resolve raises_only_store_data_block_size
  raises_only_store_data_block_byte raises_only_load_data_block_size
  raises_only_load_direct_block raises_only_store_direct_block
  raises_only_load_inode_size raises_only_store_inode_size
  raises_only_store_free_list : raises.

Lemma raises_only_for_range e (body : Z -> M unit) :
  (forall j, raises_only e (body j)) ->
  forall n i, raises_only e (for_range n i body).
Proof.
  intros Hbody. induction n as [| n IH]; intros i; simpl.
  - intros fs fs' r H. inv H. auto.
  - apply raises_only_bind; [apply Hbody | intros _; apply IH].
Qed.

Lemma raises_only_recompute_size_loop parent_inode :
  forall n i,
    DIRECT_BLOCKS_COUNT <= i + Z.of_nat n ->
    raises_only IndexError (recompute_size_loop (S n) parent_inode i).
Proof.
  induction n as [| n IH]; intros i Hi.
  - intros fs fs' r H. simpl in H. unfold bind at 1 in H.
    destruct (load_direct_block_past_end parent_inode i fs) as [e He]; [lia |].
    pose proof (raises_only_load_direct_block _ _ _ _ _ He) as [Hs | Hs];
      [discriminate |].
    inv Hs. rewrite He in H. inv H. auto.
  - cbn [recompute_size_loop].
    apply raises_only_bind; [auto with raises |]. intros d.
    destruct (negb (d =? -1)); [| intros fs fs' r H; inv H; auto].
    apply raises_only_bind; [auto with raises | intros s].
    apply raises_only_bind; [auto with raises | intros d'].
    apply raises_only_bind; [auto with raises | intros sz].
    apply raises_only_bind; [auto with raises | intros _].
    apply IH. lia.
Qed.

(** A call of [set_data_block] ends in one of three ways: [SystemExit] with
    nothing written, exactly when [data_size] is above 1024; a normal
    return; or [IndexError].  No other exception can come out of it. *)
Theorem set_data_block_outcomes :
  forall block_num data data_size parent_inode parent_block_num fs fs' r,
    set_data_block block_num data data_size parent_inode parent_block_num fs
    = (fs', r) ->
    (data_size > 1024 /\ r = Raise SystemExit /\ fs' = fs)
    \/ (data_size <= 1024 /\ (r = Ok tt \/ r = Raise IndexError)).
Proof.
  intros block_num data data_size parent_inode parent_block_num fs fs' r H.
  unfold set_data_block in H. destruct (Z.gtb_spec data_size 1024) as [Hgt | Hle].
  - inv H. left. repeat split. lia.
  - right. split; [lia |].
    assert (Hr : raises_only IndexError
              (store_data_block_size block_num data_size ;;
               for_range (Z.to_nat data_size) 0 (fun i =>
                 v <- lift (list_item data i) ;;
                 store_data_block_byte block_num i v) ;;
               store_direct_block parent_inode parent_block_num block_num ;;
               store_inode_size parent_inode 0 ;;
               recompute_size_loop loop_fuel parent_inode 0 ;;
               store_free_list block_num 0 ;;
               fb <- load_free_blocks ;;
               store_free_blocks (fb - 1))).
    { apply raises_only_bind; [auto with raises | intros _].
      apply raises_only_bind.
      { apply raises_only_for_range. intros j. raises_tac. }
      intros _. apply raises_only_bind; [auto with raises | intros _].
      apply raises_only_bind; [auto with raises | intros _].
      apply raises_only_bind.
      { apply (raises_only_recompute_size_loop parent_inode 12 0).
        unfold DIRECT_BLOCKS_COUNT. lia. }
      intros _. apply raises_only_bind; [auto with raises | intros _].
      apply raises_only_bind; [apply raises_only_gets | intros fb].
      intros fs0 fs0' r0 H0. inv H0. auto. }
    destruct (Hr _ _ _ H) as [Hs | Hs]; [left | right; exact Hs].
    destruct r as [[] | |]; [reflexivity | discriminate | discriminate].
Qed.

Lemma set_data_block_outcomes_witness :
  (5 > 1024 /\ Ok tt = Raise SystemExit
   /\ fst (set_data_block 5 hello 5 2 0 files16) = files16)
  \/ (5 <= 1024 /\ (Ok tt = Ok tt \/ @Ok unit tt = Raise IndexError)).
Proof.
  apply (set_data_block_outcomes 5 hello 5 2 0 files16
           (fst (set_data_block 5 hello 5 2 0 files16)) (Ok tt)).
  vm_compute. reflexivity.
Defined.

(** ** Calls that stop before the inode is linked *)

Lemma within_guard data_size : data_size <= 1024 -> (data_size >? 1024) = false.
Proof. intros H. rewrite Z.gtb_ltb. apply Z.ltb_ge. lia. Qed.

#[local] Instance same_tables_refl : Reflexive same_tables.
Proof. intros fs. repeat split. Qed.

#[local] Instance same_tables_trans : Transitive same_tables.
Proof.
  intros a b c (H1 & H2 & H3) (H4 & H5 & H6).
  repeat split; congruence.
Qed.

Lemma tables_store_data_block_size b v :
  preserves same_tables (store_data_block_size b v).
Proof.
  intros fs fs' r H. apply store_data_block_size_state in H.
  destruct H as [-> | ->]; repeat split.
Qed.

Lemma tables_store_data_block_byte b i v :
  preserves same_tables (store_data_block_byte b i v).
Proof.
  intros fs fs' r H. apply store_data_block_byte_state in H.
  destruct H as [-> | (j & _ & ->)]; repeat split.
Qed.

(** The copy loop of lines 212-213. *)
Lemma tables_copy_loop block_num data n i :
  preserves same_tables
    (for_range n i (fun i =>
       v <- lift (list_item data i) ;; store_data_block_byte block_num i v)).
Proof.
  apply preserves_for_range; try typeclasses eauto. intros j _.
  apply preserves_bind;
    [typeclasses eauto | apply preserves_pure; typeclasses eauto |].
  intros v. apply tables_store_data_block_byte.
Qed.

Lemma list_item_past_end l i :
  Z.of_nat (List.length l) <= i -> list_item l i = Raise IndexError.
Proof.
  intros H. unfold list_item, from_end.
  replace (i <? 0) with false by (symmetry; apply Z.ltb_ge; lia).
  replace (i <? Z.of_nat (List.length l)) with false
    by (symmetry; apply Z.ltb_ge; lia).
  now rewrite andb_false_r.
Qed.

Lemma list_item_inside l i :
  0 <= i < Z.of_nat (List.length l) ->
  list_item l i = Ok (nth (Z.to_nat i) l 0).
Proof.
  intros H. unfold list_item, from_end.
  replace (i <? 0) with false by (symmetry; apply Z.ltb_ge; lia).
  replace (0 <=? i) with true by (symmetry; apply Z.leb_le; lia).
  replace (i <? Z.of_nat (List.length l)) with true
    by (symmetry; apply Z.ltb_lt; lia).
  reflexivity.
Qed.

Lemma array_index_inside len i : 0 <= i < len -> array_index len i = Ok i.
Proof.
  intros H. unfold array_index, from_end.
  replace (i <? 0) with false by (symmetry; apply Z.ltb_ge; lia).
  replace (0 <=? i) with true by (symmetry; apply Z.leb_le; lia).
  replace (i <? len) with true by (symmetry; apply Z.ltb_lt; lia).
  reflexivity.
Qed.

Lemma array_index_outside len i :
  0 <= len -> ~ (- len <= i < len) -> array_index len i = Raise IndexError.
Proof.
  intros Hlen H. unfold array_index, from_end.
  destruct (i <? 0) eqn:E.
  - apply Z.ltb_lt in E.
    replace (0 <=? i + len) with false by (symmetry; apply Z.leb_gt; lia).
    reflexivity.
  - apply Z.ltb_ge in E.
    replace (i <? len) with false by (symmetry; apply Z.ltb_ge; lia).
    now rewrite andb_false_r.
Qed.

(** The copy loop raises when it comes to the end of a payload that is
    shorter than the announced size. *)
Lemma copy_loop_short_data block_num data :
  forall n i fs,
    0 <= i <= Z.of_nat (List.length data) ->
    Z.of_nat (List.length data) < i + Z.of_nat n ->
    exists fs',
      for_range n i (fun i =>
        v <- lift (list_item data i) ;; store_data_block_byte block_num i v) fs
      = (fs', Raise IndexError).
Proof.
  induction n as [| n IH]; intros i fs Hi Hn; [lia |].
  cbn [for_range].
  destruct (Z.eq_dec i (Z.of_nat (List.length data))) as [-> | Hne].
  - eexists. apply bind_Raise_run. apply bind_Raise_run.
    unfold lift. rewrite list_item_past_end by lia. reflexivity.
  - match goal with
    | |- context [bind ?c _ fs] => destruct (c fs) as [fs1 r1] eqn:E
    end.
    pose proof E as E'.
    apply (raises_only_bind IndexError) in E';
      [| auto with raises | intros v; auto with raises].
    destruct r1 as [[] | e |].
    + rewrite (bind_Ok_run _ _ _ _ _ E). apply IH; lia.
    + destruct E' as [E' | E']; [discriminate |]. inv E'.
      eexists. apply bind_Raise_run. exact E.
    + destruct E' as [E' | E']; discriminate.
Qed.



Lemma store_direct_block_bad_slot i k v fs :
  ~ (- DIRECT_BLOCKS_COUNT <= k < DIRECT_BLOCKS_COUNT) ->
  store_direct_block i k v fs = (fs, Raise IndexError).
Proof.
  intros Hk. unfold store_direct_block, bind, ptr, lift.
  destruct (ssize_ok i); [| reflexivity]. cbn.
  rewrite array_index_outside; [reflexivity | unfold DIRECT_BLOCKS_COUNT; lia | exact Hk].
Qed.



(** ** What a successful call has written *)

#[local] Instance same_links_refl : Reflexive same_links.
Proof. intros fs. split; reflexivity. Qed.

#[local] Instance same_links_trans : Transitive same_links.
Proof.
  intros a b c [H1 H2] [H3 H4]. split; [congruence |].
  intros i. now rewrite H4.
Qed.

Lemma links_store_inode_size i v : preserves same_links (store_inode_size i v).
Proof.
  intros fs fs' r H. apply store_inode_size_state in H.
  destruct H as [-> | ->]; [reflexivity |].
  split; [reflexivity |]. intros j. cbn. unfold upd.
  destruct (j =? i) eqn:E; [| reflexivity].
  apply Z.eqb_eq in E. subst j. reflexivity.
Qed.

Lemma links_store_free_list b v : preserves same_links (store_free_list b v).
Proof.
  intros fs fs' r H. apply store_free_list_state in H.
  destruct H as [-> | ->]; split; reflexivity.
Qed.

(** Lines 218-227 write no direct block and no data block. *)
Lemma links_after_linking parent_inode block_num :
  preserves same_links
    (store_inode_size parent_inode 0 ;;
     recompute_size_loop loop_fuel parent_inode 0 ;;
     store_free_list block_num 0 ;;
     fb <- load_free_blocks ;;
     store_free_blocks (fb - 1)).
Proof.
  apply preserves_bind; [typeclasses eauto | apply links_store_inode_size |].
  intros _. apply preserves_bind; [typeclasses eauto | |].
  { apply preserves_recompute_size_loop; try typeclasses eauto.
    intros v. apply links_store_inode_size. }
  intros _. apply preserves_bind;
    [typeclasses eauto | apply links_store_free_list |].
  intros _. apply preserves_bind; [typeclasses eauto | |].
  { intros fs fs' r H. inv H. reflexivity. }
  intros fb fs fs' r H. inv H. split; reflexivity.
Qed.

Lemma store_data_block_size_Ok b v fs fs' u :
  store_data_block_size b v fs = (fs', Ok u) ->
  ssize_ok b = true
  /\ fs' = with_data_block fs b
             (DataBlock.mk (c_size_t v) (DataBlock.block (data_blocks fs b))).
Proof. unfold store_data_block_size. intros H. run_prim H. auto. Qed.

Lemma store_data_block_byte_Ok b i v fs fs' u :
  0 <= i ->
  store_data_block_byte b i v fs = (fs', Ok u) ->
  fs' = with_data_block fs b
          (DataBlock.mk (DataBlock.size (data_blocks fs b))
                        (upd (DataBlock.block (data_blocks fs b)) i (c_uint8 v))).
Proof.
  intros Hi. unfold store_data_block_byte. intros H. run_prim H.
  match goal with
  | E : array_index _ _ = Ok _ |- _ =>
      apply array_index_nonneg in E; [destruct E as [-> _] | exact Hi]
  end.
  reflexivity.
Qed.

Lemma list_item_Ok l i v :
  0 <= i -> list_item l i = Ok v ->
  i < Z.of_nat (List.length l) /\ v = nth (Z.to_nat i) l 0.
Proof.
  intros Hi H. destruct (Z_lt_le_dec i (Z.of_nat (List.length l))) as [Hlt | Hge].
  - rewrite list_item_inside in H by lia. inv H. auto.
  - rewrite list_item_past_end in H by lia. discriminate.
Qed.

Lemma store_direct_block_Ok_state i k v fs fs' u :
  store_direct_block i k v fs = (fs', Ok u) ->
  ssize_ok i = true
  /\ 0 <= from_end DIRECT_BLOCKS_COUNT k < DIRECT_BLOCKS_COUNT
  /\ fs' = with_inode fs i
             (Inode.mk (Inode.n_type (inodes fs i)) (Inode.size (inodes fs i))
                       (Inode.name (inodes fs i))
                       (upd (Inode.direct_blocks (inodes fs i))
                            (from_end DIRECT_BLOCKS_COUNT k) (c_int v))
                       (Inode.parent (inodes fs i))).
Proof.
  unfold store_direct_block. intros H. run_prim H.
  match goal with
  | E : array_index _ _ = Ok _ |- _ =>
      apply array_index_Ok in E; destruct E as [-> E]
  end.
  auto.
Qed.

(** A copy loop that ends normally has read and stored every byte of its
    range, and nothing else of the block. *)
Lemma copy_loop_Ok block_num data :
  forall n i fs fs',
    0 <= i ->
    for_range n i (fun i =>
      v <- lift (list_item data i) ;; store_data_block_byte block_num i v) fs
    = (fs', Ok tt) ->
    (n <> O -> i + Z.of_nat n <= Z.of_nat (List.length data))
    /\ DataBlock.size (data_blocks fs' block_num)
       = DataBlock.size (data_blocks fs block_num)
    /\ forall k,
         DataBlock.block (data_blocks fs' block_num) k
         = if (i <=? k) && (k <? i + Z.of_nat n)
           then c_uint8 (nth (Z.to_nat k) data 0)
           else DataBlock.block (data_blocks fs block_num) k.
Proof.
  induction n as [| n IH]; intros i fs fs' Hi H.
  - inv H. split; [congruence |]. split; [reflexivity |].
    intros k. replace (i + Z.of_nat 0) with i by lia.
    destruct (i <=? k) eqn:E1, (k <? i) eqn:E2; try reflexivity. lia.
  - cbn [for_range] in H.
    apply bind_Ok_inv in H. destruct H as ([] & fs1 & Hbody & H).
    apply bind_Ok_inv in Hbody. destruct Hbody as (v & fs0 & Hv & Hst).
    unfold lift in Hv. inv Hv.
    match goal with
    | E : list_item _ _ = Ok _ |- _ =>
        apply list_item_Ok in E; [destruct E as [Hlt ->] | exact Hi]
    end.
    apply store_data_block_byte_Ok in Hst; [| exact Hi]. subst fs1.
    apply IH in H; [| lia]. destruct H as (Hlen & Hsize & Hbytes).
    split; [intros _; destruct n; [lia | specialize (Hlen ltac:(congruence)); lia] |].
    split; [rewrite Hsize; cbn; rewrite upd_same; reflexivity |].
    intros k. rewrite Hbytes. cbn [data_blocks with_data_block].
    rewrite upd_same. cbn [DataBlock.block].
    destruct (Z.eq_dec k i) as [-> | Hne].
    + rewrite upd_same.
      replace (i + 1 <=? i) with false by (symmetry; apply Z.leb_gt; lia).
      replace (i <=? i) with true by (symmetry; apply Z.leb_le; lia).
      replace (i <? i + Z.of_nat (S n)) with true
        by (symmetry; apply Z.ltb_lt; lia).
      reflexivity.
    + rewrite upd_other by exact Hne.
      replace ((i <=? k) && (k <? i + Z.of_nat (S n)))
        with ((i + 1 <=? k) && (k <? i + 1 + Z.of_nat n)); [reflexivity |].
      destruct (Z.leb_spec (i + 1) k), (Z.ltb_spec k (i + 1 + Z.of_nat n)),
        (Z.leb_spec i k), (Z.ltb_spec k (i + Z.of_nat (S n)));
        try reflexivity; lia.
Qed.

(** What the state holds after a normal return. *)
Lemma set_data_block_Ok_writes :
  forall block_num data data_size parent_inode parent_block_num fs fs',
    set_data_block block_num data data_size parent_inode parent_block_num fs
    = (fs', Ok tt) ->
    DataBlock.size (data_blocks fs' block_num) = c_size_t data_size
    /\ (forall k, 0 <= k < data_size ->
          k < Z.of_nat (List.length data)
          /\ DataBlock.block (data_blocks fs' block_num) k
             = c_uint8 (nth (Z.to_nat k) data 0))
    /\ Inode.direct_blocks (inodes fs' parent_inode)
                           (from_end DIRECT_BLOCKS_COUNT parent_block_num)
       = c_int block_num
    /\ free_list fs' block_num = 0.
Proof.
  intros block_num data data_size parent_inode parent_block_num fs fs' H.
  pose proof (set_data_block_bookkeeping _ _ _ _ _ _ _ _ H) as [_ Hfl].
  cbn [succeeded] in Hfl.
  unfold set_data_block in H. destruct (data_size >? 1024); [discriminate |].
  apply bind_Ok_inv in H. destruct H as (u1 & fs1 & H1 & H).
  apply store_data_block_size_Ok in H1. destruct H1 as [_ ->].
  apply bind_Ok_inv in H. destruct H as ([] & fs2 & H2 & H).
  apply copy_loop_Ok in H2; [| lia]. destruct H2 as (Hlen & Hsize & Hbytes).
  apply bind_Ok_inv in H. destruct H as (u3 & fs3 & H3 & H).
  apply store_direct_block_Ok_state in H3. destruct H3 as (_ & _ & ->).
  apply links_after_linking in H. destruct H as [Hdb Hslots].
  cbn in Hsize. rewrite upd_same in Hsize. cbn in Hsize.
  split; [rewrite Hdb; exact Hsize |].
  split.
  - intros k Hk. split.
    + assert (Z.to_nat data_size <> O) by lia.
      specialize (Hlen ltac:(assumption)). lia.
    + rewrite Hdb. cbn [data_blocks with_inode]. rewrite Hbytes.
      replace (0 <=? k) with true by (symmetry; apply Z.leb_le; lia).
      replace (k <? 0 + Z.of_nat (Z.to_nat data_size)) with true
        by (symmetry; apply Z.ltb_lt; lia).
      reflexivity.
  - split; [| rewrite Hfl; apply upd_same].
    rewrite Hslots. cbn. rewrite upd_same. cbn. apply upd_same.
Qed.

(** A successful [set_data_block] has stored the payload and linked it: the
    size of the target block is [data_size] (as a [c_size_t]), its bytes
    [0 .. data_size - 1] are the first [data_size] items of [data] (as
    [c_uint8]), the designated slot of the owner holds [block_num] (as a
    [c_int]), and the block is marked used.  The payload had at least
    [data_size] items. *)
Theorem set_data_block_writes :
  forall block_num data data_size parent_inode parent_block_num fs fs',
    set_data_block block_num data data_size parent_inode parent_block_num fs
    = (fs', Ok tt) ->
    DataBlock.size (data_blocks fs' block_num) = c_size_t data_size
    /\ (forall k, 0 <= k < data_size ->
          k < Z.of_nat (List.length data)
          /\ DataBlock.block (data_blocks fs' block_num) k
             = c_uint8 (nth (Z.to_nat k) data 0))
    /\ Inode.direct_blocks (inodes fs' parent_inode)
                           (from_end DIRECT_BLOCKS_COUNT parent_block_num)
       = c_int block_num
    /\ free_list fs' block_num = 0.
Proof. exact set_data_block_Ok_writes. Qed.

Lemma set_data_block_writes_witness :
  DataBlock.size (data_blocks (fst (set_data_block 5 hello 5 2 0 files16)) 5)
  = c_size_t 5
  /\ (forall k, 0 <= k < 5 ->
        k < Z.of_nat (List.length hello)
        /\ DataBlock.block
             (data_blocks (fst (set_data_block 5 hello 5 2 0 files16)) 5) k
           = c_uint8 (nth (Z.to_nat k) hello 0))
  /\ Inode.direct_blocks (inodes (fst (set_data_block 5 hello 5 2 0 files16)) 2)
                         (from_end DIRECT_BLOCKS_COUNT 0)
     = c_int 5
  /\ free_list (fst (set_data_block 5 hello 5 2 0 files16)) 5 = 0.
Proof.
  apply (set_data_block_writes 5 hello 5 2 0 files16). vm_compute. reflexivity.
Defined.

(** ** When a call succeeds, and when the owner is full *)

Lemma ptr_runs i fs : ssize_ok i = true -> ptr i fs = (fs, Ok i).
Proof. intros H. unfold ptr. now rewrite H. Qed.

Lemma c_int_range v : - 2 ^ 31 <= c_int v < 2 ^ 31.
Proof.
  unfold c_int, wrap_signed.
  pose proof (Z.mod_pos_bound (v + 2 ^ (32 - 1)) (2 ^ 32) ltac:(lia)) as H.
  change (2 ^ (32 - 1)) with (2 ^ 31) in *. lia.
Qed.

Lemma ssize_ok_c_int v : ssize_ok (c_int v) = true.
Proof.
  pose proof (c_int_range v) as H. unfold ssize_ok.
  apply andb_true_iff. split; [apply Z.leb_le | apply Z.ltb_lt]; lia.
Qed.

Lemma in_volume_ssize_ok fs i :
  Superblock.num_blocks (s_block fs) < 2 ^ 31 ->
  in_volume fs i -> ssize_ok i = true.
Proof.
  unfold in_volume, ssize_ok. intros Hn Hi.
  apply andb_true_iff. split; [apply Z.leb_le | apply Z.ltb_lt]; lia.
Qed.

Lemma store_data_block_size_runs b v fs :
  ssize_ok b = true ->
  store_data_block_size b v fs
  = (with_data_block fs b
       (DataBlock.mk (c_size_t v) (DataBlock.block (data_blocks fs b))), Ok tt).
Proof.
  intros H. unfold store_data_block_size.
  rewrite (bind_Ok_run _ _ _ _ _ (ptr_runs b fs H)). reflexivity.
Qed.

Lemma store_data_block_byte_runs b i v fs :
  ssize_ok b = true -> 0 <= i < BLOCK_SIZE ->
  exists fs', store_data_block_byte b i v fs = (fs', Ok tt).
Proof.
  intros H Hi. unfold store_data_block_byte.
  rewrite (bind_Ok_run _ _ _ _ _ (ptr_runs b fs H)).
  unfold lift, bind. rewrite array_index_inside by exact Hi.
  eexists. reflexivity.
Qed.

Lemma copy_loop_runs block_num data :
  ssize_ok block_num = true ->
  forall n i fs,
    0 <= i ->
    i + Z.of_nat n <= Z.of_nat (List.length data) ->
    i + Z.of_nat n <= BLOCK_SIZE ->
    exists fs',
      for_range n i (fun i =>
        v <- lift (list_item data i) ;; store_data_block_byte block_num i v) fs
      = (fs', Ok tt).
Proof.
  intros Hb. induction n as [| n IH]; intros i fs Hi Hlen Hcap.
  - eexists. reflexivity.
  - cbn [for_range].
    destruct (store_data_block_byte_runs block_num i
                (nth (Z.to_nat i) data 0) fs Hb) as [fs1 H1]; [lia |].
    assert (Hbody :
      bind (lift (list_item data i))
           (fun v => store_data_block_byte block_num i v) fs = (fs1, Ok tt)).
    { unfold bind at 1, lift. rewrite list_item_inside by lia. exact H1. }
    rewrite (bind_Ok_run _ _ _ _ _ Hbody). apply IH; lia.
Qed.

Lemma load_direct_block_runs i k fs :
  ssize_ok i = true -> 0 <= k < DIRECT_BLOCKS_COUNT ->
  load_direct_block i k fs = (fs, Ok (Inode.direct_blocks (inodes fs i) k)).
Proof.
  intros H Hk. unfold load_direct_block.
  rewrite (bind_Ok_run _ _ _ _ _ (ptr_runs i fs H)).
  unfold lift, bind. rewrite array_index_inside by exact Hk. reflexivity.
Qed.

Lemma store_direct_block_runs i k v fs :
  ssize_ok i = true ->
  - DIRECT_BLOCKS_COUNT <= k < DIRECT_BLOCKS_COUNT ->
  store_direct_block i k v fs
  = (with_inode fs i
       (Inode.mk (Inode.n_type (inodes fs i)) (Inode.size (inodes fs i))
                 (Inode.name (inodes fs i))
                 (upd (Inode.direct_blocks (inodes fs i))
                      (from_end DIRECT_BLOCKS_COUNT k) (c_int v))
                 (Inode.parent (inodes fs i))), Ok tt).
Proof.
  intros H Hk. unfold store_direct_block.
  rewrite (bind_Ok_run _ _ _ _ _ (ptr_runs i fs H)).
  unfold lift, bind, array_index.
  assert (Hj : 0 <= from_end DIRECT_BLOCKS_COUNT k < DIRECT_BLOCKS_COUNT).
  { unfold from_end. destruct (Z.ltb_spec k 0); lia. }
  replace (0 <=? from_end DIRECT_BLOCKS_COUNT k) with true
    by (symmetry; apply Z.leb_le; lia).
  replace (from_end DIRECT_BLOCKS_COUNT k <? DIRECT_BLOCKS_COUNT) with true
    by (symmetry; apply Z.ltb_lt; lia).
  reflexivity.
Qed.

Lemma store_inode_size_runs i v fs :
  ssize_ok i = true ->
  store_inode_size i v fs
  = (with_inode fs i
       (Inode.mk (Inode.n_type (inodes fs i)) (c_uint16 v)
                 (Inode.name (inodes fs i)) (Inode.direct_blocks (inodes fs i))
                 (Inode.parent (inodes fs i))), Ok tt).
Proof.
  intros H. unfold store_inode_size.
  rewrite (bind_Ok_run _ _ _ _ _ (ptr_runs i fs H)). reflexivity.
Qed.

(** One round of the loop on a slot that holds a pointer. *)
Lemma recompute_size_loop_step parent_inode fuel i fs :
  ssize_ok parent_inode = true ->
  0 <= i < DIRECT_BLOCKS_COUNT ->
  Inode.direct_blocks (inodes fs parent_inode) i <> -1 ->
  ssize_ok (Inode.direct_blocks (inodes fs parent_inode) i) = true ->
  exists fs1,
    recompute_size_loop (S fuel) parent_inode i fs
    = recompute_size_loop fuel parent_inode (i + 1) fs1
    /\ Inode.direct_blocks (inodes fs1 parent_inode)
       = Inode.direct_blocks (inodes fs parent_inode).
Proof.
  intros Hp Hi Hd Hs. cbn [recompute_size_loop].
  rewrite (bind_Ok_run _ _ _ _ _ (load_direct_block_runs _ _ fs Hp Hi)).
  apply Z.eqb_neq in Hd. rewrite Hd. cbn [negb].
  assert (H1 : load_inode_size parent_inode fs
               = (fs, Ok (Inode.size (inodes fs parent_inode)))).
  { unfold load_inode_size.
    rewrite (bind_Ok_run _ _ _ _ _ (ptr_runs parent_inode fs Hp)). reflexivity. }
  rewrite (bind_Ok_run _ _ _ _ _ H1).
  rewrite (bind_Ok_run _ _ _ _ _ (load_direct_block_runs _ _ fs Hp Hi)).
  assert (H2 : load_data_block_size
                 (Inode.direct_blocks (inodes fs parent_inode) i) fs
               = (fs, Ok (DataBlock.size
                            (data_blocks fs
                               (Inode.direct_blocks (inodes fs parent_inode) i))))).
  { unfold load_data_block_size.
    rewrite (bind_Ok_run _ _ _ _ _ (ptr_runs _ fs Hs)). reflexivity. }
  rewrite (bind_Ok_run _ _ _ _ _ H2).
  rewrite (bind_Ok_run _ _ _ _ _ (store_inode_size_runs _ _ fs Hp)).
  eexists. split; [reflexivity |]. cbn. rewrite upd_same. reflexivity.
Qed.

(** The loop ends normally when a slot from [i] on holds the sentinel. *)
Lemma recompute_size_loop_runs parent_inode :
  ssize_ok parent_inode = true ->
  forall n i fs,
    0 <= i -> i + Z.of_nat n = DIRECT_BLOCKS_COUNT ->
    (forall k, i <= k < DIRECT_BLOCKS_COUNT ->
       ssize_ok (Inode.direct_blocks (inodes fs parent_inode) k) = true) ->
    (exists j, i <= j < DIRECT_BLOCKS_COUNT
               /\ Inode.direct_blocks (inodes fs parent_inode) j = -1) ->
    exists fs', recompute_size_loop (S n) parent_inode i fs = (fs', Ok tt).
Proof.
  intros Hp. unfold DIRECT_BLOCKS_COUNT.
  induction n as [| n IH]; intros i fs Hi Hn Hs (j & Hj & Hsent).
  - lia.
  - destruct (Z.eq_dec (Inode.direct_blocks (inodes fs parent_inode) i) (-1))
      as [He | Hne].
    + cbn [recompute_size_loop].
      rewrite (bind_Ok_run _ _ _ _ _
                 (load_direct_block_runs parent_inode i fs Hp
                    ltac:(unfold DIRECT_BLOCKS_COUNT; lia))).
      rewrite He. cbn. eexists. reflexivity.
    + destruct (recompute_size_loop_step parent_inode (S n) i fs Hp)
        as (fs1 & Hstep & Hslots);
        [unfold DIRECT_BLOCKS_COUNT; lia | exact Hne | apply Hs; lia |].
      rewrite Hstep. apply IH; [lia | lia | |].
      * intros k Hk. rewrite Hslots. apply Hs. lia.
      * exists j. rewrite Hslots. split; [| exact Hsent].
        destruct (Z.eq_dec j i) as [-> | Hji]; [contradiction | lia].
Qed.

(** The loop raises [IndexError] when no slot from [i] on holds the
    sentinel; it has written no direct block. *)
Lemma recompute_size_loop_full parent_inode :
  ssize_ok parent_inode = true ->
  forall n i fs,
    0 <= i -> i + Z.of_nat n = DIRECT_BLOCKS_COUNT ->
    (forall k, i <= k < DIRECT_BLOCKS_COUNT ->
       ssize_ok (Inode.direct_blocks (inodes fs parent_inode) k) = true
       /\ Inode.direct_blocks (inodes fs parent_inode) k <> -1) ->
    exists fs',
      recompute_size_loop (S n) parent_inode i fs = (fs', Raise IndexError).
Proof.
  intros Hp. unfold DIRECT_BLOCKS_COUNT.
  induction n as [| n IH]; intros i fs Hi Hn Hs.
  - cbn [recompute_size_loop].
    destruct (load_direct_block_past_end parent_inode i fs) as [e He];
      [unfold DIRECT_BLOCKS_COUNT; lia |].
    destruct (raises_only_load_direct_block _ _ _ _ _ He) as [Hx | Hx];
      [discriminate | inv Hx].
    eexists. apply bind_Raise_run. exact He.
  - destruct (recompute_size_loop_step parent_inode (S n) i fs Hp)
      as (fs1 & Hstep & Hslots);
      [unfold DIRECT_BLOCKS_COUNT; lia | apply Hs; lia | apply Hs; lia |].
    rewrite Hstep. apply IH; [lia | lia |].
    intros k Hk. rewrite Hslots. apply Hs. lia.
Qed.

(** With a payload that is long enough and indices that can be used, the
    call gets to the size loop with the block linked. *)
Lemma set_data_block_reaches_loop block_num data data_size parent_inode
      parent_block_num fs :
  data_size <= 1024 ->
  data_size <= Z.of_nat (List.length data) ->
  ssize_ok block_num = true ->
  ssize_ok parent_inode = true ->
  -12 <= parent_block_num < 12 ->
  exists fs4,
    set_data_block block_num data data_size parent_inode parent_block_num fs
    = (recompute_size_loop loop_fuel parent_inode 0 ;;
       store_free_list block_num 0 ;;
       fb <- load_free_blocks ;;
       store_free_blocks (fb - 1)) fs4
    /\ Inode.direct_blocks (inodes fs4 parent_inode)
       = upd (Inode.direct_blocks (inodes fs parent_inode))
             (from_end DIRECT_BLOCKS_COUNT parent_block_num) (c_int block_num).
Proof.
  intros Hle Hlen Hb Hp Hslot. unfold set_data_block.
  rewrite (within_guard data_size Hle).
  rewrite (bind_Ok_run _ _ _ _ _ (store_data_block_size_runs _ _ fs Hb)).
  match goal with
  | |- context [bind _ _ ?s] => set (fs1 := s)
  end.
  destruct (copy_loop_runs block_num data Hb (Z.to_nat data_size) 0 fs1)
    as [fs2 H2]; [lia | lia | unfold BLOCK_SIZE; lia |].
  pose proof (tables_copy_loop _ _ _ _ _ _ _ H2) as (Hino & _ & _).
  rewrite (bind_Ok_run _ _ _ _ _ H2).
  assert (Hslot' : - DIRECT_BLOCKS_COUNT <= parent_block_num
                   < DIRECT_BLOCKS_COUNT)
    by (unfold DIRECT_BLOCKS_COUNT; lia).
  rewrite (bind_Ok_run _ _ _ _ _
             (store_direct_block_runs parent_inode parent_block_num block_num
                                      fs2 Hp Hslot')).
  match goal with
  | |- context [bind (store_inode_size _ _) _ ?s] => set (fs3 := s)
  end.
  rewrite (bind_Ok_run _ _ _ _ _ (store_inode_size_runs _ _ fs3 Hp)).
  eexists. split; [reflexivity |].
  subst fs3 fs1. cbn. rewrite !upd_same. cbn. rewrite Hino. reflexivity.
Qed.

(** Sufficient conditions for a normal return. *)
Lemma set_data_block_runs :
  forall block_num data data_size parent_inode parent_block_num fs,
    data_size <= 1024 ->
    data_size <= Z.of_nat (List.length data) ->
    ssize_ok block_num = true ->
    ssize_ok parent_inode = true ->
    -12 <= parent_block_num < 12 ->
    (forall k, 0 <= k < 12 ->
       ssize_ok (Inode.direct_blocks (inodes fs parent_inode) k) = true) ->
    (exists j, 0 <= j < 12
               /\ j <> from_end DIRECT_BLOCKS_COUNT parent_block_num
               /\ Inode.direct_blocks (inodes fs parent_inode) j = -1) ->
    exists fs',
      set_data_block block_num data data_size parent_inode parent_block_num fs
      = (fs', Ok tt).
Proof.
  intros block_num data data_size parent_inode parent_block_num fs
         Hle Hlen Hb Hp Hslot Hs (j & Hj & Hjs & Hsent).
  destruct (set_data_block_reaches_loop block_num data data_size parent_inode
              parent_block_num fs Hle Hlen Hb Hp Hslot) as (fs4 & -> & Hslots).
  destruct (recompute_size_loop_runs parent_inode Hp 12 0 fs4) as [fs5 H5].
  - lia.
  - reflexivity.
  - intros k Hk. rewrite Hslots. unfold upd.
    destruct (k =? _); [apply ssize_ok_c_int | apply Hs; exact Hk].
  - exists j. split; [exact Hj |]. rewrite Hslots.
    rewrite upd_other by exact Hjs. exact Hsent.
  - unfold loop_fuel. rewrite (bind_Ok_run _ _ _ _ _ H5).
    unfold store_free_list, load_free_blocks, store_free_blocks,
      bind, ptr, gets, modify, ret.
    rewrite Hb. eexists. reflexivity.
Qed.

(** The same for a call that stays inside the volume: block, owner and the
    blocks the owner already links are cells of the tables. *)
Lemma set_data_block_runs_in_volume :
  forall block_num data data_size parent_inode parent_block_num fs,
    data_size <= 1024 ->
    data_size <= Z.of_nat (List.length data) ->
    Superblock.num_blocks (s_block fs) < 2 ^ 31 ->
    in_volume fs block_num ->
    in_volume fs parent_inode ->
    -12 <= parent_block_num < 12 ->
    (forall k, 0 <= k < 12 ->
       Inode.direct_blocks (inodes fs parent_inode) k = -1
       \/ in_volume fs (Inode.direct_blocks (inodes fs parent_inode) k)) ->
    (exists j, 0 <= j < 12
               /\ j <> from_end DIRECT_BLOCKS_COUNT parent_block_num
               /\ Inode.direct_blocks (inodes fs parent_inode) j = -1) ->
    exists fs',
      set_data_block block_num data data_size parent_inode parent_block_num fs
      = (fs', Ok tt).
Proof.
  intros block_num data data_size parent_inode parent_block_num fs
         Hle Hlen Hn Hb Hp Hslot Hs Hsent.
  apply set_data_block_runs; try assumption.
  - exact (in_volume_ssize_ok fs block_num Hn Hb).
  - exact (in_volume_ssize_ok fs parent_inode Hn Hp).
  - intros k Hk. destruct (Hs k Hk) as [-> | Hin]; [reflexivity |].
    exact (in_volume_ssize_ok fs _ Hn Hin).
Qed.

(** On a volume of fewer than 2^31 blocks, the call returns normally
    whenever the size is at most 1024 and at most the length of the payload,
    the block and the owning inode are inside the volume, the slot lies in
    [-12, 12), every slot of the owner is empty or links a block inside the
    volume, and the owner has a sentinel in some slot other than the one
    written. *)
Theorem set_data_block_succeeds :
  forall block_num data data_size parent_inode parent_block_num fs,
    data_size <= 1024 ->
    data_size <= Z.of_nat (List.length data) ->
    Superblock.num_blocks (s_block fs) < 2 ^ 31 ->
    in_volume fs block_num ->
    in_volume fs parent_inode ->
    -12 <= parent_block_num < 12 ->
    (forall k, 0 <= k < 12 ->
       Inode.direct_blocks (inodes fs parent_inode) k = -1
       \/ in_volume fs (Inode.direct_blocks (inodes fs parent_inode) k)) ->
    (exists j, 0 <= j < 12
               /\ j <> from_end DIRECT_BLOCKS_COUNT parent_block_num
               /\ Inode.direct_blocks (inodes fs parent_inode) j = -1) ->
    exists fs',
      set_data_block block_num data data_size parent_inode parent_block_num fs
      = (fs', Ok tt).
Proof. exact set_data_block_runs_in_volume. Qed.

Lemma set_data_block_succeeds_witness :
  exists fs', set_data_block 5 hello 5 2 0 files16 = (fs', Ok tt).
Proof.
  apply set_data_block_succeeds.
  - lia.
  - cbn. lia.
  - vm_compute. reflexivity.
  - unfold in_volume. cbn. lia.
  - unfold in_volume. cbn. lia.
  - lia.
  - intros k _. left. reflexivity.
  - exists 1. repeat split; try lia. cbn. lia.
Defined.



(** ** Slots counted from the end, and the fuel of the loop *)

Lemma array_index_from_end len k :
  - len <= k < 0 -> array_index len k = array_index len (k + len).
Proof.
  intros H. unfold array_index, from_end.
  replace (k <? 0) with true by (symmetry; apply Z.ltb_lt; lia).
  replace (k + len <? 0) with false by (symmetry; apply Z.ltb_ge; lia).
  reflexivity.
Qed.

(** A negative [parent_block_num] designates the slot counted from the end:
    the call with slot [k] in [-12, 0) is the call with slot [k + 12]. *)
Theorem set_data_block_slot_from_end :
  forall block_num data data_size parent_inode parent_block_num fs,
    -12 <= parent_block_num < 0 ->
    set_data_block block_num data data_size parent_inode parent_block_num fs
    = set_data_block block_num data data_size parent_inode
                     (parent_block_num + 12) fs.
Proof.
  intros block_num data data_size parent_inode parent_block_num fs H.
  unfold set_data_block, store_direct_block.
  rewrite (array_index_from_end DIRECT_BLOCKS_COUNT parent_block_num)
    by (unfold DIRECT_BLOCKS_COUNT; lia).
  reflexivity.
Qed.

Lemma set_data_block_slot_from_end_witness :
  set_data_block 5 hello 5 2 (-1) files16
  = set_data_block 5 hello 5 2 (-1 + 12) files16.
Proof.
  apply set_data_block_slot_from_end. lia.
Defined.

Lemma bind_ext {A B : Type} (c : M A) (k1 k2 : A -> M B) fs :
  (forall a s, k1 a s = k2 a s) -> bind c k1 fs = bind c k2 fs.
Proof.
  intros H. unfold bind. destruct (c fs) as [s [a | e |]]; auto.
Qed.

Lemma recompute_size_loop_more_fuel parent_inode extra :
  forall n i fs,
    DIRECT_BLOCKS_COUNT <= i + Z.of_nat n ->
    recompute_size_loop (S n + extra) parent_inode i fs
    = recompute_size_loop (S n) parent_inode i fs.
Proof.
  induction n as [| n IH]; intros i fs Hi.
  - cbn [recompute_size_loop Nat.add].
    destruct (load_direct_block_past_end parent_inode i fs) as [e He]; [lia |].
    now rewrite !(bind_Raise_run _ _ _ _ _ He).
  - change (S (S n) + extra)%nat with (S (S n + extra)).
    cbn [recompute_size_loop].
    apply bind_ext. intros d s. destruct (negb (d =? -1)); [| reflexivity].
    apply bind_ext. intros sz0 s0. apply bind_ext. intros d' s1.
    apply bind_ext. intros sz s2. apply bind_ext. intros _ s3.
    apply IH. lia.
Qed.

(** The size loop stops by its 13th slot read at the latest, whatever the
    state: [set_data_block] never runs out of fuel, and more fuel than 13
    gives the loop the same result. *)
Theorem size_loop_stops :
  forall block_num data data_size parent_inode parent_block_num fs extra,
    snd (set_data_block block_num data data_size parent_inode
                        parent_block_num fs) <> OutOfFuel
    /\ recompute_size_loop (loop_fuel + extra) parent_inode 0 fs
       = recompute_size_loop loop_fuel parent_inode 0 fs.
Proof.
  intros block_num data data_size parent_inode parent_block_num fs extra.
  split; [apply set_data_block_fuel_enough |].
  apply (recompute_size_loop_more_fuel parent_inode extra 12 0).
  unfold DIRECT_BLOCKS_COUNT. lia.
Qed.

(** ** What holds whatever the outcome *)

(** Whatever the outcome of a call, also when it raises half-way, its
    writes stay inside the footprint of the attachment. *)
Theorem set_data_block_footprint_any_outcome :
  forall block_num data data_size parent_inode parent_block_num fs fs' r,
    set_data_block block_num data data_size parent_inode parent_block_num fs
    = (fs', r) ->
    attach_frame block_num data_size parent_inode
                 (from_end DIRECT_BLOCKS_COUNT parent_block_num) fs fs'.
Proof.
  intros block_num data data_size parent_inode parent_block_num fs fs' r H.
  eapply set_data_block_preserves_frame. exact H.
Qed.

Lemma set_data_block_footprint_any_outcome_witness :
  attach_frame 5 5 2 (from_end DIRECT_BLOCKS_COUNT 0) files16
               (fst (set_data_block 5 [104; 105] 5 2 0 files16)).
Proof.
  apply (set_data_block_footprint_any_outcome 5 [104; 105] 5 2 0 files16
           (fst (set_data_block 5 [104; 105] 5 2 0 files16))
           (Raise IndexError)).
  vm_compute. reflexivity.
Defined.

(** A call that does not return normally has written neither the superblock
    nor the free list, whatever else it has written. *)
Theorem set_data_block_failure_keeps_bookkeeping :
  forall block_num data data_size parent_inode parent_block_num fs fs' r,
    set_data_block block_num data data_size parent_inode parent_block_num fs
    = (fs', r) ->
    r <> Ok tt ->
    s_block fs' = s_block fs /\ free_list fs' = free_list fs.
Proof.
  intros block_num data data_size parent_inode parent_block_num fs fs' r H Hr.
  apply set_data_block_bookkeeping in H.
  destruct r as [[] | e |]; [congruence | exact H | exact H].
Qed.

Lemma set_data_block_failure_keeps_bookkeeping_witness :
  s_block (fst (set_data_block 5 hello 5 2 12 files16)) = s_block files16
  /\ free_list (fst (set_data_block 5 hello 5 2 12 files16)) = free_list files16.
Proof.
  apply (set_data_block_failure_keeps_bookkeeping 5 hello 5 2 12 files16
           (fst (set_data_block 5 hello 5 2 12 files16)) (Raise IndexError)).
  - vm_compute. reflexivity.
  - discriminate.
Defined.

(** A call with a payload size that is not negative keeps every data block
    within the capacity of 1024 bytes, whatever its outcome. *)
Theorem set_data_block_blocks_within_capacity :
  forall block_num data data_size parent_inode parent_block_num fs fs' r,
    0 <= data_size ->
    within_capacity fs ->
    set_data_block block_num data data_size parent_inode parent_block_num fs
    = (fs', r) ->
    within_capacity fs'.
Proof.
  intros block_num data data_size parent_inode parent_block_num fs fs' r
         Hds Hcap H.
  eapply set_data_block_keeps_capacity; eassumption.
Qed.

Lemma set_data_block_blocks_within_capacity_witness :
  within_capacity (fst (set_data_block 5 hello 5 2 0 files16)).
Proof.
  apply (set_data_block_blocks_within_capacity 5 hello 5 2 0 files16
           (fst (set_data_block 5 hello 5 2 0 files16)) (Ok tt)).
  - lia.
  - intros b. cbn. unfold BLOCK_SIZE. lia.
  - vm_compute. reflexivity.
Defined.

(** * Further properties of [TInode] *)

(** ** What [check] accepts *)

Lemma zrange_In k : forall n start,
  In k (zrange start n) <-> start <= k < start + Z.of_nat n.
Proof.
  induction n as [| n IH]; intros start; cbn [zrange In].
  - split; [tauto | lia].
  - rewrite IH. split.
    + intros [-> | H]; lia.
    + intros H. destruct (Z.eq_dec start k); [auto | right; lia].
Qed.

Lemma all_of_true (p : Z -> result bool) : forall ks,
  TInode.all_of ks p = Ok true <-> forall k, In k ks -> p k = Ok true.
Proof.
  induction ks as [| k ks IH]; cbn [TInode.all_of In].
  - split; [tauto | reflexivity].
  - destruct (p k) as [[] | e |] eqn:E.
    + rewrite IH. split.
      * intros H k' [<- | Hin]; auto.
      * intros H k' Hin. apply H. auto.
    + split; [discriminate |]. intros H. rewrite <- E. apply H. auto.
    + split; [discriminate |]. intros H. rewrite <- E. apply H. auto.
    + split; [discriminate |]. intros H. rewrite <- E. apply H. auto.
Qed.

(** The comparison of line 172 passes exactly when the model lists the 12
    slots of the inode. *)
Lemma blocks_compare_true blocks (slots : Z -> Z) :
  TInode.all_of (zrange 0 12)
    (fun k => match list_item blocks k with
              | Ok b => Ok (slots k =? b)
              | Raise e => Raise e
              | OutOfFuel => OutOfFuel
              end) = Ok true
  <-> forall k, 0 <= k < 12 -> list_item blocks k = Ok (slots k).
Proof.
  rewrite all_of_true. split.
  - intros H k Hk. specialize (H k). rewrite zrange_In in H.
    specialize (H ltac:(lia)).
    destruct (list_item blocks k) as [b | e |]; try discriminate.
    inv H. match goal with E : (_ =? _) = true |- _ => apply Z.eqb_eq in E end.
    congruence.
  - intros H k Hk. rewrite zrange_In in Hk. rewrite (H k) by lia.
    now rewrite Z.eqb_refl.
Qed.

Lemma check_without_parents_spec self fs idx_arg :
  TInode.check self fs idx_arg false = Ok tt
  <-> exists i,
        TInode.idx self = Some i
        /\ 0 < i < Superblock.num_blocks (s_block fs)
        /\ matches_inode self fs i.
Proof.
  unfold TInode.check, matches_inode. destruct (TInode.idx self) as [i |].
  2:{ split; [discriminate | intros (i & H & _); discriminate]. }
  cbn [andb].
  destruct ((i >? 0) && (i <? Superblock.num_blocks (s_block fs))) eqn:Er;
    cbn [negb].
  2:{ split; [discriminate |]. intros (j & Hj & Hr & _). inv Hj.
      apply andb_false_iff in Er. destruct Er as [Er | Er].
      - rewrite Z.gtb_ltb in Er. apply Z.ltb_ge in Er. lia.
      - apply Z.ltb_ge in Er. lia. }
  apply andb_true_iff in Er. destruct Er as [Er1 Er2].
  rewrite Z.gtb_ltb in Er1. apply Z.ltb_lt in Er1. apply Z.ltb_lt in Er2.
  destruct (String.eqb (Inode.name (inodes fs i)) (TInode.name self)) eqn:En;
    cbn [negb].
  2:{ split; [discriminate |]. intros (j & Hj & _ & Hn & _). inv Hj.
      apply String.eqb_neq in En. contradiction. }
  apply String.eqb_eq in En.
  destruct (Inode.n_type (inodes fs i) =? int_of_NodeType (TInode.n_type self))
    eqn:Et; cbn [negb].
  2:{ split; [discriminate |]. intros (j & Hj & _ & _ & Ht & _). inv Hj.
      apply Z.eqb_neq in Et. contradiction. }
  apply Z.eqb_eq in Et.
  destruct (Inode.parent (inodes fs i) =? TInode.parent self) eqn:Ep;
    cbn [negb].
  2:{ split; [discriminate |]. intros (j & Hj & _ & _ & _ & Hp & _). inv Hj.
      apply Z.eqb_neq in Ep. contradiction. }
  apply Z.eqb_eq in Ep.
  pose proof (blocks_compare_true (TInode.blocks self)
                (Inode.direct_blocks (inodes fs i))) as Hb.
  destruct (TInode.all_of _ _) as [[] | e |].
  - split; [| reflexivity]. intros _. exists i.
    repeat split; try assumption; try lia. apply Hb. reflexivity.
  - split; [discriminate |]. intros (j & Hj & _ & _ & _ & _ & Hk). inv Hj.
    apply Hb in Hk. discriminate.
  - split; [discriminate |]. intros (j & Hj & _ & _ & _ & _ & Hk). inv Hj.
    apply Hb in Hk. discriminate.
  - split; [discriminate |]. intros (j & Hj & _ & _ & _ & _ & Hk). inv Hj.
    apply Hb in Hk. discriminate.
Qed.

(** [check] without parent verification passes exactly when the model has
    an index inside the volume and agrees with the inode stored there in
    name, type, parent and each of the 12 direct blocks. *)
Theorem check_without_parents_accepts :
  forall self fs idx_arg,
    TInode.check self fs idx_arg false = Ok tt
    <-> exists i,
          TInode.idx self = Some i
          /\ 0 < i < Superblock.num_blocks (s_block fs)
          /\ matches_inode self fs i.
Proof. intros self fs idx_arg. apply check_without_parents_spec. Qed.

Lemma check_with_parents_spec self fs idx_arg :
  TInode.check self fs idx_arg true = Ok tt
  <-> TInode.check self fs idx_arg false = Ok tt
      /\ exists i,
           TInode.idx self = Some i
           /\ (exists k, 0 <= k < 12
                 /\ Inode.direct_blocks (inodes fs (TInode.parent self)) k = i)
           /\ forall k, 0 <= k < 12 ->
                Inode.parent (inodes fs (Inode.direct_blocks (inodes fs i) k))
                = i.
Proof.
  unfold TInode.check. destruct (TInode.idx self) as [i |].
  2:{ split; [discriminate | intros [H _]; discriminate]. }
  repeat match goal with
         | |- context [if negb ?b then _ else _] =>
             destruct b eqn:?; cbn [negb];
             [| split; [discriminate | intros [H _]; discriminate]]
         end.
  match goal with
  | E : (Inode.parent _ =? _) = true |- _ => apply Z.eqb_eq in E; rewrite E
  end.
  cbn [andb].
  match goal with
  | |- context [existsb ?f ?l] => destruct (existsb f l) eqn:Eex
  end; cbn [negb].
  2:{ split; [discriminate |]. intros (_ & j & Hj & (k & Hk & Hslot) & _).
      injection Hj as <-. assert (Hf : existsb
                (fun k0 => Inode.direct_blocks (inodes fs (TInode.parent self)) k0
                           =? i) (zrange 0 12) = true).
      { apply existsb_exists. exists k. split; [apply zrange_In; lia |].
        now apply Z.eqb_eq. }
      congruence. }
  match goal with
  | |- context [forallb ?f ?l] => destruct (forallb f l) eqn:Eall
  end; cbn [negb].
  2:{ split; [discriminate |]. intros (_ & j & Hj & _ & Hall). injection Hj as <-.
      assert (Hf : forallb (fun block => Inode.parent (inodes fs block) =? i)
                     (map (fun d => Inode.direct_blocks (inodes fs i) d)
                          (zrange 0 12)) = true).
      { apply forallb_forall. intros b Hb. apply in_map_iff in Hb.
        destruct Hb as (k & <- & Hk). apply zrange_In in Hk.
        apply Z.eqb_eq. apply Hall. lia. }
      congruence. }
  split.
  - intros H. split; [exact H |]. exists i. split; [reflexivity |]. split.
    + apply existsb_exists in Eex. destruct Eex as (k & Hk & Hslot).
      apply zrange_In in Hk. exists k. split; [lia | now apply Z.eqb_eq].
    + intros k Hk. rewrite forallb_forall in Eall. apply Z.eqb_eq.
      apply Eall. apply in_map_iff. exists k. split; [reflexivity |].
      apply zrange_In. lia.
  - intros [H _]. exact H.
Qed.

(** [check] with parent verification passes exactly when it passes without,
    the checked index is in one of the 12 slots of the parent, and the inode
    at each of the 12 slots of the checked inode has the checked index as
    parent.  So turning parent verification off never makes a passing check
    fail. *)
Theorem check_with_parents_accepts :
  forall self fs idx_arg,
    TInode.check self fs idx_arg true = Ok tt
    <-> TInode.check self fs idx_arg false = Ok tt
        /\ exists i,
             TInode.idx self = Some i
             /\ (exists k, 0 <= k < 12
                   /\ Inode.direct_blocks (inodes fs (TInode.parent self)) k = i)
             /\ forall k, 0 <= k < 12 ->
                  Inode.parent (inodes fs (Inode.direct_blocks (inodes fs i) k))
                  = i.
Proof. intros self fs idx_arg. apply check_with_parents_spec. Qed.

(** ** What the constructor accepts *)

Lemma TInode_init_spec fs name n_type parent idx blocks inode :
  TInode.init fs name n_type parent idx blocks = Ok inode
  <-> idx = None
      /\ Z.of_nat (String.length name) = 32
      /\ 0 < parent < Superblock.num_blocks (s_block fs)
      /\ Inode.n_type (inodes fs parent) = int_of_NodeType directory
      /\ Z.of_nat (List.length blocks) <= DIRECT_BLOCKS_COUNT
      /\ inode = TInode.mk name n_type parent None
                   (blocks ++ repeat (-1)
                      (Z.to_nat (DIRECT_BLOCKS_COUNT
                                 - Z.of_nat (List.length blocks)))).
Proof.
  split.
  - intros H. destruct idx as [i |].
    { destruct (TInode_init_with_idx_raises fs name n_type parent i blocks)
        as [e He]. congruence. }
    unfold TInode.init in H.
    destruct (Z.of_nat (String.length name) =? 32) eqn:E1; cbn [negb] in H;
      [| discriminate].
    destruct ((parent >? 0) && (parent <? Superblock.num_blocks (s_block fs)))
      eqn:E2; cbn [negb] in H; [| discriminate].
    destruct (Inode.n_type (inodes fs parent) =? int_of_NodeType directory)
      eqn:E3; cbn [negb] in H; [| discriminate].
    destruct (Z.of_nat (List.length blocks) <=? DIRECT_BLOCKS_COUNT) eqn:E4;
      cbn [negb] in H; [| discriminate].
    inv H. apply Z.eqb_eq in E1. apply Z.eqb_eq in E3. apply Z.leb_le in E4.
    apply andb_true_iff in E2. destruct E2 as [E2 E2'].
    rewrite Z.gtb_ltb in E2. apply Z.ltb_lt in E2. apply Z.ltb_lt in E2'.
    repeat split; assumption.
  - intros (-> & Hn & Hp & Hd & Hb & ->).
    apply TInode_init_without_idx; assumption.
Qed.

(** The constructor succeeds exactly when no [idx] is given, the name has
    32 characters, the parent index is inside the volume and stores a
    directory, and at most 12 blocks are given; the object then carries the
    given blocks followed by sentinels. *)
Theorem TInode_init_accepts :
  forall fs name n_type parent idx blocks inode,
    TInode.init fs name n_type parent idx blocks = Ok inode
    <-> idx = None
        /\ Z.of_nat (String.length name) = 32
        /\ 0 < parent < Superblock.num_blocks (s_block fs)
        /\ Inode.n_type (inodes fs parent) = int_of_NodeType directory
        /\ Z.of_nat (List.length blocks) <= DIRECT_BLOCKS_COUNT
        /\ inode = TInode.mk name n_type parent None
                     (blocks ++ repeat (-1)
                        (Z.to_nat (DIRECT_BLOCKS_COUNT
                                   - Z.of_nat (List.length blocks)))).
Proof. intros. apply TInode_init_spec. Qed.

(** Every constructed [TInode] has exactly 12 blocks: the given ones in
    their positions and the sentinel in every position after them. *)
Theorem TInode_init_pads_blocks :
  forall fs name n_type parent idx blocks inode,
    TInode.init fs name n_type parent idx blocks = Ok inode ->
    List.length (TInode.blocks inode) = 12%nat
    /\ (forall k, (k < List.length blocks)%nat ->
          nth k (TInode.blocks inode) 0 = nth k blocks 0)
    /\ (forall k, (List.length blocks <= k < 12)%nat ->
          nth k (TInode.blocks inode) 0 = -1).
Proof.
  intros fs name n_type parent idx blocks inode H.
  apply TInode_init_spec in H. destruct H as (_ & _ & _ & _ & Hb & ->).
  cbn [TInode.blocks]. unfold DIRECT_BLOCKS_COUNT in *.
  split; [rewrite length_app, repeat_length; lia |]. split.
  - intros k Hk. now rewrite app_nth1.
  - intros k Hk. rewrite app_nth2 by lia. apply nth_repeat_lt. lia.
Qed.

Lemma TInode_init_pads_blocks_witness :
  List.length
    (TInode.blocks
       (TInode.mk dir2_name directory 1 None
                  [3; 4; -1; -1; -1; -1; -1; -1; -1; -1; -1; -1])) = 12%nat
  /\ (forall k, (k < List.length [3; 4])%nat ->
        nth k (TInode.blocks
                 (TInode.mk dir2_name directory 1 None
                            [3; 4; -1; -1; -1; -1; -1; -1; -1; -1; -1; -1])) 0
        = nth k [3; 4] 0)
  /\ (forall k, (List.length [3; 4] <= k < 12)%nat ->
        nth k (TInode.blocks
                 (TInode.mk dir2_name directory 1 None
                            [3; 4; -1; -1; -1; -1; -1; -1; -1; -1; -1; -1])) 0
        = -1).
Proof.
  apply (TInode_init_pads_blocks volume16 dir2_name directory 1 None [3; 4]).
  reflexivity.
Defined.

(** The assertions of the constructor fail in source order: the name
    first, then the range of the parent, then its type, then the number of
    blocks. *)
Theorem TInode_init_first_failure :
  forall fs name n_type parent idx blocks,
    (Z.of_nat (String.length name) <> 32 ->
     TInode.init fs name n_type parent idx blocks = Raise (AssertionError 106))
    /\ (Z.of_nat (String.length name) = 32 ->
        ~ (0 < parent < Superblock.num_blocks (s_block fs)) ->
        TInode.init fs name n_type parent idx blocks
        = Raise (AssertionError 109))
    /\ (Z.of_nat (String.length name) = 32 ->
        0 < parent < Superblock.num_blocks (s_block fs) ->
        Inode.n_type (inodes fs parent) <> int_of_NodeType directory ->
        TInode.init fs name n_type parent idx blocks
        = Raise (AssertionError 110))
    /\ (Z.of_nat (String.length name) = 32 ->
        0 < parent < Superblock.num_blocks (s_block fs) ->
        Inode.n_type (inodes fs parent) = int_of_NodeType directory ->
        Z.of_nat (List.length blocks) > DIRECT_BLOCKS_COUNT ->
        TInode.init fs name n_type parent idx blocks
        = Raise (AssertionError 112)).
Proof.
  intros fs name n_type parent idx blocks.
  split; [apply TInode_init_name_length |].
  assert (Hrange : 0 < parent < Superblock.num_blocks (s_block fs) ->
            (parent >? 0) && (parent <? Superblock.num_blocks (s_block fs))
            = true).
  { intros H. apply andb_true_iff. rewrite Z.gtb_ltb.
    split; apply Z.ltb_lt; lia. }
  split; [| split].
  - intros Hn Hp. unfold TInode.init. rewrite Hn. cbn [Z.eqb Pos.eqb negb].
    replace ((parent >? 0) && (parent <? Superblock.num_blocks (s_block fs)))
      with false; [reflexivity |].
    symmetry. apply andb_false_iff. rewrite Z.gtb_ltb.
    destruct (Z_lt_le_dec 0 parent); [right | left]; apply Z.ltb_ge; lia.
  - intros Hn Hp Hd. unfold TInode.init. rewrite Hn, (Hrange Hp).
    cbn [Z.eqb Pos.eqb negb]. apply Z.eqb_neq in Hd. rewrite Hd. reflexivity.
  - intros Hn Hp Hd Hb. unfold TInode.init. rewrite Hn, (Hrange Hp), Hd.
    cbn [Z.eqb Pos.eqb negb int_of_NodeType].
    replace (Z.of_nat (List.length blocks) <=? DIRECT_BLOCKS_COUNT) with false
      by (symmetry; apply Z.leb_gt; lia).
    reflexivity.
Qed.

(** A [TInode] that comes out of the constructor has no [idx]; until it is
    pinned, [check] raises [AttributeError], whatever [idx] it is given. *)
Theorem check_after_init_needs_pin :
  forall fs name n_type parent idx blocks inode fs' idx_arg check_parents,
    TInode.init fs name n_type parent idx blocks = Ok inode ->
    TInode.check inode fs' idx_arg check_parents = Raise AttributeError.
Proof.
  intros fs name n_type parent idx blocks inode fs' idx_arg check_parents H.
  apply TInode_init_spec in H. destruct H as (_ & _ & _ & _ & _ & ->).
  reflexivity.
Qed.

Lemma check_after_init_needs_pin_witness :
  TInode.check
    (TInode.mk dir2_name directory 1 None
               [3; -1; -1; -1; -1; -1; -1; -1; -1; -1; -1; -1])
    tree16 (Some 2) false
  = Raise AttributeError.
Proof.
  apply (check_after_init_needs_pin tree16 dir2_name directory 1 None [3]).
  reflexivity.
Defined.

(** Attaching data to one inode does not change what [check] without
    parent verification says about a model of another inode, whatever the
    outcome of the attachment. *)
Theorem check_unchanged_by_set_data_block :
  forall block_num data data_size parent_inode parent_block_num fs fs' r
         self idx_arg i,
    set_data_block block_num data data_size parent_inode parent_block_num fs
    = (fs', r) ->
    TInode.idx self = Some i ->
    i <> parent_inode ->
    TInode.check self fs' idx_arg false = TInode.check self fs idx_arg false.
Proof.
  intros block_num data data_size parent_inode parent_block_num fs fs' r
         self idx_arg i H Hidx Hne.
  apply set_data_block_preserves_frame in H.
  destruct H as [Hnum _ _ Hino _ _ _ _ _ _].
  unfold TInode.check. rewrite Hidx, Hnum, (Hino i Hne). reflexivity.
Qed.

Lemma check_unchanged_by_set_data_block_witness :
  TInode.check (TInode.mk dir3_name directory 2 (Some 3)
                          [-1; -1; -1; -1; -1; -1; -1; -1; -1; -1; -1; -1])
               (fst (set_data_block 5 hello 5 2 0 tree16)) None false
  = TInode.check (TInode.mk dir3_name directory 2 (Some 3)
                            [-1; -1; -1; -1; -1; -1; -1; -1; -1; -1; -1; -1])
                 tree16 None false.
Proof.
  apply (check_unchanged_by_set_data_block 5 hello 5 2 0 tree16
           (fst (set_data_block 5 hello 5 2 0 tree16)) (Ok tt) _ None 3).
  - vm_compute. reflexivity.
  - reflexivity.
  - lia.
Defined.

(** ** [__setitem__] *)

Lemma replace_nth_length v : forall l n,
  List.length (replace_nth n l v) = List.length l.
Proof.
  induction l as [| x l IH]; intros n; destruct n; cbn; try reflexivity.
  now rewrite IH.
Qed.

Lemma replace_nth_same v : forall l n,
  (n < List.length l)%nat -> nth n (replace_nth n l v) 0 = v.
Proof.
  induction l as [| x l IH]; intros n Hn; cbn in Hn; [lia |].
  destruct n; cbn; [reflexivity | apply IH; lia].
Qed.

Lemma replace_nth_other v : forall l n m,
  m <> n -> nth m (replace_nth n l v) 0 = nth m l 0.
Proof.
  induction l as [| x l IH]; intros n m Hm;
    destruct n, m; cbn; try reflexivity; try congruence.
  apply IH. congruence.
Qed.

(** A string key other than ["name"], ["n_ntype"], ["parent"] and ["idx"]
    raises [KeyError], whatever the value: the type of the node cannot be
    set under the name of its attribute, ["n_type"]. *)
Theorem setitem_unknown_key :
  forall self key value,
    key <> "name"%string -> key <> "n_ntype"%string ->
    key <> "parent"%string -> key <> "idx"%string ->
    TInode_setitem self (KeyStr key) value = KeyError.
Proof.
  intros self key value H1 H2 H3 H4. unfold TInode_setitem.
  apply String.eqb_neq in H1, H2, H3, H4. rewrite H1, H2, H3, H4.
  destruct (int_of_value value); reflexivity.
Qed.

Lemma setitem_unknown_key_witness :
  TInode_setitem expected_dir2 (KeyStr "n_type") (ValNodeType reg_file)
  = KeyError.
Proof.
  apply setitem_unknown_key; discriminate.
Defined.

(** An assignment to an integer key that succeeds has stored a positive
    integer at that position of the block list, counted from the end when
    the key is negative, and has changed nothing else of the object: the
    other positions, the length of the list and the other attributes are as
    before.  In particular no position can be set back to the sentinel. *)
Theorem setitem_block :
  forall self k value self',
    TInode_setitem self (KeyInt k) value = Updated self' ->
    exists v,
      int_of_value value = Some v
      /\ v > 0
      /\ 0 <= from_end (Z.of_nat (List.length (TInode.blocks self))) k
         < Z.of_nat (List.length (TInode.blocks self))
      /\ List.length (TInode.blocks self') = List.length (TInode.blocks self)
      /\ nth (Z.to_nat (from_end (Z.of_nat (List.length (TInode.blocks self))) k))
             (TInode.blocks self') 0 = v
      /\ (forall m,
            m <> Z.to_nat (from_end (Z.of_nat (List.length (TInode.blocks self))) k) ->
            nth m (TInode.blocks self') 0 = nth m (TInode.blocks self) 0)
      /\ TInode.name self' = TInode.name self
      /\ TInode.n_type self' = TInode.n_type self
      /\ TInode.parent self' = TInode.parent self
      /\ TInode.idx self' = TInode.idx self.
Proof.
  intros self k value self' H. unfold TInode_setitem in H. cbn in H.
  destruct (int_of_value value) as [v |]; [| discriminate].
  destruct (Z.gtb_spec v 0) as [Hv | Hv]; [| discriminate].
  unfold list_setitem in H.
  destruct ((0 <=? _) && (_ <? _)) eqn:E; [| discriminate].
  apply andb_true_iff in E. destruct E as [E1 E2].
  apply Z.leb_le in E1. apply Z.ltb_lt in E2.
  inv H. cbn. exists v. repeat split; try lia.
  - apply replace_nth_length.
  - apply replace_nth_same. lia.
  - intros m Hm. apply replace_nth_other. exact Hm.
Qed.

Lemma setitem_block_witness :
  exists v,
    int_of_value (ValInt 9) = Some v
    /\ v > 0
    /\ 0 <= from_end (Z.of_nat (List.length (TInode.blocks expected_dir2))) (-1)
       < Z.of_nat (List.length (TInode.blocks expected_dir2))
    /\ List.length [3; -1; -1; -1; -1; -1; -1; -1; -1; -1; -1; 9]
       = List.length (TInode.blocks expected_dir2)
    /\ nth (Z.to_nat
              (from_end (Z.of_nat (List.length (TInode.blocks expected_dir2)))
                        (-1)))
           [3; -1; -1; -1; -1; -1; -1; -1; -1; -1; -1; 9] 0 = v
    /\ (forall m,
          m <> Z.to_nat
                 (from_end (Z.of_nat (List.length (TInode.blocks expected_dir2)))
                           (-1)) ->
          nth m [3; -1; -1; -1; -1; -1; -1; -1; -1; -1; -1; 9] 0
          = nth m (TInode.blocks expected_dir2) 0)
    /\ dir2_name = TInode.name expected_dir2
    /\ directory = TInode.n_type expected_dir2
    /\ 1 = TInode.parent expected_dir2
    /\ Some 2 = TInode.idx expected_dir2.
Proof.
  apply (setitem_block expected_dir2 (-1) (ValInt 9)
           (TInode.mk dir2_name directory 1 (Some 2)
                      [3; -1; -1; -1; -1; -1; -1; -1; -1; -1; -1; 9])).
  reflexivity.
Defined.

(** No assignment changes the number of blocks of the object. *)
Theorem setitem_keeps_block_count :
  forall self key value self',
    TInode_setitem self key value = Updated self' ->
    List.length (TInode.blocks self') = List.length (TInode.blocks self).
Proof.
  intros self key value self' H. unfold TInode_setitem in H.
  repeat match type of H with
         | (if ?b then _ else _) = _ => destruct b
         | match ?x with _ => _ end = _ => destruct x eqn:?
         end; try discriminate; inv H; try reflexivity.
  unfold list_setitem in *.
  match goal with
  | E : (if ?b then _ else _) = Some _ |- _ => destruct b; inv E
  end.
  apply replace_nth_length.
Qed.

Lemma setitem_keeps_block_count_witness :
  List.length
    (TInode.blocks
       (TInode.mk "d"%string directory 1 (Some 2) (TInode.blocks expected_dir2)))
  = List.length (TInode.blocks expected_dir2).
Proof.
  apply (setitem_keeps_block_count expected_dir2 (KeyStr "name")
           (ValStr "d")).
  reflexivity.
Defined.

(** The key ["name"] accepts exactly the strings of at most 32 characters,
    so it also accepts names shorter than the 32 characters the constructor
    insists on. *)
Theorem setitem_name_accepts :
  forall self value self',
    TInode_setitem self (KeyStr "name") value = Updated self'
    <-> exists s,
          value = ValStr s
          /\ Z.of_nat (String.length s) <= NAME_MAX_LENGTH
          /\ self' = TInode.mk s (TInode.n_type self) (TInode.parent self)
                               (TInode.idx self) (TInode.blocks self).
Proof.
  intros self value self'. unfold TInode_setitem. cbn.
  split.
  - destruct value as [v | s | t]; try discriminate.
    destruct (Z.leb_spec (Z.of_nat (String.length s)) NAME_MAX_LENGTH)
      as [Hs | Hs]; [| discriminate].
    intros Hrun. inv Hrun. exists s. auto.
  - intros (s & -> & Hs & ->).
    replace (Z.of_nat (String.length s) <=? NAME_MAX_LENGTH) with true
      by (symmetry; apply Z.leb_le; exact Hs).
    reflexivity.
Qed.

(** The key ["n_ntype"] turns an integer into the node type with that
    number: 1, 2 or 3 are stored as their type, any other integer raises
    [ValueError]. *)
Theorem setitem_node_type :
  forall self v,
    (forall self',
        TInode_setitem self (KeyStr "n_ntype") (ValInt v) = Updated self' ->
        int_of_NodeType (TInode.n_type self') = v
        /\ self' = TInode.mk (TInode.name self) (TInode.n_type self')
                             (TInode.parent self) (TInode.idx self)
                             (TInode.blocks self))
    /\ (v <> 1 -> v <> 2 -> v <> 3 ->
        TInode_setitem self (KeyStr "n_ntype") (ValInt v) = Failed ValueError)
    /\ (1 <= v <= 3 ->
        exists self',
          TInode_setitem self (KeyStr "n_ntype") (ValInt v) = Updated self').
Proof.
  intros self v. unfold TInode_setitem, NodeType_of_int. cbn.
  split; [| split].
  - intros self' H.
    destruct (Z.eqb_spec v 1); [inv H; auto |].
    destruct (Z.eqb_spec v 2); [inv H; auto |].
    destruct (Z.eqb_spec v 3); [inv H; auto | discriminate].
  - intros H1 H2 H3. apply Z.eqb_neq in H1, H2, H3. now rewrite H1, H2, H3.
  - intros Hv.
    destruct (Z.eqb_spec v 1); [eauto |].
    destruct (Z.eqb_spec v 2); [eauto |].
    destruct (Z.eqb_spec v 3); [eauto | lia].
Qed.

(** * Properties of [set_dir] and [set_fil] *)

Lemma set_dir_is_set_node name inode parent parent_block :
  set_dir name inode parent parent_block
  = set_node 2 name inode parent parent_block.
Proof. reflexivity. Qed.

Lemma set_fil_is_set_node name inode parent parent_block :
  set_fil name inode parent parent_block
  = set_node 1 name inode parent parent_block.
Proof. reflexivity. Qed.

Lemma store_inode_n_type_state i v fs fs' r :
  store_inode_n_type i v fs = (fs', r) ->
  fs' = fs \/
  (r = Ok tt /\ ssize_ok i = true
   /\ fs' = with_inode fs i
              (Inode.mk (c_int v) (Inode.size (inodes fs i))
                        (Inode.name (inodes fs i))
                        (Inode.direct_blocks (inodes fs i))
                        (Inode.parent (inodes fs i)))).
Proof. unfold store_inode_n_type. intros H. run_prim H; auto. Qed.

Lemma store_inode_name_state i s fs fs' r :
  store_inode_name i s fs = (fs', r) ->
  fs' = fs \/
  (r = Ok tt /\ Z.of_nat (String.length (until_nul s)) <= NAME_MAX_LENGTH
   /\ fs' = with_inode fs i
              (Inode.mk (Inode.n_type (inodes fs i)) (Inode.size (inodes fs i))
                        (until_nul s)
                        (Inode.direct_blocks (inodes fs i))
                        (Inode.parent (inodes fs i)))).
Proof.
  unfold store_inode_name. intros H. run_prim H; auto.
  right. repeat split.
  match goal with
  | E : (_ >? _) = false |- _ => rewrite Z.gtb_ltb in E; apply Z.ltb_ge in E
  end.
  assumption.
Qed.

Lemma store_inode_parent_state i v fs fs' r :
  store_inode_parent i v fs = (fs', r) ->
  fs' = fs \/
  (r = Ok tt
   /\ fs' = with_inode fs i
              (Inode.mk (Inode.n_type (inodes fs i)) (Inode.size (inodes fs i))
                        (Inode.name (inodes fs i))
                        (Inode.direct_blocks (inodes fs i)) (c_int v))).
Proof. unfold store_inode_parent. intros H. run_prim H; auto. Qed.

Section LinkFrame.

Variables inode parent slot : Z.

#[local] Instance link_frame_refl : Reflexive (link_frame inode parent slot).
Proof. intros fs. constructor; auto. Qed.

#[local] Instance link_frame_trans : Transitive (link_frame inode parent slot).
Proof.
  intros a b c [A1 A2 A3 A4 A5 A6 A7 A8] [B1 B2 B3 B4 B5 B6 B7 B8].
  constructor.
  - congruence.
  - congruence.
  - congruence.
  - congruence.
  - intros j Hj Hp. rewrite B5, A5 by assumption. reflexivity.
  - intros j. now rewrite B6, A6.
  - intros j k Hjk. rewrite B7, A7 by assumption. reflexivity.
  - intros j Hj. destruct (A8 j Hj) as (X1 & X2 & X3).
    destruct (B8 j Hj) as (Y1 & Y2 & Y3).
    repeat split; congruence.
Qed.

Ltac link_cells :=
  constructor; cbn; intros; try reflexivity;
  unfold upd;
  repeat match goal with
         | |- context [?a =? ?b] => destruct (Z.eqb_spec a b); subst; cbn
         end;
  cbn; try tauto; try congruence; auto.

Lemma link_store_inode_n_type v :
  preserves (link_frame inode parent slot) (store_inode_n_type inode v).
Proof.
  intros fs fs' r H. apply store_inode_n_type_state in H.
  destruct H as [-> | (_ & _ & ->)]; [reflexivity | link_cells].
Qed.

Lemma link_store_inode_name s :
  preserves (link_frame inode parent slot) (store_inode_name inode s).
Proof.
  intros fs fs' r H. apply store_inode_name_state in H.
  destruct H as [-> | (_ & _ & ->)]; [reflexivity | link_cells].
Qed.

Lemma link_store_inode_parent v :
  preserves (link_frame inode parent slot) (store_inode_parent inode v).
Proof.
  intros fs fs' r H. apply store_inode_parent_state in H.
  destruct H as [-> | (_ & ->)]; [reflexivity | link_cells].
Qed.

Lemma link_store_direct_block k v :
  from_end DIRECT_BLOCKS_COUNT k = slot ->
  preserves (link_frame inode parent slot) (store_direct_block parent k v).
Proof.
  intros Hk fs fs' r H. apply store_direct_block_state in H.
  destruct H as [-> | (j & Hj & ->)]; [reflexivity |].
  apply array_index_Ok in Hj. destruct Hj as [-> _]. rewrite Hk.
  link_cells.
Qed.

End LinkFrame.

Lemma set_node_preserves_frame t name inode parent parent_block :
  preserves (link_frame inode parent (from_end DIRECT_BLOCKS_COUNT parent_block))
            (set_node t name inode parent parent_block).
Proof.
  set (frame := link_frame _ _ _).
  assert (Htrans : Transitive frame) by apply link_frame_trans.
  unfold set_node.
  apply preserves_bind; [assumption | apply link_store_inode_n_type |].
  intros _. apply preserves_bind; [assumption | apply link_store_inode_name |].
  intros _. apply preserves_bind; [assumption | apply link_store_inode_parent |].
  intros _. apply link_store_direct_block. reflexivity.
Qed.

(** Whatever their outcome, [set_dir] and [set_fil] write only the type,
    name and parent of the new inode and the designated slot of its parent:
    the superblock, the free list, the data blocks, every size, every other
    direct block and every other inode are as before.  In particular they do
    not initialise the direct blocks of the new inode. *)
Theorem set_dir_set_fil_footprint :
  forall name inode parent parent_block fs fs' r,
    set_dir name inode parent parent_block fs = (fs', r)
    \/ set_fil name inode parent parent_block fs = (fs', r) ->
    link_frame inode parent (from_end DIRECT_BLOCKS_COUNT parent_block) fs fs'.
Proof.
  intros name inode parent parent_block fs fs' r [H | H].
  - rewrite set_dir_is_set_node in H.
    eapply set_node_preserves_frame. exact H.
  - rewrite set_fil_is_set_node in H.
    eapply set_node_preserves_frame. exact H.
Qed.

Lemma set_dir_set_fil_footprint_witness :
  link_frame 4 2 (from_end DIRECT_BLOCKS_COUNT 1) tree16
             (fst (set_dir dir3_name 4 2 1 tree16)).
Proof.
  apply (set_dir_set_fil_footprint dir3_name 4 2 1 tree16
           (fst (set_dir dir3_name 4 2 1 tree16)) (Ok tt)).
  left. vm_compute. reflexivity.
Defined.

Lemma store_inode_n_type_Ok i v fs fs' u :
  store_inode_n_type i v fs = (fs', Ok u) ->
  fs' = with_inode fs i
          (Inode.mk (c_int v) (Inode.size (inodes fs i))
                    (Inode.name (inodes fs i))
                    (Inode.direct_blocks (inodes fs i))
                    (Inode.parent (inodes fs i))).
Proof. unfold store_inode_n_type. intros H. run_prim H. reflexivity. Qed.

Lemma store_inode_name_Ok i s fs fs' u :
  store_inode_name i s fs = (fs', Ok u) ->
  Z.of_nat (String.length (until_nul s)) <= NAME_MAX_LENGTH
  /\ fs' = with_inode fs i
             (Inode.mk (Inode.n_type (inodes fs i)) (Inode.size (inodes fs i))
                       (until_nul s)
                       (Inode.direct_blocks (inodes fs i))
                       (Inode.parent (inodes fs i))).
Proof.
  unfold store_inode_name. intros H. run_prim H. split; [| reflexivity].
  match goal with
  | E : (_ >? _) = false |- _ => rewrite Z.gtb_ltb in E; apply Z.ltb_ge in E
  end.
  assumption.
Qed.

Lemma store_inode_parent_Ok i v fs fs' u :
  store_inode_parent i v fs = (fs', Ok u) ->
  fs' = with_inode fs i
          (Inode.mk (Inode.n_type (inodes fs i)) (Inode.size (inodes fs i))
                    (Inode.name (inodes fs i))
                    (Inode.direct_blocks (inodes fs i)) (c_int v)).
Proof. unfold store_inode_parent. intros H. run_prim H. reflexivity. Qed.

Lemma set_node_Ok t name inode parent parent_block fs fs' :
  set_node t name inode parent parent_block fs = (fs', Ok tt) ->
  Z.of_nat (String.length (until_nul name)) <= NAME_MAX_LENGTH
  /\ 0 <= from_end DIRECT_BLOCKS_COUNT parent_block < DIRECT_BLOCKS_COUNT
  /\ Inode.n_type (inodes fs' inode) = c_int t
  /\ Inode.name (inodes fs' inode) = until_nul name
  /\ Inode.parent (inodes fs' inode) = c_int parent
  /\ Inode.direct_blocks (inodes fs' parent)
                         (from_end DIRECT_BLOCKS_COUNT parent_block)
     = c_int inode.
Proof.
  intros H. unfold set_node in H.
  apply bind_Ok_inv in H. destruct H as (u1 & fs1 & H1 & H).
  apply store_inode_n_type_Ok in H1. subst fs1.
  apply bind_Ok_inv in H. destruct H as (u2 & fs2 & H2 & H).
  apply store_inode_name_Ok in H2. destruct H2 as [Hname ->].
  apply bind_Ok_inv in H. destruct H as (u3 & fs3 & H3 & H).
  apply store_inode_parent_Ok in H3. subst fs3.
  apply store_direct_block_Ok_state in H. destruct H as (_ & Hslot & ->).
  split; [exact Hname |]. split; [exact Hslot |].
  cbn. unfold upd.
  repeat match goal with
         | |- context [?a =? ?b] => destruct (Z.eqb_spec a b); subst; cbn
         end;
    repeat split; congruence.
Qed.

Lemma c_int_small v : - 2 ^ 31 <= v < 2 ^ 31 -> c_int v = v.
Proof.
  intros H. unfold c_int, wrap_signed.
  change (2 ^ (32 - 1)) with (2 ^ 31). rewrite Z.mod_small; lia.
Qed.

(** A successful [set_dir] (type 2) or [set_fil] (type 1) has made the new
    inode a node of that type with the given parent, and has entered it in
    the designated slot of the parent: the link can be followed both ways.
    The name it reads back is the given one up to its first NUL, and that
    part has at most 32 characters; the given name itself may be longer. *)
Theorem set_dir_set_fil_link :
  forall name inode parent parent_block fs fs' t,
    (t = 2 /\ set_dir name inode parent parent_block fs = (fs', Ok tt))
    \/ (t = 1 /\ set_fil name inode parent parent_block fs = (fs', Ok tt)) ->
    Z.of_nat (String.length (until_nul name)) <= NAME_MAX_LENGTH
    /\ 0 <= from_end DIRECT_BLOCKS_COUNT parent_block < DIRECT_BLOCKS_COUNT
    /\ Inode.n_type (inodes fs' inode) = t
    /\ Inode.name (inodes fs' inode) = until_nul name
    /\ Inode.parent (inodes fs' inode) = c_int parent
    /\ Inode.direct_blocks (inodes fs' parent)
                           (from_end DIRECT_BLOCKS_COUNT parent_block)
       = c_int inode.
Proof.
  intros name inode parent parent_block fs fs' t [[-> H] | [-> H]].
  - rewrite set_dir_is_set_node in H. apply set_node_Ok in H. exact H.
  - rewrite set_fil_is_set_node in H. apply set_node_Ok in H. exact H.
Qed.

Lemma set_dir_set_fil_link_witness :
  Z.of_nat (String.length (until_nul nul_name)) <= NAME_MAX_LENGTH
  /\ 0 <= from_end DIRECT_BLOCKS_COUNT (-1) < DIRECT_BLOCKS_COUNT
  /\ Inode.n_type (inodes (fst (set_fil nul_name 4 2 (-1) tree16)) 4) = 1
  /\ Inode.name (inodes (fst (set_fil nul_name 4 2 (-1) tree16)) 4)
     = until_nul nul_name
  /\ Inode.parent (inodes (fst (set_fil nul_name 4 2 (-1) tree16)) 4)
     = c_int 2
  /\ Inode.direct_blocks (inodes (fst (set_fil nul_name 4 2 (-1) tree16)) 2)
                         (from_end DIRECT_BLOCKS_COUNT (-1))
     = c_int 4.
Proof.
  apply (set_dir_set_fil_link nul_name 4 2 (-1) tree16
           (fst (set_fil nul_name 4 2 (-1) tree16)) 1).
  right. split; [reflexivity |]. vm_compute. reflexivity.
Defined.

(** The length test is on the part of the name before its first NUL:
    [nul_name] has 43 characters and is accepted, and the inode reads back
    as ["ab"]. *)
Lemma set_dir_accepts_long_name_with_nul :
  String.length nul_name = 43%nat
  /\ snd (set_dir nul_name 4 2 1 tree16) = Ok tt
  /\ Inode.name (inodes (fst (set_dir nul_name 4 2 1 tree16)) 4) = "ab"%string.
Proof. repeat split; vm_compute; reflexivity. Qed.

Lemma list_item_slots (slots : Z -> Z) k :
  0 <= k < 12 -> list_item (map slots (zrange 0 12)) k = Ok (slots k).
Proof.
  intros Hk. rewrite list_item_inside by (cbn; lia).
  assert (Hc : k = 0 \/ k = 1 \/ k = 2 \/ k = 3 \/ k = 4 \/ k = 5 \/ k = 6
               \/ k = 7 \/ k = 8 \/ k = 9 \/ k = 10 \/ k = 11) by lia.
  repeat (destruct Hc as [-> | Hc]; [reflexivity |]). subst k. reflexivity.
Qed.

(** After a successful [set_dir] or [set_fil] of an inode inside the
    volume, [check] without parent verification accepts the model with the
    given name, the type written, the given parent and the 12 direct blocks
    the inode has, provided the name has no NUL and the parent is a 32-bit
    integer. *)
Theorem check_after_set_dir_set_fil :
  forall name inode parent parent_block fs fs' n_type idx_arg,
    (n_type = directory
     /\ set_dir name inode parent parent_block fs = (fs', Ok tt))
    \/ (n_type = reg_file
        /\ set_fil name inode parent parent_block fs = (fs', Ok tt)) ->
    0 < inode < Superblock.num_blocks (s_block fs) ->
    until_nul name = name ->
    - 2 ^ 31 <= parent < 2 ^ 31 ->
    TInode.check
      (TInode.mk name n_type parent (Some inode) (slots_from fs' inode 0 12))
      fs' idx_arg false
    = Ok tt.
Proof.
  intros name inode parent parent_block fs fs' n_type idx_arg H Hin Hnul Hpar.
  assert (Hrun : exists t, int_of_NodeType n_type = t
                           /\ set_node t name inode parent parent_block fs
                              = (fs', Ok tt)).
  { destruct H as [[-> H] | [-> H]]; eexists; split;
      try reflexivity; exact H. }
  destruct Hrun as (t & Ht & Hrun).
  pose proof (set_node_preserves_frame _ _ _ _ _ _ _ _ Hrun) as Hframe.
  apply set_node_Ok in Hrun.
  destruct Hrun as (_ & _ & Htype & Hname & Hparent & _).
  apply check_without_parents_spec. exists inode.
  split; [reflexivity |]. split.
  - rewrite (link_s_block _ _ _ _ _ Hframe). exact Hin.
  - unfold matches_inode. cbn [TInode.name TInode.n_type TInode.parent
                                TInode.blocks].
    split; [congruence |]. split.
    + rewrite Htype, Ht. destruct H as [[-> _] | [-> _]]; subst t; reflexivity.
    + split; [rewrite Hparent; apply c_int_small; exact Hpar |].
      intros k Hk. unfold slots_from. apply list_item_slots. exact Hk.
Qed.

Lemma check_after_set_dir_set_fil_witness :
  TInode.check
    (TInode.mk dir3_name directory 2 (Some 4)
       (slots_from (fst (set_dir dir3_name 4 2 1 tree16)) 4 0 12))
    (fst (set_dir dir3_name 4 2 1 tree16)) None false
  = Ok tt.
Proof.
  apply (check_after_set_dir_set_fil dir3_name 4 2 1 tree16).
  - left. split; [reflexivity |]. vm_compute. reflexivity.
  - cbn. lia.
  - reflexivity.
  - lia.
Defined.

Lemma set_node_long_name t name inode parent parent_block fs :
  Z.of_nat (String.length (until_nul name)) > NAME_MAX_LENGTH ->
  ssize_ok inode = true ->
  set_node t name inode parent parent_block fs
  = (with_inode fs inode
       (Inode.mk (c_int t) (Inode.size (inodes fs inode))
                 (Inode.name (inodes fs inode))
                 (Inode.direct_blocks (inodes fs inode))
                 (Inode.parent (inodes fs inode))),
     Raise ValueError).
Proof.
  intros Hlen Hi. unfold set_node.
  assert (H1 : store_inode_n_type inode t fs
               = (with_inode fs inode
                    (Inode.mk (c_int t) (Inode.size (inodes fs inode))
                              (Inode.name (inodes fs inode))
                              (Inode.direct_blocks (inodes fs inode))
                              (Inode.parent (inodes fs inode))), Ok tt)).
  { unfold store_inode_n_type.
    rewrite (bind_Ok_run _ _ _ _ _ (ptr_runs inode fs Hi)). reflexivity. }
  rewrite (bind_Ok_run _ _ _ _ _ H1). apply bind_Raise_run.
  unfold store_inode_name.
  match goal with
  | |- bind _ _ ?s = _ => rewrite (bind_Ok_run _ _ _ _ _ (ptr_runs inode s Hi))
  end.
  replace (Z.of_nat (String.length (until_nul name)) >? NAME_MAX_LENGTH)
    with true
    by (symmetry; apply Z.gtb_lt; unfold NAME_MAX_LENGTH in *; lia).
  reflexivity.
Qed.

(** A name with more than 32 characters before its first NUL makes [set_dir]
    and [set_fil] raise [ValueError] when they store it, after they have
    overwritten the type of the inode: for an inode inside a volume of fewer
    than 2^31 blocks, the inode is left with the new type and its old name,
    parent and direct blocks, and it is not entered in the parent. *)
Theorem set_dir_set_fil_long_name :
  forall name inode parent parent_block fs,
    Z.of_nat (String.length (until_nul name)) > NAME_MAX_LENGTH ->
    Superblock.num_blocks (s_block fs) < 2 ^ 31 ->
    in_volume fs inode ->
    set_dir name inode parent parent_block fs
    = (with_inode fs inode
         (Inode.mk 2 (Inode.size (inodes fs inode))
                   (Inode.name (inodes fs inode))
                   (Inode.direct_blocks (inodes fs inode))
                   (Inode.parent (inodes fs inode))),
       Raise ValueError)
    /\ set_fil name inode parent parent_block fs
       = (with_inode fs inode
            (Inode.mk 1 (Inode.size (inodes fs inode))
                      (Inode.name (inodes fs inode))
                      (Inode.direct_blocks (inodes fs inode))
                      (Inode.parent (inodes fs inode))),
          Raise ValueError).
Proof.
  intros name inode parent parent_block fs Hlen Hn Hin.
  pose proof (in_volume_ssize_ok fs inode Hn Hin) as Hi.
  rewrite set_dir_is_set_node, set_fil_is_set_node.
  rewrite !set_node_long_name by assumption.
  split; reflexivity.
Qed.

Lemma set_dir_set_fil_long_name_witness :
  set_dir long_name 4 2 1 tree16
  = (with_inode tree16 4
       (Inode.mk 2 (Inode.size (inodes tree16 4))
                 (Inode.name (inodes tree16 4))
                 (Inode.direct_blocks (inodes tree16 4))
                 (Inode.parent (inodes tree16 4))),
     Raise ValueError)
  /\ set_fil long_name 4 2 1 tree16
     = (with_inode tree16 4
          (Inode.mk 1 (Inode.size (inodes tree16 4))
                    (Inode.name (inodes tree16 4))
                    (Inode.direct_blocks (inodes tree16 4))
                    (Inode.parent (inodes tree16 4))),
        Raise ValueError).
Proof.
  apply set_dir_set_fil_long_name.
  - vm_compute. reflexivity.
  - vm_compute. reflexivity.
  - unfold in_volume. cbn. lia.
Defined.

(** * [set_data_block_with_string] *)

Lemma list_ascii_of_string_length s :
  List.length (list_ascii_of_string s) = String.length s.
Proof. induction s as [| c s IH]; cbn; [reflexivity | now rewrite IH]. Qed.

Lemma c_uint8_code c : c_uint8 (Z.of_nat (nat_of_ascii c)) = Z.of_nat (nat_of_ascii c).
Proof.
  unfold c_uint8, wrap_unsigned. apply Z.mod_small.
  pose proof (nat_ascii_bounded c). change (2 ^ 8) with 256. lia.
Qed.

(** A string of at most 1024 characters is stored whole: under the
    conditions on the volume, the indices and the owner under which
    [set_data_block] returns normally, [set_data_block_with_string] returns
    normally, the size of the block is the length of the string and its
    first bytes are the codes of the characters of the string, in order. *)
Theorem set_data_block_with_string_stores :
  forall block_num string_data parent_inode parent_block_num fs,
    Z.of_nat (String.length string_data) <= 1024 ->
    Superblock.num_blocks (s_block fs) < 2 ^ 31 ->
    in_volume fs block_num ->
    in_volume fs parent_inode ->
    -12 <= parent_block_num < 12 ->
    (forall k, 0 <= k < 12 ->
       Inode.direct_blocks (inodes fs parent_inode) k = -1
       \/ in_volume fs (Inode.direct_blocks (inodes fs parent_inode) k)) ->
    (exists j, 0 <= j < 12
               /\ j <> from_end DIRECT_BLOCKS_COUNT parent_block_num
               /\ Inode.direct_blocks (inodes fs parent_inode) j = -1) ->
    exists fs',
      set_data_block_with_string block_num string_data parent_inode
                                 parent_block_num fs
      = (fs', Ok tt)
      /\ DataBlock.size (data_blocks fs' block_num)
         = Z.of_nat (String.length string_data)
      /\ forall k, (k < String.length string_data)%nat ->
           DataBlock.block (data_blocks fs' block_num) (Z.of_nat k)
           = Z.of_nat (nat_of_ascii
                         (nth k (list_ascii_of_string string_data) zero)).
Proof.
  intros block_num string_data parent_inode parent_block_num fs
         Hlen Hn Hb Hp Hslot Hs Hsent.
  unfold set_data_block_with_string.
  set (codes := map (fun c => Z.of_nat (nat_of_ascii c))
                    (list_ascii_of_string string_data)).
  assert (Hcodes : List.length codes = String.length string_data).
  { unfold codes. now rewrite length_map, list_ascii_of_string_length. }
  rewrite Hcodes.
  destruct (set_data_block_runs_in_volume block_num codes
              (Z.of_nat (String.length string_data)) parent_inode
              parent_block_num fs) as [fs' Hrun]; try assumption.
  { rewrite Hcodes. lia. }
  exists fs'. split; [exact Hrun |].
  apply set_data_block_Ok_writes in Hrun.
  destruct Hrun as (Hsize & Hbytes & _).
  split.
  - rewrite Hsize. unfold c_size_t, wrap_unsigned. apply Z.mod_small. lia.
  - intros k Hk. destruct (Hbytes (Z.of_nat k) ltac:(lia)) as [_ Hbyte].
    rewrite Hbyte, Nat2Z.id. unfold codes.
    change 0 with ((fun c => Z.of_nat (nat_of_ascii c)) zero) at 1.
    rewrite map_nth. apply c_uint8_code.
Qed.

Lemma set_data_block_with_string_stores_witness :
  exists fs',
    set_data_block_with_string 5 "hello" 2 0 files16 = (fs', Ok tt)
    /\ DataBlock.size (data_blocks fs' 5) = Z.of_nat (String.length "hello")
    /\ forall k, (k < String.length "hello")%nat ->
         DataBlock.block (data_blocks fs' 5) (Z.of_nat k)
         = Z.of_nat (nat_of_ascii (nth k (list_ascii_of_string "hello") zero)).
Proof.
  apply set_data_block_with_string_stores.
  - cbn. lia.
  - vm_compute. reflexivity.
  - unfold in_volume. cbn. lia.
  - unfold in_volume. cbn. lia.
  - lia.
  - intros k _. left. reflexivity.
  - exists 1. repeat split; try lia. cbn. lia.
Defined.

(** * The exception of [mkdir] *)

(** With a name of 32 characters and a parent directory inside the volume,
    [mkdir] raises at line 116 of the constructor and has written nothing:
    [AttributeError] for a positive [idx], an assertion failure otherwise.
    The parent slot, given or not, is never looked at. *)
Theorem mkdir_exception :
  forall name idx parent parent_direct_block fs,
    Z.of_nat (String.length name) = 32 ->
    0 < parent < Superblock.num_blocks (s_block fs) ->
    Inode.n_type (inodes fs parent) = int_of_NodeType directory ->
    mkdir name idx parent parent_direct_block fs
    = (fs, Raise (if idx >? 0 then AttributeError else AssertionError 116)).
Proof.
  intros name idx parent parent_direct_block fs Hname Hparent Hdir.
  unfold mkdir, bind, gets, lift, TInode.init.
  rewrite Hname, Hdir. cbn [Z.eqb Pos.eqb negb int_of_NodeType].
  replace (parent >? 0) with true by (symmetry; apply Z.gtb_lt; lia).
  replace (parent <? Superblock.num_blocks (s_block fs)) with true
    by (symmetry; apply Z.ltb_lt; lia).
  cbn [andb negb]. rewrite Superblock_has_no_num_block.
  change (Z.of_nat (List.length TInode.default_blocks) <=? DIRECT_BLOCKS_COUNT)
    with true.
  cbn [negb]. destruct (idx >? 0); reflexivity.
Qed.

Lemma mkdir_exception_witness :
  mkdir dir2_name 0 1 (Some 40) volume16
  = (volume16, Raise (if 0 >? 0 then AttributeError else AssertionError 116)).
Proof.
  apply mkdir_exception.
  - reflexivity.
  - cbn. lia.
  - reflexivity.
Defined.

(** * [mkdir] with assertions stripped *)

Lemma TInode_init_stripped_default name n_type parent idx :
  TInode_init_stripped name n_type parent idx TInode.default_blocks
  = TInode.mk name n_type parent idx TInode.default_blocks.
Proof. reflexivity. Qed.

Lemma default_blocks_item i :
  0 <= i < 12 -> list_item TInode.default_blocks i = Ok 0.
Proof.
  intros Hi. rewrite list_item_inside by (cbn; lia). f_equal.
  unfold TInode.default_blocks. apply nth_repeat.
Qed.

Lemma store_inode_n_type_index i v fs fs' u :
  store_inode_n_type i v fs = (fs', Ok u) -> ssize_ok i = true.
Proof.
  unfold store_inode_n_type, bind, ptr. intros H.
  destruct (ssize_ok i); [reflexivity | discriminate].
Qed.

(** The loop of lines 197-198 on the default blocks: the slots it has gone
    through hold 0, the others are as before. *)
Lemma fill_slots_Ok idx :
  forall n i fs fs',
    0 <= i -> i + Z.of_nat n <= 12 ->
    for_range n i (fun i =>
      b <- lift (list_item TInode.default_blocks i) ;;
      store_direct_block idx i b) fs
    = (fs', Ok tt) ->
    (forall k, i <= k < i + Z.of_nat n ->
       Inode.direct_blocks (inodes fs' idx) k = 0)
    /\ (forall k, ~ (i <= k < i + Z.of_nat n) ->
          Inode.direct_blocks (inodes fs' idx) k
          = Inode.direct_blocks (inodes fs idx) k).
Proof.
  induction n as [| n IH]; intros i fs fs' Hi Hn H.
  - cbn in H. inv H. split; [intros k Hk; lia | reflexivity].
  - cbn [for_range] in H.
    apply bind_Ok_inv in H. destruct H as (u & mid & Hbody & H).
    apply bind_Ok_inv in Hbody. destruct Hbody as (b & mid0 & Hb & Hstore).
    unfold lift in Hb. rewrite default_blocks_item in Hb by lia. inv Hb.
    apply store_direct_block_Ok_state in Hstore.
    destruct Hstore as (_ & _ & ->).
    apply IH in H; [| lia | lia]. destruct H as [Hzero Hrest].
    assert (Hfrom : from_end DIRECT_BLOCKS_COUNT i = i).
    { unfold from_end.
      replace (i <? 0) with false by (symmetry; apply Z.ltb_ge; lia).
      reflexivity. }
    rewrite Hfrom in Hrest.
    split.
    + intros k Hk. destruct (Z.eq_dec k i) as [-> | Hne].
      * rewrite Hrest by lia. cbn. rewrite !upd_same. cbn.
        rewrite upd_same. reflexivity.
      * apply Hzero. lia.
    + intros k Hk. rewrite Hrest by lia. cbn. rewrite upd_same. cbn.
      apply upd_other. lia.
Qed.

(** What a [mkdir] that returns, assertions stripped, has done to the new
    inode: the model it returns has the default blocks, and they have been
    copied into the 12 slots. *)
Lemma mkdir_stripped_Ok name idx parent parent_direct_block fs fs' inode :
  mkdir_stripped name idx parent parent_direct_block fs = (fs', Ok inode) ->
  inode = TInode.mk name directory parent (Some idx) TInode.default_blocks
  /\ ssize_ok idx = true
  /\ forall k, 0 <= k < 12 -> Inode.direct_blocks (inodes fs' idx) k = 0.
Proof.
  unfold mkdir_stripped. cbv zeta. rewrite TInode_init_stripped_default.
  cbn [TInode.n_type TInode.name TInode.blocks TInode.idx TInode_idx].
  intros H.
  apply bind_Ok_inv in H. destruct H as (slot & fs1 & _ & H).
  apply bind_Ok_inv in H. destruct H as (u2 & fs2 & H2 & H).
  apply store_inode_n_type_index in H2.
  apply bind_Ok_inv in H. destruct H as (u3 & fs3 & _ & H).
  apply bind_Ok_inv in H. destruct H as (u4 & fs4 & _ & H).
  apply bind_Ok_inv in H. destruct H as (i & fs5 & _ & H).
  apply bind_Ok_inv in H. destruct H as (u6 & fs6 & _ & H).
  apply bind_Ok_inv in H. destruct H as (u7 & fs7 & Hloop & H).
  unfold ret in H. inv H. destruct u7.
  apply fill_slots_Ok in Hloop; [| lia | cbn; lia].
  destruct Hloop as [Hzero _].
  split; [reflexivity |]. split; [exact H2 |].
  intros k Hk. apply Hzero. cbn. lia.
Qed.

(** The search finds nothing in an inode none of whose slots holds the
    sentinel. *)
Lemma first_empty_slot_none parent fs :
  ssize_ok parent = true ->
  forall n i,
    0 <= i -> i + Z.of_nat n <= 12 ->
    (forall k, i <= k < i + Z.of_nat n ->
       Inode.direct_blocks (inodes fs parent) k <> -1) ->
    first_empty_slot n parent i fs = (fs, Ok None).
Proof.
  intros Hp. induction n as [| n IH]; intros i Hi Hn Hfull; [reflexivity |].
  cbn [first_empty_slot].
  rewrite (bind_Ok_run _ _ _ _ _
             (load_direct_block_runs parent i fs Hp
                ltac:(unfold DIRECT_BLOCKS_COUNT; lia))).
  replace (Inode.direct_blocks (inodes fs parent) i =? -1) with false
    by (symmetry; apply Z.eqb_neq; apply Hfull; lia).
  apply IH; [lia | lia |]. intros k Hk. apply Hfull. lia.
Qed.

(** A directory [mkdir] has just made has no empty slot for [mkdir]: the
    first entry to be created in it is refused with [LookupError], and
    nothing is written. *)
Lemma mkdir_new_directory_looks_full
      name idx parent parent_direct_block fs fs' inode name' idx' :
  mkdir_in false name idx parent parent_direct_block fs = (fs', Ok inode) ->
  mkdir_in false name' idx' idx None fs' = (fs', Raise LookupError).
Proof.
  unfold mkdir_in. intros H. apply mkdir_stripped_Ok in H.
  destruct H as (_ & Hidx & Hzero).
  unfold mkdir_stripped. cbv zeta. apply bind_Raise_run.
  rewrite (bind_Ok_run _ _ _ _ _
             (first_empty_slot_none idx fs' Hidx 12 0 ltac:(lia)
                ltac:(cbn; lia)
                ltac:(intros k Hk; rewrite Hzero by (cbn in Hk; lia); lia))).
  reflexivity.
Qed.



(** The same call on [volume16]: it returns, the root has the new directory
    in its slot 0, and the new directory cannot take a first entry. *)
Lemma mkdir_stripped_on_volume16 :
  snd (mkdir_in false dir2_name 2 1 None volume16)
  = Ok (TInode.mk dir2_name directory 1 (Some 2) TInode.default_blocks)
  /\ slots_from dir2_made 2 0 12 = [0; 0; 0; 0; 0; 0; 0; 0; 0; 0; 0; 0]
  /\ slots_from dir2_made 1 0 12 = [2; -1; -1; -1; -1; -1; -1; -1; -1; -1; -1; -1]
  /\ mkdir_dir3_in_dir2 dir2_made = (dir2_made, Raise LookupError).
Proof. repeat split; vm_compute; reflexivity. Qed.

Lemma check_without_idx_raises debug self fs idx_arg check_parents :
  TInode.idx self = None ->
  TInode_check_in debug self fs idx_arg check_parents = Raise AttributeError.
Proof.
  intros H. destruct debug; cbn [TInode_check_in];
    unfold TInode.check, TInode_check_stripped; rewrite H; reflexivity.
Qed.

Lemma dir2_model_matches : matches_inode dir2_model dir2_made 2.
Proof.
  unfold matches_inode. split; [vm_compute; reflexivity |].
  split; [vm_compute; reflexivity |]. split; [vm_compute; reflexivity |].
  intros k Hk.
  assert (Hc : k = 0 \/ k = 1 \/ k = 2 \/ k = 3 \/ k = 4 \/ k = 5 \/ k = 6
               \/ k = 7 \/ k = 8 \/ k = 9 \/ k = 10 \/ k = 11) by lia.
  repeat (destruct Hc as [-> | Hc]; [vm_compute; reflexivity |]).
  subst k. vm_compute. reflexivity.
Qed.

